(** * FX-HFT-Effects-on-US-Macro-Data: the notebook's data functions

    A shallow embedding of the four data functions of the notebook
    [yf_get_fx_data], [polygon_get_fx_data], [fetch_fred_data] and
    [calculate_volatility], of the cells that compose them, and of
    [plot_time_series], together with the part of pandas and numpy they
    call.  The plotting library is a parameter, as the vendors are: the
    calls made to it are recorded with their arguments.

    Conventions of the embedding.
    - A float cell is an extended real [float64]: [NaN] (pandas' null),
      the two infinities, or a finite real.  Finite arithmetic is exact
      (no rounding error, no overflow or underflow, no signed zero); the
      exceptional values follow IEEE 754 as numpy applies it.  A cell is
      so the real number its float64 stands for, and a theorem says of a
      finite cell what is true of that number: a statement on a value
      rounded to decimals allows for the rounding errors of the float64
      operations ([rounded_to]), and no statement takes a result for
      finite or for non-null that float64 overflow could make infinite
      or null.
    - A timestamp is an integer number of milliseconds since the epoch,
      read on the wall clock of the index; time zones are not modelled.
    - A table is a record of an index and named, typed columns.
    - Python effects are explicit: a computation of type [Py A] maps a
      [World] (standard output, the requests sent to the vendors, the
      store of table objects) to a result, which is a value or a raised
      exception, and a new world.
    - The three vendors are parameters of the functions that call them;
      the API keys, default arguments in the notebook, are passed by the
      caller. *)

From Stdlib Require Import Reals Lra Lia ZArith List String Ascii Bool.
From stdpp Require Import base option list gmap strings.
Import ListNotations.

Local Open Scope R_scope.

(** ** Float cells *)

Module Float.

Inductive float64 : Type :=
| NaN
| PInf
| NInf
| Fin (r : R).

Definition isna (x : float64) : bool :=
  match x with NaN => true | _ => false end.

Definition notna (x : float64) : bool := negb (isna x).

Definition fneg (x : float64) : float64 :=
  match x with
  | NaN => NaN
  | PInf => NInf
  | NInf => PInf
  | Fin a => Fin (- a)
  end.

Definition fadd (x y : float64) : float64 :=
  match x, y with
  | NaN, _ | _, NaN => NaN
  | PInf, NInf | NInf, PInf => NaN
  | PInf, _ | _, PInf => PInf
  | NInf, _ | _, NInf => NInf
  | Fin a, Fin b => Fin (a + b)
  end.

Definition fsub (x y : float64) : float64 := fadd x (fneg y).

(** The infinity of the sign of [a], for a non-zero [a]. *)
Definition inf_of_sign (a : R) : float64 :=
  if Rlt_dec 0 a then PInf else NInf.

Definition fmul (x y : float64) : float64 :=
  match x, y with
  | NaN, _ | _, NaN => NaN
  | Fin a, Fin b => Fin (a * b)
  | Fin a, PInf | PInf, Fin a =>
      if Req_dec_T a 0 then NaN else inf_of_sign a
  | Fin a, NInf | NInf, Fin a =>
      if Req_dec_T a 0 then NaN else inf_of_sign (- a)
  | PInf, PInf | NInf, NInf => PInf
  | PInf, NInf | NInf, PInf => NInf
  end.

(** numpy's true division: a division by zero raises nothing, it yields
    an infinity, or [NaN] for [0/0].  The quotient of two finite numbers
    is the exact one, where float64 rounds it, and gives an infinity or
    zero when it is out of range. *)
Definition fdiv (x y : float64) : float64 :=
  match x, y with
  | NaN, _ | _, NaN => NaN
  | Fin a, Fin b =>
      if Req_dec_T b 0
      then (if Req_dec_T a 0 then NaN else inf_of_sign a)
      else Fin (a / b)
  | Fin _, PInf | Fin _, NInf => Fin 0
  | PInf, Fin b => if Rlt_dec b 0 then NInf else PInf
  | NInf, Fin b => if Rlt_dec b 0 then PInf else NInf
  | PInf, PInf | PInf, NInf | NInf, PInf | NInf, NInf => NaN
  end.

(** [np.log]. *)
Definition flog (x : float64) : float64 :=
  match x with
  | NaN => NaN
  | PInf => PInf
  | NInf => NaN
  | Fin a =>
      if Rlt_dec 0 a then Fin (ln a)
      else if Req_dec_T a 0 then NInf
      else NaN
  end.

(** [Series.abs]. *)
Definition fabs (x : float64) : float64 :=
  match x with
  | NaN => NaN
  | PInf | NInf => PInf
  | Fin a => Fin (Rabs a)
  end.

(** [np.rint]: the nearest integer, ties to the even one. *)
Definition rint (r : R) : Z :=
  let n := Int_part r in
  let f := r - IZR n in
  if Rlt_dec f (1 / 2) then n
  else if Rlt_dec (1 / 2) f then (n + 1)%Z
  else if Z.even n then n else (n + 1)%Z.

(** [np.round(x, decimals)] for [decimals >= 0]:
    [rint (x * 10^decimals) / 10^decimals], here on the exact product.
    numpy rounds the float64 product, so that a value within the
    rounding error of half-way between two neighbours can go to the
    other one; [rounded_to] below is what holds of both. *)
Definition fround (decimals : nat) (x : float64) : float64 :=
  match x with
  | Fin a => Fin (IZR (rint (a * 10 ^ decimals)) / 10 ^ decimals)
  | _ => x
  end.

End Float.
Export Float.

(** ** Series: the values of one float column *)

Module Series.

Abbreviation Series := (list float64) (only parsing).

(** [Series.shift(periods)] for [periods >= 0]: the values move down,
    the first [periods] cells become null, the length is kept. *)
Definition shift (periods : nat) (s : Series) : Series :=
  take (length s) (replicate periods NaN ++ s).

Definition div (s t : Series) : Series := zip_with fdiv s t.

Definition dropna (s : Series) : Series := List.filter notna s.

(** The sum of the cells, as [nansum] forms it once nulls are dropped. *)
Definition nansum (s : Series) : float64 := fold_left fadd s (Fin 0).

(** [Series.mean()], which skips nulls; the mean of no value is null. *)
Definition mean (s : Series) : float64 :=
  match dropna s with
  | [] => NaN
  | v => fdiv (nansum v) (Fin (INR (length v)))
  end.

(** [Series.ffill()]: a null cell takes the last value seen above it. *)
Fixpoint ffill_from (last : float64) (s : Series) : Series :=
  match s with
  | [] => []
  | x :: r =>
      let y := if isna x then last else x in
      y :: ffill_from y r
  end.

Definition ffill (s : Series) : Series := ffill_from NaN s.

(** [Series.pct_change(periods)] as the notebook calls it, with no
    [fill_method].  The notebook's kernel is Python 3.10, so its pandas
    is older than 3.0 and the default [fill_method='pad'] applies:
    nulls are forward-filled, then [data / data.shift(periods) - 1]. *)
Definition pct_change (periods : nat) (s : Series) : Series :=
  let data := ffill s in
  map (fun q => fsub q (Fin 1)) (div data (shift periods data)).

End Series.
Export Series.

(** ** Exceptions and results *)

Inductive exn : Type :=
| KeyError (missing : list string)   (* labels not found on an axis *)
| KeyErrorText (msg : string)        (* a KeyError raised with a sentence *)
| IndexError (msg : string)
| ValueError (msg : string)
| TypeError (msg : string)
| VendorError (msg : string).        (* anything a vendor client raises *)

Inductive res (A : Type) : Type :=
| Ret (a : A)
| Raise (e : exn).
Arguments Ret {A} a.
Arguments Raise {A} e.

Definition dquote : string := String (ascii_of_nat 34) EmptyString.

Definition repr_str (s : string) : string := "'" +:+ s +:+ "'".

Fixpoint join (sep : string) (l : list string) : string :=
  match l with
  | [] => EmptyString
  | [s] => s
  | s :: r => s +:+ sep +:+ join sep r
  end.

Definition repr_list (l : list string) : string :=
  "[" +:+ join ", " (map repr_str l) +:+ "]".

Fixpoint has_char (c : ascii) (s : string) : bool :=
  match s with
  | EmptyString => false
  | String a r => Ascii.eqb a c || has_char c r
  end.

(** [repr] of a text without backslash or control character: the text
    between single quotes, or between double quotes when it holds a
    single quote and no double one (no text below holds both). *)
Definition py_repr (s : string) : string :=
  if has_char "'" s && negb (has_char (ascii_of_nat 34) s)
  then dquote +:+ s +:+ dquote
  else "'" +:+ s +:+ "'".

(** [repr] of a short [Index] of texts, with the name the index bears. *)
Definition repr_index (labels : list string) (name : option string) : string :=
  "Index(" +:+ repr_list labels +:+ ", dtype='object'" +:+
  match name with
  | Some n => ", name=" +:+ repr_str n
  | None => EmptyString
  end +:+ ")".

(** [str(e)], what the f-string [{e}] prints: the message, and for a
    [KeyError] the [repr] of its message.  [KeyError missing] is the
    error of a selection of which some labels, not all, are missing;
    its message is the list of the missing labels followed by
    ' not in index'. *)
Definition str_exn (e : exn) : string :=
  match e with
  | KeyError missing =>
      dquote +:+ repr_list missing +:+ " not in index" +:+ dquote
  | KeyErrorText msg => py_repr msg
  | IndexError msg | ValueError msg | TypeError msg | VendorError msg => msg
  end.

(** ** Tables *)

Module Frame.

Abbreviation timestamp := Z (only parsing).

Inductive column : Type :=
| Floats (xs : list float64)
| Ints (xs : list Z)
| Datetimes (xs : list timestamp)
| Objects (xs : list (option bool)).

Inductive index : Type :=
| RangeIndex (n : nat)
| DatetimeIndex (ts : list timestamp).

Record DataFrame : Type := mkDataFrame {
  df_index : index;
  df_index_name : option string;              (* [df.index.name] *)
  df_columns : list (string * column);
  df_columns_name : option string             (* [df.columns.name] *)
}.

Definition index_length (i : index) : nat :=
  match i with
  | RangeIndex n => n
  | DatetimeIndex ts => length ts
  end.

Definition nrows (df : DataFrame) : nat := index_length (df_index df).

Definition column_names (df : DataFrame) : list string :=
  map fst (df_columns df).

(** [df.empty]: some axis has length 0. *)
Definition empty (df : DataFrame) : bool :=
  (nrows df =? 0)%nat || (length (df_columns df) =? 0)%nat.

Definition has_name (name : string) (c : string * column) : bool :=
  String.eqb (fst c) name.

Definition has_column (name : string) (df : DataFrame) : bool :=
  existsb (has_name name) (df_columns df).

(** [df[name]]: the column of that name.  With several columns of the
    name pandas yields a table, which none of the uses below accepts. *)
Definition getitem (name : string) (df : DataFrame) : res column :=
  match List.filter (has_name name) (df_columns df) with
  | [] => Raise (KeyError [name])
  | [c] => Ret (snd c)
  | _ => Raise (ValueError "Cannot set a DataFrame with multiple columns")
  end.

(** A numeric column read as floats, as arithmetic on it does. *)
Definition floats (c : column) : res Series :=
  match c with
  | Floats xs => Ret xs
  | Ints xs => Ret (map (fun z => Fin (IZR z)) xs)
  | Datetimes _ | Objects _ =>
      Raise (TypeError "unsupported operand type(s)")
  end.

(** [df[name] = c]: every column of that name is overwritten where it
    stands; a new name is appended after the existing columns. *)
Definition overwrite (name : string) (c : column) (cols : list (string * column))
  : list (string * column) :=
  map (fun nc => if has_name name nc then (fst nc, c) else nc) cols.

Definition setitem (name : string) (c : column) (df : DataFrame) : DataFrame :=
  let cols := df_columns df in
  let cols' :=
    if has_column name df then overwrite name c cols
    else cols ++ [(name, c)] in
  mkDataFrame (df_index df) (df_index_name df) cols' (df_columns_name df).

(** [df[[k1, ..., kn]]]: for each key in turn, the columns of that name.
    When some keys name no column a [KeyError] lists them; when none of
    the keys names a column the [KeyError] shows the keys as an index,
    which bears the name of the column axis. *)
Definition getitems (keys : list string) (df : DataFrame) : res DataFrame :=
  match List.filter (fun k => negb (has_column k df)) keys with
  | [] =>
      Ret (mkDataFrame (df_index df) (df_index_name df)
             (flat_map (fun k => List.filter (has_name k) (df_columns df)) keys)
             (df_columns_name df))
  | missing =>
      if (length missing =? length keys)%nat
      then Raise (KeyErrorText
                    ("None of [" +:+ repr_index keys (df_columns_name df)
                       +:+ "] are in the [columns]"))
      else Raise (KeyError missing)
  end.

(** [df.drop(columns=keys)]. *)
Definition drop_columns (keys : list string) (df : DataFrame) : res DataFrame :=
  match List.filter (fun k => negb (has_column k df)) keys with
  | [] =>
      Ret (mkDataFrame (df_index df) (df_index_name df)
             (List.filter (fun nc => negb (existsb (String.eqb (fst nc)) keys))
                (df_columns df))
             (df_columns_name df))
  | missing =>
      Raise (KeyErrorText (repr_list missing +:+ " not found in axis"))
  end.

Fixpoint assoc (k : string) (m : list (string * string)) : option string :=
  match m with
  | [] => None
  | (a, b) :: r => if String.eqb a k then Some b else assoc k r
  end.

(** [df.rename(columns=mapper)]: names absent from the mapper stay. *)
Definition rename_columns (mapper : list (string * string)) (df : DataFrame)
  : DataFrame :=
  mkDataFrame (df_index df) (df_index_name df)
    (map (fun nc => (default (fst nc) (assoc (fst nc) mapper), snd nc))
       (df_columns df))
    (df_columns_name df).

(** [df.rename_axis(name, axis=1)]. *)
Definition rename_axis (name : string) (df : DataFrame) : DataFrame :=
  mkDataFrame (df_index df) (df_index_name df) (df_columns df) (Some name).

(** [df.set_index(name, inplace=True)]: the column becomes the index and
    leaves the columns; the index takes its name. *)
Definition set_index (name : string) (df : DataFrame) : res DataFrame :=
  match getitem name df with
  | Raise e => Raise e
  | Ret (Datetimes ts) =>
      Ret (mkDataFrame (DatetimeIndex ts) (Some name)
             (List.filter (fun nc => negb (has_name name nc)) (df_columns df))
             (df_columns_name df))
  | Ret _ => Raise (TypeError "index column is not a datetime column")
  end.

(** The rows selected by a mask. *)
Fixpoint select {A : Type} (mask : list bool) (xs : list A) : list A :=
  match mask, xs with
  | b :: m, x :: r => if b then x :: select m r else select m r
  | _, _ => []
  end.

Definition select_column (mask : list bool) (c : column) : column :=
  match c with
  | Floats xs => Floats (select mask xs)
  | Ints xs => Ints (select mask xs)
  | Datetimes xs => Datetimes (select mask xs)
  | Objects xs => Objects (select mask xs)
  end.

(** [df.loc[start:end]] on a datetime index in date order: the rows
    whose date lies in the closed interval.  The bounds are the instants
    the two texts stand for.  On an index that is not in date order the
    answer depends on the pandas release (the same rows with a warning,
    or a KeyError); the theorems on [fetch_fred_data] that need the rows
    assume the vendor's series in date order. *)
Definition loc_slice (start_date end_date : timestamp) (df : DataFrame)
  : res DataFrame :=
  match df_index df with
  | DatetimeIndex ts =>
      let mask := map (fun t => (start_date <=? t)%Z && (t <=? end_date)%Z) ts in
      Ret (mkDataFrame (DatetimeIndex (select mask ts)) (df_index_name df)
             (map (fun nc => (fst nc, select_column mask (snd nc)))
                (df_columns df))
             (df_columns_name df))
  | RangeIndex _ => Raise (TypeError "cannot do slice indexing on RangeIndex")
  end.

(** A strictly increasing sequence of timestamps (hence no duplicate). *)
Fixpoint strictly_increasing (ts : list timestamp) : bool :=
  match ts with
  | [] => true
  | t :: r =>
      match r with
      | [] => true
      | u :: _ => (t <? u)%Z && strictly_increasing r
      end
  end.

Definition index_timestamps (df : DataFrame) : option (list timestamp) :=
  match df_index df with
  | DatetimeIndex ts => Some ts
  | RangeIndex _ => None
  end.

End Frame.
Export Frame.

(** ** The world and the [Py] monad *)

(** A reference to a table object. *)
Abbreviation loc := nat (only parsing).

(** A request as a vendor client receives it.  The market vendors take
    their dates as the caller's ['YYYY-MM-DD'] text. *)
Inductive request : Type :=
| YfDownload (tickers start_date end_date interval : string)
| GetAggs (ticker : string) (multiplier : Z)
    (timespan from_ to api_key : string)
| GetSeries (series_id api_key : string).

Record World : Type := mkWorld {
  stdout : list string;            (* the lines printed so far *)
  requests : list request;         (* the vendor requests sent so far *)
  heap : gmap loc DataFrame        (* the table objects *)
}.

Definition Py (A : Type) : Type := World -> res A * World.

Definition ret {A : Type} (a : A) : Py A := fun w => (Ret a, w).

Definition bind {A B : Type} (m : Py A) (k : A -> Py B) : Py B :=
  fun w =>
    match m w with
    | (Ret a, w') => k a w'
    | (Raise e, w') => (Raise e, w')
    end.

Notation "x <- m ;; k" := (bind m (fun x => k))
  (at level 100, m at next level, right associativity).
Notation "m ;;; k" := (bind m (fun _ => k))
  (at level 100, right associativity).

(** A pure step that may raise. *)
Definition lift {A : Type} (r : res A) : Py A := fun w => (r, w).

Definition print (line : string) : Py unit :=
  fun w => (Ret tt, mkWorld (stdout w ++ [line]) (requests w) (heap w)).

(** [try: body except Exception as e: handler e].  Every exception of the
    model is an [Exception]. *)
Definition try_except {A : Type} (body : Py A) (handler : exn -> Py A) : Py A :=
  fun w =>
    match body w with
    | (Ret a, w') => (Ret a, w')
    | (Raise e, w') => handler e w'
    end.

(** Sending a request to a vendor: the request is recorded, the answer
    is the vendor's. *)
Definition send {A : Type} (q : request) (answer : res A) : Py A :=
  fun w => (answer, mkWorld (stdout w) (requests w ++ [q]) (heap w)).

(** ** The vendors' answers *)

(** Vendor A ([yf.download]): a time-indexed table whose column labels
    are flat names, or (Price, Ticker) pairs. *)
Inductive ycolumns : Type :=
| FlatColumns (cols : list (string * column))
| MultiColumns (cols : list ((string * string) * column)).

Record YFrame : Type := mkYFrame {
  y_index : list timestamp;
  y_index_name : option string;
  y_columns : ycolumns
}.

(** Vendor B ([RESTClient.get_aggs]): a list of aggregate bars, with the
    fields of the client's [Agg] class in its order.  An absent float is
    [NaN]. *)
Record Agg : Type := mkAgg {
  agg_open : float64;
  agg_high : float64;
  agg_low : float64;
  agg_close : float64;
  agg_volume : float64;
  agg_vwap : float64;
  agg_timestamp : Z;
  agg_transactions : Z;
  agg_otc : option bool
}.

(** [pd.DataFrame(aggs)]: one column per field, a range index; no bar
    gives the table with no row and no column. *)
Definition DataFrame_of_aggs (aggs : list Agg) : DataFrame :=
  match aggs with
  | [] => mkDataFrame (RangeIndex 0) None [] None
  | _ =>
      mkDataFrame (RangeIndex (length aggs)) None
        [ ("open", Floats (map agg_open aggs));
          ("high", Floats (map agg_high aggs));
          ("low", Floats (map agg_low aggs));
          ("close", Floats (map agg_close aggs));
          ("volume", Floats (map agg_volume aggs));
          ("vwap", Floats (map agg_vwap aggs));
          ("timestamp", Ints (map agg_timestamp aggs));
          ("transactions", Ints (map agg_transactions aggs));
          ("otc", Objects (map agg_otc aggs)) ]
        None
  end.

(** The macro vendor ([Fred.get_series]): the full history of a series,
    dated values in date order, unnamed. *)
Abbreviation FredSeries := (list (timestamp * float64)) (only parsing).

(** [pd.DataFrame(data, columns=[name])] of an unnamed series. *)
Definition DataFrame_of_series (data : FredSeries) (name : string) : DataFrame :=
  mkDataFrame (DatetimeIndex (map fst data)) None
    [(name, Floats (map snd data))] None.

(** ** The normalizers *)

(** [df.index.name = name]. *)
Definition set_index_name (name : string) (df : DataFrame) : DataFrame :=
  mkDataFrame (df_index df) (Some name) (df_columns df) (df_columns_name df).

Definition ms_per_minute : Z := 60000.

(** [index.strftime('%Y-%m-%d %H:%M')]: the text keeps the minute and
    drops what is below; it is identified with the minute it names. *)
Definition strftime_Ymd_HM (t : timestamp) : Z := (t / ms_per_minute)%Z.

(** [pd.to_datetime] of such a text. *)
Definition to_datetime_Ymd_HM (minute : Z) : timestamp :=
  (minute * ms_per_minute)%Z.

(** [columns.droplevel(1)]. *)
Definition droplevel1 (c : ycolumns) : res (list (string * column)) :=
  match c with
  | MultiColumns cols => Ret (map (fun lc => (fst (fst lc), snd lc)) cols)
  | FlatColumns _ =>
      Raise (IndexError "Too many levels: Index has only 1 level, not 2")
  end.

(** The instants pandas can hold: nanoseconds in 64 bits, that is
    9223372036854 milliseconds either side of the epoch. *)
Definition datetime_ms_max : Z := 9223372036854.

Definition in_datetime_range (t : Z) : bool :=
  (- datetime_ms_max <=? t)%Z && (t <=? datetime_ms_max)%Z.

(** [pd.to_datetime(column, unit="ms")] of an integer column: an integer
    out of the range raises OutOfBoundsDatetime, a ValueError (the
    wording is that of pandas 1.5). *)
Definition to_datetime_ms (c : column) : res column :=
  match c with
  | Ints xs =>
      if forallb in_datetime_range xs then Ret (Datetimes xs)
      else Raise (ValueError "cannot convert input with unit 'ms'")
  | Datetimes xs => Ret (Datetimes xs)
  | Floats _ | Objects _ => Raise (TypeError "not convertible to datetime")
  end.

Section Normalizers.

Variable yf_download : string -> string -> string -> string -> res YFrame.
Variable get_aggs :
  string -> Z -> string -> string -> string -> string -> res (list Agg).
Variable get_series : string -> string -> res FredSeries.

Definition yf_get_fx_data (fx_pair interval start_date end_date : string)
  : Py (option DataFrame) :=
  try_except
    (data <- send (YfDownload fx_pair start_date end_date interval)
               (yf_download fx_pair start_date end_date interval) ;;
     let index := map strftime_Ymd_HM (y_index data) in
     columns <- lift (droplevel1 (y_columns data)) ;;
     let index := map to_datetime_Ymd_HM index in
     let data :=
       mkDataFrame (DatetimeIndex index) (y_index_name data) columns
         (Some fx_pair) in
     data <- lift (getitems ["Open"; "High"; "Low"; "Adj Close"] data) ;;
     ret (Some data))
    (fun e => print ("An error occurred: " +:+ str_exn e) ;;; ret None).

Definition polygon_get_fx_data
    (fx_pair interval start_date end_date api_key : string)
  : Py (option DataFrame) :=
  try_except
    (let fx_pair_polygon_formated := "C:" +:+ fx_pair in
     data_request <-
       send (GetAggs fx_pair_polygon_formated 1 interval
               start_date end_date api_key)
         (get_aggs fx_pair_polygon_formated 1 interval
            start_date end_date api_key) ;;
     let df := DataFrame_of_aggs data_request in
     if empty df then
       print "No data found." ;;; ret None
     else
       ts <- lift (getitem "timestamp" df) ;;
       dt <- lift (to_datetime_ms ts) ;;
       let df := setitem "Datetime" dt df in
       df <- lift (set_index "Datetime" df) ;;
       df <- lift (drop_columns ["otc"; "transactions"; "timestamp"] df) ;;
       let df :=
         rename_columns
           [("open", "Open"); ("high", "High"); ("low", "Low");
            ("close", "Adj Close"); ("volume", "Volume")] df in
       let df := rename_axis fx_pair df in
       ret (Some df))
    (fun e => print ("An error occurred: " +:+ str_exn e) ;;; ret None).

Definition fetch_fred_data
    (indicator : string) (start_date end_date : timestamp) (api_key : string)
  : Py (option DataFrame) :=
  try_except
    (data <- send (GetSeries indicator api_key)
               (get_series indicator api_key) ;;
     let df := DataFrame_of_series data indicator in
     let df := set_index_name "Date" df in
     df <- lift (loc_slice start_date end_date df) ;;
     c <- lift (getitem indicator df) ;;
     v <- lift (floats c) ;;
     let df :=
       setitem "Percentage_Change"
         (Floats (map (fround 4) (pct_change 1 v))) df in
     df <- (if String.eqb indicator "CPIAUCSL" then
              c <- lift (getitem indicator df) ;;
              v <- lift (floats c) ;;
              ret (setitem "YoY_Inflation"
                     (Floats (map (fround 2)
                                (map (fun x => fmul x (Fin 100))
                                   (pct_change 12 v)))) df)
            else ret df) ;;
     ret (Some df))
    (fun e => print ("Error fetching data: " +:+ str_exn e) ;;; ret None).

End Normalizers.

(** ** The volatility feature extractor *)

(** Reading and writing the table object behind a reference. *)
Definition deref (l : loc) : Py DataFrame :=
  fun w =>
    match heap w !! l with
    | Some df => (Ret df, w)
    | None => (Raise (ValueError "dangling reference"), w)
    end.

Definition store (l : loc) (df : DataFrame) : Py unit :=
  fun w => (Ret tt, mkWorld (stdout w) (requests w) (<[l := df]> (heap w))).

(** [df[name]] read as a float series, on the object behind [l]. *)
Definition read_series (l : loc) (name : string) : Py Series :=
  df <- deref l ;;
  c <- lift (getitem name df) ;;
  lift (floats c).

(** [df[name] = s], in place on the object behind [l]. *)
Definition write_series (l : loc) (name : string) (s : Series) : Py unit :=
  df <- deref l ;;
  store l (setitem name (Floats s) df).

(** [df[name] = x] for a scalar [x]: one copy per row. *)
Definition write_scalar (l : loc) (name : string) (x : float64) : Py unit :=
  df <- deref l ;;
  store l (setitem name (Floats (replicate (nrows df) x)) df).

Definition calculate_volatility (df : option loc) : Py (option loc) :=
  match df with
  | None => print "Error: DataFrame is empty or invalid." ;;; ret None
  | Some l =>
      d <- deref l ;;
      if empty d then
        print "Error: DataFrame is empty or invalid." ;;; ret None
      else
        (* Calculate Log Returns *)
        close <- read_series l "Adj Close" ;;
        close' <- read_series l "Adj Close" ;;
        write_series l "Log_Returns" (map flog (div close (shift 1 close'))) ;;;
        (* Compute Volatility *)
        log_returns <- read_series l "Log_Returns" ;;
        write_series l "Volatility" (map fabs log_returns) ;;;
        (* Compute Average Volatility based on number of rows *)
        volatility <- read_series l "Volatility" ;;
        write_scalar l "Average_Volatility" (mean volatility) ;;;
        (* Compute Volatility Multiplier *)
        volatility <- read_series l "Volatility" ;;
        average <- read_series l "Average_Volatility" ;;
        write_series l "Volatility_Multiplier"
          (map (fround 2) (div volatility average)) ;;;
        ret (Some l)
  end.

(** ** Vocabulary of the statements *)

(** The four series [calculate_volatility] derives from the closes. *)
Definition log_returns (close : Series) : Series :=
  map flog (div close (shift 1 close)).

Definition volatility (close : Series) : Series :=
  map fabs (log_returns close).

Definition average_volatility (close : Series) : float64 :=
  mean (volatility close).

Definition volatility_multiplier (close : Series) : Series :=
  map (fround 2)
    (div (volatility close)
       (replicate (length close) (average_volatility close))).

(** The table [calculate_volatility] leaves behind its argument. *)
Definition augment (d : DataFrame) (close : Series) : DataFrame :=
  setitem "Volatility_Multiplier" (Floats (volatility_multiplier close))
    (setitem "Average_Volatility"
       (Floats (replicate (nrows d) (average_volatility close)))
       (setitem "Volatility" (Floats (volatility close))
          (setitem "Log_Returns" (Floats (log_returns close)) d))).

Definition new_columns : list string :=
  ["Log_Returns"; "Volatility"; "Average_Volatility"; "Volatility_Multiplier"].

(** No two columns bear the same name. *)
Fixpoint distinct (names : list string) : bool :=
  match names with
  | [] => true
  | n :: r => negb (existsb (String.eqb n) r) && distinct r
  end.

Definition unique_names (d : DataFrame) : bool := distinct (column_names d).

Definition column_length (c : column) : nat :=
  match c with
  | Floats xs => length xs
  | Ints xs => length xs
  | Datetimes xs => length xs
  | Objects xs => length xs
  end.

(** Every column has one cell per row. *)
Definition aligned (d : DataFrame) : bool :=
  forallb (fun nc => (column_length (snd nc) =? nrows d)%nat) (df_columns d).

(** The closes of a table: its ['Adj Close'] column read as floats. *)
Definition closes (d : DataFrame) : res Series :=
  match getitem "Adj Close" d with
  | Ret c => floats c
  | Raise e => Raise e
  end.

(** The float column [name] of the table behind [l] in world [w]. *)
Definition column_at (w : World) (l : loc) (name : string) : option Series :=
  match heap w !! l with
  | Some d =>
      match getitem name d with
      | Ret (Floats s) => Some s
      | _ => None
      end
  | None => None
  end.

Definition with_heap (w : World) (h : gmap loc DataFrame) : World :=
  mkWorld (stdout w) (requests w) h.

(** A finite, strictly positive price. *)
Definition positive (x : float64) : Prop :=
  match x with
  | Fin a => 0 < a
  | _ => False
  end.

(** A world with nothing printed, nothing sent and no table. *)
Definition initial : World := mkWorld [] [] ∅.

(** The table object behind [l] is [d], a table with distinct column
    names and one cell per row in every column. *)
Definition table_at (w : World) (l : loc) (d : DataFrame) : Prop :=
  heap w !! l = Some d /\ unique_names d = true /\ aligned d = true.

Definition error_line : string := "Error: DataFrame is empty or invalid.".

(** The world after one more line is printed, one more request is sent. *)
Definition printed (w : World) (line : string) : World :=
  mkWorld (stdout w ++ [line]) (requests w) (heap w).

Definition sent (w : World) (q : request) : World :=
  mkWorld (stdout w) (requests w ++ [q]) (heap w).

(** A volatility is null, infinite, or a finite non-negative real. *)
Definition nonneg (x : float64) : Prop :=
  match x with
  | PInf => True
  | Fin a => 0 <= a
  | _ => False
  end.

(** The table the vendor-B normalizer builds from a non-empty answer. *)
Definition polygon_frame (fx_pair : string) (aggs : list Agg) : DataFrame :=
  mkDataFrame (DatetimeIndex (map agg_timestamp aggs)) (Some "Datetime")
    [ ("Open", Floats (map agg_open aggs));
      ("High", Floats (map agg_high aggs));
      ("Low", Floats (map agg_low aggs));
      ("Adj Close", Floats (map agg_close aggs));
      ("Volume", Floats (map agg_volume aggs));
      ("vwap", Floats (map agg_vwap aggs)) ]
    (Some fx_pair).

Definition polygon_columns : list string :=
  ["Open"; "High"; "Low"; "Adj Close"; "Volume"; "vwap"].

(** A timestamp cut to its minute. *)
Definition floor_minute (t : timestamp) : timestamp :=
  to_datetime_Ymd_HM (strftime_Ymd_HM t).

(** The vendor-A answer once its index and columns are rewritten, before
    the four columns are selected. *)
Definition yf_frame (fx_pair : string) (data : YFrame)
    (cols : list ((string * string) * column)) : DataFrame :=
  mkDataFrame (DatetimeIndex (map floor_minute (y_index data)))
    (y_index_name data)
    (map (fun lc => (fst (fst lc), snd lc)) cols)
    (Some fx_pair).

Definition yf_keys : list string := ["Open"; "High"; "Low"; "Adj Close"].

(** The rows of a series whose date lies in the closed interval. *)
Definition window (start_date end_date : timestamp) (data : FredSeries)
  : FredSeries :=
  List.filter
    (fun r => (start_date <=? fst r)%Z && (fst r <=? end_date)%Z) data.

Definition percentage_change (v : Series) : Series :=
  map (fround 4) (pct_change 1 v).

Definition yoy_inflation (v : Series) : Series :=
  map (fround 2) (map (fun x => fmul x (Fin 100)) (pct_change 12 v)).

(** The table [fetch_fred_data] builds from the vendor's series. *)
Definition fred_frame (indicator : string) (start_date end_date : timestamp)
    (data : FredSeries) : DataFrame :=
  let win := window start_date end_date data in
  let v := map snd win in
  let df :=
    setitem "Percentage_Change" (Floats (percentage_change v))
      (mkDataFrame (DatetimeIndex (map fst win)) (Some "Date")
         [(indicator, Floats v)] None) in
  if String.eqb indicator "CPIAUCSL"
  then setitem "YoY_Inflation" (Floats (yoy_inflation v)) df
  else df.

(** The two column sets of the canonical schema, as sets of names. *)
Definition same_set (l k : list string) : Prop := forall x, In x l <-> In x k.

Definition canonical_columns (d : DataFrame) : Prop :=
  same_set (column_names d) ["Open"; "High"; "Low"; "Close"] \/
  same_set (column_names d) ["Open"; "High"; "Low"; "Close"; "Volume"].

Definition increasing_index (d : DataFrame) : bool :=
  match index_timestamps d with
  | Some ts => strictly_increasing ts
  | None => false
  end.


(** Agreement to within one unit of the fifth decimal, the precision of
    the figures quoted for the three-row example. *)
Definition close_to (x y : R) : Prop := Rabs (x - y) < 0.00001.

(** What the rounding errors of the float64 operations of one cell can
    amount to, for operands of moderate size. *)
Definition rounding_error : R := 1 / 10 ^ 8.

(** [m] is [x] rounded to [decimals] places as float64 arithmetic does
    it: a multiple of [10^-decimals], at most half a unit away from [x],
    each up to the rounding error of the operations.  (Which of the two
    neighbours a value half-way between them, or within the rounding
    error of half-way, goes to is left open.) *)
Definition rounded_to (decimals : nat) (x m : R) : Prop :=
  (exists k : Z, Rabs (m * 10 ^ decimals - IZR k) <= rounding_error) /\
  Rabs (m - x) <= 1 / (2 * 10 ^ decimals) + rounding_error.

(** ** Sample data *)

Definition frame_of_closes (index : list timestamp) (close : Series)
  : DataFrame :=
  mkDataFrame (DatetimeIndex index) (Some "Datetime")
    [("Adj Close", Floats close)] (Some "USDGBP").

Definition one_row : DataFrame := frame_of_closes [0%Z] [Fin 100].

Definition two_rows : DataFrame :=
  frame_of_closes [0%Z; 60000%Z] [Fin 100; Fin 100].

Definition null_second_row : DataFrame :=
  frame_of_closes [0%Z; 60000%Z] [Fin 100; NaN].

Definition example_closes : Series := [Fin 100; Fin 101; Fin 100.5].

Definition three_rows : DataFrame :=
  frame_of_closes [0; 60000; 120000]%Z example_closes.

Definition example_return_1 : R := ln (101 / 100).
Definition example_return_2 : R := ln (100.5 / 101).
Definition example_mean : R :=
  (0 + Rabs example_return_1 + Rabs example_return_2) / INR 2.

Definition no_rows : DataFrame :=
  mkDataFrame (DatetimeIndex []) (Some "Datetime")
    [("Open", Floats []); ("High", Floats []); ("Low", Floats []);
     ("Adj Close", Floats [])] (Some "GBPUSD=X").

(** The world whose only table object is [d], at reference 0. *)
Definition holding (d : DataFrame) : World :=
  with_heap initial {[ 0%nat := d ]}.

Definition bar (t : Z) (price : R) : Agg :=
  mkAgg (Fin price) (Fin price) (Fin price) (Fin price) (Fin 39) (Fin price)
    t 39 None.

Definition sample_aggs : list Agg :=
  [bar 1705276800000 0.78513; bar 1705276860000 0.78528].

Definition sample_get_aggs
  : string -> Z -> string -> string -> string -> string -> res (list Agg) :=
  fun _ _ _ _ _ _ => Ret sample_aggs.

Definition sample_prices : column := Floats [Fin 1.2795; Fin 1.2797].

Definition sample_yframe : YFrame :=
  mkYFrame [1741132800000; 1741132860000]%Z (Some "Datetime")
    (MultiColumns
       [ (("Adj Close", "GBPUSD=X"), sample_prices);
         (("Close", "GBPUSD=X"), sample_prices);
         (("High", "GBPUSD=X"), sample_prices);
         (("Low", "GBPUSD=X"), sample_prices);
         (("Open", "GBPUSD=X"), sample_prices);
         (("Volume", "GBPUSD=X"), Ints [0; 0]%Z) ]).

(** The answer of a vendor-A client that no longer serves ['Adj Close']. *)
Definition yframe_without_adj_close : YFrame :=
  mkYFrame [1741132800000; 1741132860000]%Z (Some "Datetime")
    (MultiColumns
       [ (("Close", "GBPUSD=X"), sample_prices);
         (("High", "GBPUSD=X"), sample_prices);
         (("Low", "GBPUSD=X"), sample_prices);
         (("Open", "GBPUSD=X"), sample_prices);
         (("Volume", "GBPUSD=X"), Ints [0; 0]%Z) ]).

Definition sample_yf_download
  : string -> string -> string -> string -> res YFrame :=
  fun _ _ _ _ => Ret sample_yframe.

(** What the checkpoint's normalizer makes of the same answer. *)
Definition sample_checkpoint_result : DataFrame :=
  mkDataFrame (DatetimeIndex [1741132800000; 1741132860000]%Z)
    (Some "Datetime")
    [("Open", sample_prices); ("High", sample_prices);
     ("Low", sample_prices); ("Close", sample_prices)]
    (Some "GBPUSD=X").

Definition sample_yf_result : DataFrame :=
  mkDataFrame (DatetimeIndex [1741132800000; 1741132860000]%Z)
    (Some "Datetime")
    [("Open", sample_prices); ("High", sample_prices);
     ("Low", sample_prices); ("Adj Close", sample_prices)]
    (Some "GBPUSD=X").

(** A macro vendor that knows no series named after the derived column. *)
Definition sample_get_series (history : FredSeries)
  : string -> string -> res FredSeries :=
  fun series_id _ =>
    if String.eqb series_id "YoY_Inflation"
    then Raise (VendorError "Bad Request.  The series does not exist.")
    else Ret history.

(** Thirteen monthly observations, January 2015 to January 2016; the last
    one is missing. *)
Definition cpi_history : FredSeries :=
  [ (1420070400000, Fin 100); (1422748800000, Fin 100);
    (1425168000000, Fin 100); (1427846400000, Fin 100);
    (1430438400000, Fin 100); (1433116800000, Fin 100);
    (1435708800000, Fin 100); (1438387200000, Fin 100);
    (1441065600000, Fin 100); (1443657600000, Fin 100);
    (1446336000000, Fin 100); (1448928000000, Fin 102);
    (1451606400000, NaN) ]%Z.

Definition jan_2015 : timestamp := 1420070400000%Z.
Definition jan_2016 : timestamp := 1451606400000%Z.

(** ** The notebook's calls *)

(** A table a normalizer returns is a new object: it takes a reference
    that no object of the store has. *)
Definition alloc (d : DataFrame) : Py loc :=
  fun w =>
    let l := fresh (dom (heap w)) in
    (Ret l, with_heap w (<[l := d]> (heap w))).

Definition new_table (r : option DataFrame) : Py (option loc) :=
  match r with
  | None => ret None
  | Some d => l <- alloc d ;; ret (Some l)
  end.

Section Calls.

Variable yf_download : string -> string -> string -> string -> res YFrame.
Variable get_aggs :
  string -> Z -> string -> string -> string -> string -> res (list Agg).

(** [calculate_volatility(yf_get_fx_data(fx_pair, interval, start_date,
    end_date))], the first of the two composed cells, with the
    normalizer of the notebook (which keeps the cell as a comment). *)
Definition yf_volatility (fx_pair interval start_date end_date : string)
  : Py (option loc) :=
  data <- yf_get_fx_data yf_download fx_pair interval start_date end_date ;;
  df <- new_table data ;;
  calculate_volatility df.

(** [calculate_volatility(polygon_get_fx_data(fx_pair, interval,
    start_date, end_date))]. *)
Definition polygon_volatility
    (fx_pair interval start_date end_date api_key : string)
  : Py (option loc) :=
  data <- polygon_get_fx_data get_aggs fx_pair interval start_date end_date
            api_key ;;
  df <- new_table data ;;
  calculate_volatility df.

(** The second cell, as the checkpoint copy of the notebook runs it;
    [polygon_get_fx_data] is the same in both copies. *)
Definition polygon_fx_data (api_key : string) : Py (option loc) :=
  polygon_volatility "USDGBP" "minute" "2024-01-15" "2025-01-15" api_key.

End Calls.

(** ** The checkpoint copy of the notebook *)

(** The checkpoint copy kept beside the notebook differs from it in its
    [yf_get_fx_data], which selects the column Close where the notebook
    selects Adj Close, and in the two composed cells, which it runs. *)
Module Checkpoint.

Definition yf_keys : list string := ["Open"; "High"; "Low"; "Close"].

Section Calls.

Variable yf_download : string -> string -> string -> string -> res YFrame.

Definition yf_get_fx_data (fx_pair interval start_date end_date : string)
  : Py (option DataFrame) :=
  try_except
    (data <- send (YfDownload fx_pair start_date end_date interval)
               (yf_download fx_pair start_date end_date interval) ;;
     let index := map strftime_Ymd_HM (y_index data) in
     columns <- lift (droplevel1 (y_columns data)) ;;
     let index := map to_datetime_Ymd_HM index in
     let data :=
       mkDataFrame (DatetimeIndex index) (y_index_name data) columns
         (Some fx_pair) in
     data <- lift (getitems ["Open"; "High"; "Low"; "Close"] data) ;;
     ret (Some data))
    (fun e => print ("An error occurred: " +:+ str_exn e) ;;; ret None).

(** [calculate_volatility(yf_get_fx_data(fx_pair, interval, start_date,
    end_date))] with the functions of the checkpoint copy;
    [calculate_volatility] is the same in both copies. *)
Definition yf_volatility (fx_pair interval start_date end_date : string)
  : Py (option loc) :=
  data <- yf_get_fx_data fx_pair interval start_date end_date ;;
  df <- new_table data ;;
  calculate_volatility df.

(** The first cell, as the checkpoint copy runs it. *)
Definition fx_data : Py (option loc) :=
  yf_volatility "GBPUSD=X" "1m" "2025-03-05" "2025-03-08".

End Calls.

End Checkpoint.

(** ** Plotting *)

(** The calls [plot_time_series] makes to the plotting library, with the
    arguments it passes. *)
Inductive command : Type :=
| Subplots (width height : Z)
| PlotColumns (i : index) (cols : list (string * column))
| SetXlabel (label : string) (fontsize : Z)
| SetYlabel (label : string) (fontsize : Z)
| SetTitle (title : string) (fontsize : Z)
| TickParams (axis : string) (rotation : Z)
| SetMajorFormatter (fmt : string)
| SetMajorLocator
| SetXlim (left right : option Z)
| Grid (which linestyle : string) (linewidth alpha : R)
| Show.

(** The world of a plotting call: the world as before, and the calls
    made to the plotting library so far. *)
Record Screen : Type := mkScreen {
  screen_world : World;
  drawn : list command
}.

Definition Plt (A : Type) : Type := Screen -> res A * Screen.

Definition pbind {A B : Type} (m : Plt A) (k : A -> Plt B) : Plt B :=
  fun s =>
    match m s with
    | (Ret a, s') => k a s'
    | (Raise e, s') => (Raise e, s')
    end.

Notation "m ;>> k" := (pbind m (fun _ => k))
  (at level 100, right associativity).

Definition pret {A : Type} (a : A) : Plt A := fun s => (Ret a, s).

Definition pprint (line : string) : Plt unit :=
  fun s =>
    (Ret tt, mkScreen (printed (screen_world s) line) (drawn s)).

(** [index.min()] and [index.max()]; of an empty index they are null. *)
Definition index_min (i : index) : option Z :=
  match i with
  | RangeIndex O => None
  | RangeIndex (S _) => Some 0%Z
  | DatetimeIndex [] => None
  | DatetimeIndex (t :: r) => Some (fold_left Z.min r t)
  end.

Definition index_max (i : index) : option Z :=
  match i with
  | RangeIndex O => None
  | RangeIndex (S n) => Some (Z.of_nat n)
  | DatetimeIndex [] => None
  | DatetimeIndex (t :: r) => Some (fold_left Z.max r t)
  end.

(** [df.columns.name if df.columns.name else "FX Pair"]: an absent name
    and the empty name both give the default. *)
Definition axis_label (df : DataFrame) : string :=
  match df_columns_name df with
  | Some (String a r) => String a r
  | Some EmptyString | None => "FX Pair"
  end.

Section Plotting.

(** The plotting library: what each call answers. *)
Variable backend : command -> res unit.

(** A call to the library: it is recorded, its answer is the library's. *)
Definition draw (c : command) : Plt unit :=
  fun s => (backend c, mkScreen (screen_world s) (drawn s ++ [c])).

(** [plot_time_series(df, column)], on a table.  Both ways out return
    None, here [tt]. *)
Definition plot_time_series (df : DataFrame) (column : string) : Plt unit :=
  if negb (has_column column df) then
    pprint ("Error: Column '" +:+ column +:+ "' not found in DataFrame.")
  else
    let fx_pair := axis_label df in
    (* Create plot *)
    draw (Subplots 12 6) ;>>
    draw (PlotColumns (df_index df)
            (List.filter (has_name column) (df_columns df))) ;>>
    (* Improve x-axis readability *)
    draw (SetXlabel "Datetime" 12) ;>>
    draw (SetYlabel column 12) ;>>
    draw (SetTitle ("'" +:+ fx_pair +:+ "' " +:+ column +:+ " Over Time") 14) ;>>
    draw (TickParams "x" 0) ;>>
    (if negb (has_column "vwap" df) then
       (* Format x-axis to time *)
       draw (SetMajorFormatter "%H:%M") ;>>
       draw SetMajorLocator ;>>
       draw (SetXlim (index_min (df_index df)) (index_max (df_index df)))
     else pret tt) ;>>
    draw (Grid "major" "-" 0.6 1) ;>>
    draw (Grid "minor" "-" 0.5 1) ;>>
    draw Show.

End Plotting.

(** A library that accepts every call. *)
Definition accepting : command -> res unit := fun _ => Ret tt.

(** The screen before any call to the plotting library. *)
Definition blank (w : World) : Screen := mkScreen w [].

(** A timestamp on a minute boundary. *)
Definition on_the_minute (t : timestamp) : bool :=
  (t mod ms_per_minute =? 0)%Z.

(** The closes multiplied by [k]. *)
Definition scaled (k : R) (close : Series) : Series :=
  map (fun x => fmul x (Fin k)) close.

(** The first cell of a list, and its last. *)
Definition first_of (ts : list Z) : option Z := head ts.
Definition last_of (ts : list Z) : option Z := last ts.


(** The calls that shape the x axis. *)
Definition sets_x_axis (c : command) : bool :=
  match c with
  | SetMajorFormatter _ | SetMajorLocator | SetXlim _ _ => true
  | _ => false
  end.

(** The title of the plot of [column] for the axis name [name]. *)
Definition title_of (name column : string) : command :=
  SetTitle ("'" +:+ name +:+ "' " +:+ column +:+ " Over Time") 14.

(** The three-row table with every close doubled. *)
Definition doubled_rows : DataFrame :=
  frame_of_closes [0; 60000; 120000]%Z (scaled 2 example_closes).

(** A table whose close bears the vendor's name, not Adj Close. *)
Definition without_closes : DataFrame :=
  mkDataFrame (DatetimeIndex [0%Z]) (Some "Datetime")
    [("Close", Floats [Fin 100])] None.

(** An answer of vendor A that has none of the four selected fields, and
    a client that gives it. *)
Definition yframe_without_prices : YFrame :=
  mkYFrame [1741132800000; 1741132860000]%Z (Some "Datetime")
    (MultiColumns [ (("Volume", "GBPUSD=X"), Ints [0; 0]%Z) ]).

Definition volume_yf_download
  : string -> string -> string -> string -> res YFrame :=
  fun _ _ _ _ => Ret yframe_without_prices.

(** A vendor-A client that no longer serves Adj Close. *)
Definition old_yf_download
  : string -> string -> string -> string -> res YFrame :=
  fun _ _ _ _ => Ret yframe_without_adj_close.

(** A vendor B that has no bar for the request. *)
Definition no_aggs
  : string -> Z -> string -> string -> string -> string -> res (list Agg) :=
  fun _ _ _ _ _ _ => Ret [].

Ltac neq_str := let H := fresh in intros H; discriminate H.

(** Case analysis on the comparisons of reals in a goal. *)
Ltac split_R :=
  repeat match goal with
    | |- context [Req_dec_T ?a ?b] => destruct (Req_dec_T a b)
    | |- context [Rlt_dec ?a ?b] => destruct (Rlt_dec a b)
    end.

(** Case analysis on the answers of the plotting library. *)
Ltac run_backend backend :=
  repeat match goal with
         | |- context [backend ?c] =>
             let H := fresh "Hc" in
             destruct (backend c) as [[]|?] eqn:H; simpl
         end.

(** * Properties *)

(** ** Columns of a table *)

Section TableLemmas.
Implicit Types (cols : list (string * column)) (d : DataFrame)
  (n m : string) (c : column).

Lemma has_name_eq n (nc : string * column) :
  has_name n nc = true <-> fst nc = n.
Proof. unfold has_name. apply String.eqb_eq. Qed.

Lemma has_column_false_filter n cols :
  existsb (has_name n) cols = false -> List.filter (has_name n) cols = [].
Proof.
  induction cols as [|a cols IH]; simpl; [done|].
  intros H. apply orb_false_iff in H as [Ha Hr].
  rewrite Ha. auto.
Qed.

Lemma existsb_names n cols :
  existsb (has_name n) cols = existsb (String.eqb n) (map fst cols).
Proof.
  induction cols as [|a cols IH]; simpl; [done|].
  rewrite IH. unfold has_name. by rewrite String.eqb_sym.
Qed.

Lemma overwrite_names n c cols : map fst (overwrite n c cols) = map fst cols.
Proof.
  induction cols as [|a cols IH]; simpl; [done|].
  rewrite IH. by destruct (has_name n a).
Qed.

Lemma filter_overwrite_eq n c cols :
  distinct (map fst cols) = true ->
  existsb (has_name n) cols = true ->
  exists n', List.filter (has_name n) (overwrite n c cols) = [(n', c)].
Proof.
  induction cols as [|a cols IH]; simpl; [done|].
  intros Hd Hex. apply andb_true_iff in Hd as [Hna Hd].
  destruct (has_name n a) eqn:Ha; simpl.
  - unfold has_name at 1. simpl. fold (has_name n a). rewrite Ha.
    apply has_name_eq in Ha. subst n.
    apply negb_true_iff in Hna. rewrite <- existsb_names in Hna.
    assert (Hno : existsb (has_name (fst a)) (overwrite (fst a) c cols) = false).
    { rewrite existsb_names, overwrite_names, <- existsb_names. exact Hna. }
    rewrite (has_column_false_filter _ _ Hno). eauto.
  - rewrite Ha. simpl in Hex. auto.
Qed.

Lemma filter_overwrite_ne n m c cols :
  n <> m ->
  List.filter (has_name m) (overwrite n c cols) = List.filter (has_name m) cols.
Proof.
  intros Hne. induction cols as [|a cols IH]; simpl; [done|].
  destruct (has_name n a) eqn:Ha.
  - apply has_name_eq in Ha.
    assert (has_name m a = false) as Hm.
    { apply not_true_iff_false. rewrite has_name_eq. congruence. }
    rewrite Hm. unfold has_name at 1. simpl. fold (has_name m a).
    by rewrite Hm.
  - by rewrite IH.
Qed.

(** A column reads back as it was written. *)
Lemma getitem_setitem_eq d n c :
  unique_names d = true -> getitem n (setitem n c d) = Ret c.
Proof.
  intros Hu. unfold getitem, setitem. simpl.
  destruct (has_column n d) eqn:Hc; unfold has_column in Hc.
  - destruct (filter_overwrite_eq n c (df_columns d) Hu Hc) as [n' ->]. done.
  - rewrite List.filter_app, (has_column_false_filter _ _ Hc). simpl.
    unfold has_name. simpl. by rewrite String.eqb_refl.
Qed.

(** Writing a column leaves the columns of another name as they were. *)
Lemma getitem_setitem_ne d n m c :
  n <> m -> getitem m (setitem n c d) = getitem m d.
Proof.
  intros Hne. unfold getitem, setitem. simpl.
  destruct (has_column n d).
  - by rewrite filter_overwrite_ne.
  - rewrite List.filter_app. simpl.
    assert (has_name m (n, c) = false) as ->.
    { apply not_true_iff_false. rewrite has_name_eq. done. }
    by rewrite app_nil_r.
Qed.

Lemma distinct_snoc (names : list string) n :
  distinct names = true -> existsb (String.eqb n) names = false ->
  distinct (names ++ [n]) = true.
Proof.
  induction names as [|a names IH]; simpl; [done|].
  intros Hd Hn. apply andb_true_iff in Hd as [Ha Hd].
  apply orb_false_iff in Hn as [Hna Hn].
  apply andb_true_iff. split; [|auto].
  rewrite existsb_app. simpl. apply negb_true_iff in Ha. rewrite Ha. simpl.
  rewrite String.eqb_sym, Hna. done.
Qed.

Lemma unique_names_setitem d n c :
  unique_names d = true -> unique_names (setitem n c d) = true.
Proof.
  unfold unique_names, column_names, setitem. simpl. intros Hu.
  destruct (has_column n d) eqn:Hc.
  - by rewrite overwrite_names.
  - rewrite map_app. simpl. apply distinct_snoc; [done|].
    unfold has_column in Hc. by rewrite <- existsb_names.
Qed.

Lemma columns_setitem_fresh d n c :
  has_column n d = false ->
  df_columns (setitem n c d) = df_columns d ++ [(n, c)].
Proof. unfold setitem. simpl. by intros ->. Qed.

Lemma has_column_setitem_ne d n m c :
  n <> m -> has_column m (setitem n c d) = has_column m d.
Proof.
  intros Hne. unfold has_column. rewrite !existsb_names.
  unfold setitem. simpl. destruct (has_column n d).
  - by rewrite overwrite_names.
  - rewrite map_app, existsb_app. simpl.
    assert ((m =? n)%string = false) as ->.
    { apply String.eqb_neq. congruence. }
    by rewrite !orb_false_r.
Qed.

Lemma has_column_setitem_eq d n c : has_column n (setitem n c d) = true.
Proof.
  unfold setitem.
  destruct (has_column n d) eqn:Hd; unfold has_column; simpl.
  - by rewrite existsb_names, overwrite_names, <- existsb_names.
  - rewrite existsb_app. simpl. unfold has_name. simpl.
    by rewrite String.eqb_refl, orb_true_r.
Qed.

Lemma filter_unique n cols :
  distinct (map fst cols) = true ->
  existsb (has_name n) cols = true ->
  map fst (List.filter (has_name n) cols) = [n].
Proof.
  induction cols as [|a cols IH]; simpl; [done|].
  intros Hd Hex. apply andb_true_iff in Hd as [Hna Hd].
  destruct (has_name n a) eqn:Ha; simpl.
  - apply has_name_eq in Ha. subst n.
    apply negb_true_iff in Hna. rewrite <- existsb_names in Hna.
    by rewrite (has_column_false_filter _ _ Hna).
  - auto.
Qed.

(** A successful selection keeps the index and takes, key by key, the
    columns of that name. *)
Lemma getitems_inv keys d d' :
  getitems keys d = Ret d' ->
  df_index d' = df_index d /\
  df_columns d'
  = flat_map (fun k => List.filter (has_name k) (df_columns d)) keys /\
  forallb (fun k => has_column k d) keys = true.
Proof.
  unfold getitems.
  destruct (List.filter _ keys) as [|m r] eqn:Hf;
    [|by destruct (_ =? _)%nat].
  intros H. injection H as <-. repeat split.
  apply forallb_forall. intros k Hk.
  destruct (has_column k d) eqn:Hc; [done|].
  assert (In k (List.filter (fun k => negb (has_column k d)) keys)) as Hin.
  { apply List.filter_In. by rewrite Hc. }
  by rewrite Hf in Hin.
Qed.

Lemma flat_map_names_subset keys cols n :
  In n (map fst (flat_map (fun k => List.filter (has_name k) cols) keys)) ->
  In n keys.
Proof.
  rewrite in_map_iff. intros (nc & <- & Hin).
  apply in_flat_map in Hin as (k & Hk & Hin).
  apply List.filter_In in Hin as [_ Hn]. apply has_name_eq in Hn.
  by rewrite Hn.
Qed.

Lemma flat_map_names_unique keys cols :
  distinct (map fst cols) = true ->
  forallb (fun k => existsb (has_name k) cols) keys = true ->
  map fst (flat_map (fun k => List.filter (has_name k) cols) keys) = keys.
Proof.
  intros Hd. induction keys as [|k keys IH]; simpl; [done|].
  intros Hk. apply andb_true_iff in Hk as [Hk Hks].
  rewrite map_app, (filter_unique _ _ Hd Hk), IH by done. done.
Qed.

Lemma getitem_nonempty d n c : getitem n d = Ret c -> df_columns d <> [].
Proof. unfold getitem. by destruct (df_columns d). Qed.

Lemma empty_false d n c :
  nrows d <> 0%nat -> getitem n d = Ret c -> empty d = false.
Proof.
  intros Hr Hg. unfold empty. apply orb_false_iff. split.
  - by apply Nat.eqb_neq.
  - apply Nat.eqb_neq. apply getitem_nonempty in Hg.
    by destruct (df_columns d).
Qed.

Lemma getitem_aligned d n c :
  aligned d = true -> getitem n d = Ret c -> column_length c = nrows d.
Proof.
  unfold aligned, getitem. intros Ha Hg.
  destruct (List.filter (has_name n) (df_columns d)) as [|a [|b r]] eqn:Hf;
    try done.
  injection Hg as <-.
  assert (In a (List.filter (has_name n) (df_columns d))) as Hin
    by (rewrite Hf; left; done).
  apply List.filter_In in Hin as [Hin _].
  rewrite forallb_forall in Ha. apply Ha in Hin. by apply Nat.eqb_eq in Hin.
Qed.

Lemma floats_length c (s : Series) :
  floats c = Ret s -> length s = column_length c.
Proof.
  destruct c; simpl; intros H; try done; injection H as <-; [done|].
  by rewrite length_map.
Qed.

Lemma closes_inv d (s : Series) :
  closes d = Ret s ->
  exists c, getitem "Adj Close" d = Ret c /\ floats c = Ret s.
Proof. unfold closes. destruct (getitem _ d); [eauto|done]. Qed.

Lemma closes_length d (s : Series) :
  aligned d = true -> closes d = Ret s -> length s = nrows d.
Proof.
  intros Ha Hc. apply closes_inv in Hc as (c & Hg & Hf).
  rewrite (floats_length _ _ Hf). eauto using getitem_aligned.
Qed.

End TableLemmas.

(** ** Float cells *)

Section FloatLemmas.

Lemma fdiv_fin a b : b <> 0 -> fdiv (Fin a) (Fin b) = Fin (a / b).
Proof. intros H. simpl. by destruct (Req_dec_T b 0). Qed.

Lemma fdiv_zero_zero : fdiv (Fin 0) (Fin 0) = NaN.
Proof. simpl. destruct (Req_dec_T 0 0); [done|lra]. Qed.

Lemma fdiv_nan_r x : fdiv x NaN = NaN.
Proof. by destruct x. Qed.

Lemma flog_pos a : 0 < a -> flog (Fin a) = Fin (ln a).
Proof. intros H. simpl. by destruct (Rlt_dec 0 a). Qed.

(** The log return of two positive prices is a finite real. *)
Lemma positive_ratio p q :
  positive p -> positive q ->
  exists a b, p = Fin a /\ q = Fin b /\ flog (fdiv q p) = Fin (ln (b / a)).
Proof.
  destruct p as [| | |a], q as [| | |b]; simpl; try done. intros Ha Hb.
  exists a, b. repeat split.
  destruct (Req_dec_T a 0); [lra|].
  apply flog_pos. by apply Rdiv_lt_0_compat.
Qed.

Lemma fabs_nonneg x : notna (fabs x) = true -> nonneg (fabs x).
Proof. destruct x; simpl; try done. intros _. apply Rabs_pos. Qed.

Lemma fadd_nonneg x y : nonneg x -> nonneg y -> nonneg (fadd x y).
Proof. destruct x, y; simpl; try done. lra. Qed.

(** [rint] of a real within half a unit of an integer is that integer. *)
Lemma rint_near (x : R) (n : Z) :
  IZR n - 1 / 2 < x < IZR n + 1 / 2 -> rint x = n.
Proof.
  intros [Hlo Hhi]. unfold rint.
  destruct (base_Int_part x) as [Hm1 Hm2].
  set (m := Int_part x) in *.
  destruct (Rlt_dec (x - IZR m) (1 / 2)) as [Hf|Hf].
  - assert (n < m + 1)%Z by (apply lt_IZR; rewrite plus_IZR; lra).
    assert (m < n + 1)%Z by (apply lt_IZR; rewrite plus_IZR; lra).
    lia.
  - destruct (Rlt_dec (1 / 2) (x - IZR m)) as [Hg|Hg].
    + assert (m < n)%Z by (apply lt_IZR; lra).
      assert (n < m + 2)%Z by (apply lt_IZR; rewrite plus_IZR; lra).
      lia.
    + assert (m < n)%Z by (apply lt_IZR; lra).
      assert (n < m + 1)%Z by (apply lt_IZR; rewrite plus_IZR; lra).
      lia.
Qed.

Lemma fround2_near (x : R) (n : Z) :
  IZR n - 1 / 2 < x * 100 < IZR n + 1 / 2 ->
  fround 2 (Fin x) = Fin (IZR n / 100).
Proof.
  intros H. unfold fround.
  replace (10 ^ 2) with 100 by (simpl; lra).
  by rewrite (rint_near _ _ H).
Qed.

End FloatLemmas.

(** ** Rounding to decimals *)

Section Rounding.

Lemma rint_error (x : R) : - (1 / 2) <= IZR (rint x) - x <= 1 / 2.
Proof.
  unfold rint. destruct (base_Int_part x) as [Hm1 Hm2].
  set (m := Int_part x) in *.
  destruct (Rlt_dec (x - IZR m) (1 / 2)) as [Hf|Hf].
  - lra.
  - destruct (Rlt_dec (1 / 2) (x - IZR m)) as [Hg|Hg].
    + rewrite plus_IZR. lra.
    + destruct (Z.even m); [|rewrite plus_IZR]; lra.
Qed.

Lemma fround2_error (x : R) :
  exists y, fround 2 (Fin x) = Fin y /\ Rabs (y - x) <= 0.005.
Proof.
  eexists. split; [reflexivity|].
  replace (10 ^ 2) with 100 by (simpl; lra).
  pose proof (rint_error (x * 100)) as H.
  apply Rabs_le. lra.
Qed.

Lemma rounding_error_pos : 0 < rounding_error.
Proof.
  unfold rounding_error. apply Rdiv_lt_0_compat; [lra|]. apply pow_lt. lra.
Qed.

Lemma fround_rounded_to (decimals : nat) (x : R) :
  exists m, fround decimals (Fin x) = Fin m /\ rounded_to decimals x m.
Proof.
  eexists. split; [reflexivity|].
  assert (0 < 10 ^ decimals) as Hp by (apply pow_lt; lra).
  pose proof rounding_error_pos as He.
  pose proof (rint_error (x * 10 ^ decimals)) as Hr.
  set (k := rint (x * 10 ^ decimals)) in *.
  split.
  - exists k.
    replace (IZR k / 10 ^ decimals * 10 ^ decimals - IZR k) with 0
      by (field; lra).
    rewrite Rabs_R0. lra.
  - replace (IZR k / 10 ^ decimals - x)
      with ((IZR k - x * 10 ^ decimals) / 10 ^ decimals) by (field; lra).
    assert (Rabs ((IZR k - x * 10 ^ decimals) / 10 ^ decimals)
            <= 1 / (2 * 10 ^ decimals)) as Hb.
    { unfold Rdiv. rewrite Rabs_mult, (Rabs_right (/ 10 ^ decimals)).
      - replace (1 * / (2 * 10 ^ decimals))
          with (1 / 2 * / 10 ^ decimals) by (field; lra).
        apply Rmult_le_compat_r.
        + left. by apply Rinv_0_lt_compat.
        + apply Rabs_le. lra.
      - left. by apply Rinv_0_lt_compat. }
    lra.
Qed.

End Rounding.

(** ** Bounds on the logarithm *)

Section Logarithm.

Lemma exp_pow_lower (n : nat) (x : R) :
  0 <= 1 + x -> (1 + x) ^ n <= exp (INR n * x).
Proof.
  intros Hx. induction n as [|n IH].
  - simpl. rewrite Rmult_0_l, exp_0. lra.
  - rewrite S_INR, Rmult_plus_distr_r, Rmult_1_l, exp_plus.
    simpl. rewrite Rmult_comm.
    apply Rmult_le_compat; [by apply pow_le|done|done|apply exp_ineq1_le].
Qed.

Lemma ln_le_of_le_exp (c u : R) : 0 < c -> c <= exp u -> ln c <= u.
Proof.
  intros Hc Hle. destruct (Rle_lt_dec (ln c) u) as [|Hlt]; [done|].
  apply exp_increasing in Hlt. rewrite exp_ln in Hlt by done. lra.
Qed.

(** [ln c <= u] as soon as [c <= (1 + u/n)^n]. *)
Lemma ln_upper (n : nat) (c u N : R) :
  0 < c -> INR n = N -> 0 < N -> 0 <= 1 + u / N ->
  c <= (1 + u / N) ^ n -> ln c <= u.
Proof.
  intros Hc HN Hpos H1 Hle. apply ln_le_of_le_exp; [done|].
  etransitivity; [exact Hle|].
  replace u with (INR n * (u / N)) at 2 by (rewrite HN; field; lra).
  by apply exp_pow_lower.
Qed.

(** [l <= ln c] as soon as [1/c <= (1 - l/n)^n]. *)
Lemma ln_lower (n : nat) (c l N : R) :
  0 < c -> INR n = N -> 0 < N -> 0 <= 1 + - l / N ->
  / c <= (1 + - l / N) ^ n -> l <= ln c.
Proof.
  intros Hc HN Hpos H1 Hle.
  assert (ln (/ c) <= - l) as H.
  { apply (ln_upper n _ _ N); try done. by apply Rinv_0_lt_compat. }
  rewrite ln_Rinv in H by done. lra.
Qed.

Lemma INR_16 : INR 16 = 16.
Proof. simpl. lra. Qed.

Lemma ln_101_100 : 0.009945 <= example_return_1 <= 0.009954.
Proof.
  unfold example_return_1. split.
  - apply (ln_lower 16 _ _ 16); [lra|exact INR_16|lra|lra|simpl; lra].
  - apply (ln_upper 16 _ _ 16); [lra|exact INR_16|lra|lra|simpl; lra].
Qed.

Lemma ln_1005_1010 : - 0.00497 <= example_return_2 <= - 0.004961.
Proof.
  unfold example_return_2. split.
  - apply (ln_lower 16 _ _ 16); [lra|exact INR_16|lra|lra|simpl; lra].
  - apply (ln_upper 16 _ _ 16); [lra|exact INR_16|lra|lra|simpl; lra].
Qed.

End Logarithm.

(** ** Series *)

Section SeriesLemmas.
Implicit Types (s : Series).

Lemma map_replicate {A B} (f : A -> B) n x :
  map f (replicate n x) = replicate n (f x).
Proof. exact (fmap_replicate f n x). Qed.

Lemma div_replicate s n x :
  (length s <= n)%nat -> div s (replicate n x) = map (fun v => fdiv v x) s.
Proof.
  revert n. induction s as [|a s IH]; intros n Hn; [by destruct n|].
  destruct n as [|n]; simpl in *; [lia|].
  unfold div in *. simpl. f_equal. apply IH. lia.
Qed.

Lemma shift1_cons x s : shift 1 (x :: s) = NaN :: take (length s) (x :: s).
Proof. done. Qed.

Lemma shift1_replicate n (x : float64) :
  shift 1 (replicate (S n) x) = NaN :: replicate n x.
Proof.
  unfold shift. rewrite length_replicate. simpl. f_equal.
  change (x :: replicate n x) with (replicate (S n) x).
  rewrite take_replicate. f_equal. lia.
Qed.

Lemma shift_length n s : length (shift n s) = length s.
Proof.
  unfold shift. rewrite length_take, length_app, length_replicate. lia.
Qed.

Lemma shift_lookup_lt n s (i : nat) :
  (i < n)%nat -> (i < length s)%nat -> shift n s !! i = Some NaN.
Proof.
  intros Hn Hs. unfold shift. rewrite lookup_take_lt by done.
  rewrite lookup_app_l by (rewrite length_replicate; lia).
  by apply lookup_replicate_2.
Qed.

Lemma shift_lookup_ge n s (i : nat) :
  (n <= i)%nat -> (i < length s)%nat -> shift n s !! i = s !! (i - n)%nat.
Proof.
  intros Hn Hs. unfold shift. rewrite lookup_take_lt by done.
  rewrite lookup_app_r by (rewrite length_replicate; lia).
  by rewrite length_replicate.
Qed.

Lemma log_returns_length s : length (log_returns s) = length s.
Proof.
  unfold log_returns, div.
  rewrite length_map, length_zip_with, shift_length. lia.
Qed.

Lemma log_returns_0 s : s <> [] -> log_returns s !! 0%nat = Some NaN.
Proof.
  destruct s as [|x s]; [done|]. intros _.
  unfold log_returns, div. rewrite shift1_cons. simpl.
  by rewrite fdiv_nan_r.
Qed.

Lemma log_returns_S s (t : nat) p q :
  s !! t = Some p -> s !! S t = Some q ->
  log_returns s !! S t = Some (flog (fdiv q p)).
Proof.
  intros Hp Hq. unfold log_returns, div.
  rewrite list_lookup_fmap, lookup_zip_with, Hq. simpl.
  rewrite shift_lookup_ge; [|lia|by eapply lookup_lt_Some].
  replace (S t - 1)%nat with t by lia. by rewrite Hp.
Qed.

Lemma volatility_length s : length (volatility s) = length s.
Proof. unfold volatility. by rewrite length_map, log_returns_length. Qed.

Lemma volatility_0 s : s <> [] -> volatility s !! 0%nat = Some NaN.
Proof.
  intros H. unfold volatility.
  by rewrite list_lookup_fmap, log_returns_0.
Qed.

Lemma volatility_S s (t : nat) p q :
  s !! t = Some p -> s !! S t = Some q ->
  volatility s !! S t = Some (fabs (flog (fdiv q p))).
Proof.
  intros Hp Hq. unfold volatility.
  by rewrite list_lookup_fmap, (log_returns_S _ _ _ _ Hp Hq).
Qed.

Lemma volatility_multiplier_lookup s (i : nat) v :
  volatility s !! i = Some v ->
  volatility_multiplier s !! i
  = Some (fround 2 (fdiv v (average_volatility s))).
Proof.
  intros Hv. unfold volatility_multiplier.
  rewrite div_replicate by (rewrite volatility_length; lia).
  by rewrite !list_lookup_fmap, Hv.
Qed.

Lemma nansum_nonneg_from acc s :
  nonneg acc -> Forall nonneg s -> nonneg (fold_left fadd s acc).
Proof.
  revert acc. induction s as [|x s IH]; intros acc Ha Hs; [done|].
  inversion Hs; subst. simpl. apply IH; [by apply fadd_nonneg|done].
Qed.

Lemma dropna_volatility_nonneg s : Forall nonneg (dropna (volatility s)).
Proof.
  unfold volatility, dropna. apply Forall_forall. intros x Hx.
  apply list_elem_of_In, List.filter_In in Hx as [Hin Hn].
  apply in_map_iff in Hin as (y & <- & _). by apply fabs_nonneg.
Qed.

(** With one defined volatility, the average is an infinity or a finite
    non-negative real: it is not null. *)
Lemma average_volatility_nonneg s (i : nat) v :
  volatility s !! i = Some v -> notna v = true ->
  nonneg (average_volatility s).
Proof.
  intros Hi Hv. unfold average_volatility, mean.
  assert (In v (dropna (volatility s))) as Hin.
  { unfold dropna. apply List.filter_In. split; [|done].
    apply list_elem_of_In. eapply list_elem_of_lookup_2. exact Hi. }
  pose proof (dropna_volatility_nonneg s) as Hall.
  destruct (dropna (volatility s)) as [|x r] eqn:Hd; [done|].
  assert (nonneg (nansum (x :: r))) as Hs.
  { unfold nansum. apply nansum_nonneg_from; [simpl; lra|done]. }
  assert (0 < INR (length (x :: r))) as Hpos.
  { apply lt_0_INR. simpl. lia. }
  destruct (nansum (x :: r)) as [| | |a]; simpl in Hs; try done.
  - simpl. destruct (Rlt_dec _ 0); [|done].
    simpl in Hpos. lra.
  - rewrite fdiv_fin by lra. simpl.
    apply Rmult_le_pos; [done|]. left. by apply Rinv_0_lt_compat.
Qed.

End SeriesLemmas.

(** ** Closes that are all equal *)

Section Constant.
Variable c : R.
Hypothesis c_nonzero : c <> 0.

Lemma fdiv_self : fdiv (Fin c) (Fin c) = Fin 1.
Proof using c_nonzero. rewrite fdiv_fin by done. f_equal. by field. Qed.

Lemma log_returns_constant n :
  log_returns (replicate (S n) (Fin c)) = NaN :: replicate n (Fin 0).
Proof using c_nonzero.
  unfold log_returns, div. rewrite shift1_replicate. simpl. f_equal.
  rewrite zip_with_replicate, fdiv_self.
  rewrite map_replicate, flog_pos by lra. by rewrite ln_1.
Qed.

Lemma volatility_constant n :
  volatility (replicate (S n) (Fin c)) = NaN :: replicate n (Fin 0).
Proof using c_nonzero.
  unfold volatility. rewrite log_returns_constant. simpl. f_equal.
  rewrite map_replicate. simpl. by rewrite Rabs_R0.
Qed.

Lemma dropna_zeros n : dropna (replicate n (Fin 0)) = replicate n (Fin 0).
Proof. induction n as [|n IH]; [done|]. simpl. by rewrite IH. Qed.

Lemma nansum_zeros n : nansum (replicate n (Fin 0)) = Fin 0.
Proof.
  unfold nansum. induction n as [|n IH]; [done|].
  simpl. by rewrite Rplus_0_l.
Qed.

Lemma mean_zeros n : mean (NaN :: replicate (S n) (Fin 0)) = Fin 0.
Proof.
  unfold mean.
  change (dropna (NaN :: replicate (S n) (Fin 0)))
    with (dropna (replicate (S n) (Fin 0))).
  rewrite dropna_zeros.
  change (fdiv (nansum (replicate (S n) (Fin 0)))
            (Fin (INR (length (replicate (S n) (Fin 0))))) = Fin 0).
  rewrite nansum_zeros, length_replicate.
  rewrite fdiv_fin by (apply not_0_INR; lia).
  f_equal. unfold Rdiv. apply Rmult_0_l.
Qed.

Lemma average_volatility_constant n :
  average_volatility (replicate (S (S n)) (Fin c)) = Fin 0.
Proof using c_nonzero.
  unfold average_volatility. rewrite volatility_constant. apply mean_zeros.
Qed.

Lemma volatility_multiplier_constant n :
  volatility_multiplier (replicate (S (S n)) (Fin c))
  = replicate (S (S n)) NaN.
Proof using c_nonzero.
  unfold volatility_multiplier.
  rewrite div_replicate by (rewrite volatility_length; lia).
  rewrite average_volatility_constant, volatility_constant, map_map.
  change (replicate (S (S n)) NaN) with (NaN :: replicate (S n) NaN).
  rewrite map_cons, map_replicate, fdiv_zero_zero. done.
Qed.

End Constant.

(** ** Percentage changes *)

Section PctChange.
Implicit Types (s : Series).

Lemma ffill_from_length last s : length (ffill_from last s) = length s.
Proof.
  revert last. induction s as [|x s IH]; intros last; [done|].
  simpl. by rewrite IH.
Qed.

Lemma ffill_length s : length (ffill s) = length s.
Proof. apply ffill_from_length. Qed.

Lemma ffill_from_notna last s (t : nat) x :
  s !! t = Some x -> notna x = true -> ffill_from last s !! t = Some x.
Proof.
  revert last t. induction s as [|y s IH]; intros last t Ht Hx; [done|].
  destruct t as [|t]; simpl in *.
  - injection Ht as ->. unfold notna in Hx.
    by destruct (isna x).
  - by apply IH.
Qed.

(** Forward filling leaves the non-null cells as they are. *)
Lemma ffill_notna s (t : nat) x :
  s !! t = Some x -> notna x = true -> ffill s !! t = Some x.
Proof. apply ffill_from_notna. Qed.

Lemma pct_change_length p s : length (pct_change p s) = length s.
Proof.
  unfold pct_change, div.
  rewrite length_map, length_zip_with, shift_length, ffill_length. lia.
Qed.

Lemma pct_change_lt p s (t : nat) :
  (t < p)%nat -> (t < length s)%nat -> pct_change p s !! t = Some NaN.
Proof.
  intros Hp Hs. unfold pct_change, div.
  rewrite list_lookup_fmap, lookup_zip_with.
  rewrite shift_lookup_lt by (rewrite ?ffill_length; done).
  destruct (lookup_lt_is_Some_2 (ffill s) t) as [x ->];
    [by rewrite ffill_length|].
  simpl. by rewrite fdiv_nan_r.
Qed.

Lemma pct_change_ge p s (t : nat) x y :
  ffill s !! (t + p)%nat = Some x -> ffill s !! t = Some y ->
  pct_change p s !! (t + p)%nat = Some (fsub (fdiv x y) (Fin 1)).
Proof.
  intros Hx Hy. unfold pct_change, div.
  rewrite list_lookup_fmap, lookup_zip_with, Hx. simpl.
  rewrite shift_lookup_ge; [|lia|by eapply lookup_lt_Some].
  replace (t + p - p)%nat with t by lia. by rewrite Hy.
Qed.

Lemma yoy_inflation_length s : length (yoy_inflation s) = length s.
Proof. unfold yoy_inflation. by rewrite !length_map, pct_change_length. Qed.

Lemma yoy_inflation_lt s (t : nat) :
  (t < 12)%nat -> (t < length s)%nat -> yoy_inflation s !! t = Some NaN.
Proof.
  intros Hp Hs. unfold yoy_inflation.
  by rewrite !list_lookup_fmap, pct_change_lt.
Qed.

Lemma yoy_inflation_ge s (t : nat) x y :
  ffill s !! (t + 12)%nat = Some x -> ffill s !! t = Some y ->
  yoy_inflation s !! (t + 12)%nat
  = Some (fround 2 (fmul (fsub (fdiv x y) (Fin 1)) (Fin 100))).
Proof.
  intros Hx Hy. unfold yoy_inflation.
  by rewrite !list_lookup_fmap, (pct_change_ge _ _ _ _ _ Hx Hy).
Qed.

Lemma yoy_inflation_null s (t : nat) x y :
  ffill s !! (t + 12)%nat = Some x -> ffill s !! t = Some y ->
  x = NaN \/ y = NaN ->
  yoy_inflation s !! (t + 12)%nat = Some NaN.
Proof.
  intros Hx Hy Hn. rewrite (yoy_inflation_ge _ _ _ _ Hx Hy).
  destruct Hn as [-> | ->]; [done|]. by destruct x.
Qed.

Lemma yoy_inflation_rounded s (t : nat) a b :
  ffill s !! (t + 12)%nat = Some (Fin a) -> ffill s !! t = Some (Fin b) ->
  b <> 0 ->
  exists m, yoy_inflation s !! (t + 12)%nat = Some (Fin m) /\
            rounded_to 2 ((a / b - 1) * 100) m.
Proof.
  intros Hx Hy Hb. rewrite (yoy_inflation_ge _ _ _ _ Hx Hy).
  rewrite fdiv_fin by done.
  change (fmul (fsub (Fin (a / b)) (Fin 1)) (Fin 100))
    with (Fin ((a / b + - 1) * 100)).
  destruct (fround_rounded_to 2 ((a / b + - 1) * 100)) as (m & -> & Hm).
  exists m. split; [done|].
  by replace ((a / b - 1) * 100) with ((a / b + - 1) * 100) by lra.
Qed.

End PctChange.

(** ** Running [calculate_volatility] *)

Section Run.
Implicit Types (w : World) (l : loc) (d : DataFrame) (s close : Series).

Lemma bind_ret {A B} (m : Py A) (k : A -> Py B) w a w' :
  m w = (Ret a, w') -> bind m k w = k a w'.
Proof. unfold bind. by intros ->. Qed.

Lemma deref_run w l d : heap w !! l = Some d -> deref l w = (Ret d, w).
Proof. unfold deref. by intros ->. Qed.

Lemma read_series_run w l d name c s :
  heap w !! l = Some d -> getitem name d = Ret c -> floats c = Ret s ->
  read_series l name w = (Ret s, w).
Proof.
  intros Hl Hg Hf. unfold read_series.
  rewrite (bind_ret _ _ _ _ _ (deref_run _ _ _ Hl)).
  unfold bind, lift. by rewrite Hg, Hf.
Qed.

Lemma write_series_run w l d name s :
  heap w !! l = Some d ->
  write_series l name s w =
  (Ret tt, with_heap w (<[l := setitem name (Floats s) d]> (heap w))).
Proof.
  intros Hl. unfold write_series.
  by rewrite (bind_ret _ _ _ _ _ (deref_run _ _ _ Hl)).
Qed.

Lemma write_scalar_run w l d name x :
  heap w !! l = Some d ->
  write_scalar l name x w =
  (Ret tt,
   with_heap w (<[l := setitem name (Floats (replicate (nrows d) x)) d]> (heap w))).
Proof.
  intros Hl. unfold write_scalar.
  by rewrite (bind_ret _ _ _ _ _ (deref_run _ _ _ Hl)).
Qed.

(** On a table with rows, distinct column names and closes, the function
    returns its argument, whose object it has turned into [augment]. *)
Lemma calculate_volatility_run w l d close :
  heap w !! l = Some d ->
  unique_names d = true ->
  aligned d = true ->
  nrows d <> 0%nat ->
  closes d = Ret close ->
  calculate_volatility (Some l) w =
  (Ret (Some l), with_heap w (<[l := augment d close]> (heap w))).
Proof.
  intros Hl Hu Ha Hr Hc.
  pose proof (closes_length _ _ Ha Hc) as Hlen.
  apply closes_inv in Hc as (c & Hg & Hf).
  unfold calculate_volatility.
  rewrite (bind_ret _ _ _ _ _ (deref_run _ _ _ Hl)).
  rewrite (empty_false _ _ _ Hr Hg).
  rewrite (bind_ret _ _ _ _ _ (read_series_run _ _ _ _ _ _ Hl Hg Hf)).
  rewrite (bind_ret _ _ _ _ _ (read_series_run _ _ _ _ _ _ Hl Hg Hf)).
  rewrite (bind_ret _ _ _ _ _ (write_series_run _ _ _ _ _ Hl)).
  set (d1 := setitem "Log_Returns" _ d).
  assert (Hu1 : unique_names d1 = true) by by apply unique_names_setitem.
  set (w1 := with_heap w _).
  assert (Hl1 : heap w1 !! l = Some d1) by apply lookup_insert_eq.
  rewrite (bind_ret _ _ _ _ _
             (read_series_run _ _ _ _ _ _ Hl1 (getitem_setitem_eq _ _ _ Hu) eq_refl)).
  rewrite (bind_ret _ _ _ _ _ (write_series_run _ _ _ _ _ Hl1)).
  fold (log_returns close). fold (volatility close).
  set (d2 := setitem "Volatility" _ d1).
  assert (Hu2 : unique_names d2 = true) by by apply unique_names_setitem.
  set (w2 := with_heap w1 _).
  assert (Hl2 : heap w2 !! l = Some d2) by apply lookup_insert_eq.
  rewrite (bind_ret _ _ _ _ _
             (read_series_run _ _ _ _ _ _ Hl2 (getitem_setitem_eq _ _ _ Hu1) eq_refl)).
  rewrite (bind_ret _ _ _ _ _ (write_scalar_run _ _ _ _ _ Hl2)).
  fold (average_volatility close).
  set (d3 := setitem "Average_Volatility" _ d2).
  assert (Hu3 : unique_names d3 = true) by by apply unique_names_setitem.
  set (w3 := with_heap w2 _).
  assert (Hl3 : heap w3 !! l = Some d3) by apply lookup_insert_eq.
  assert (Hv3 : getitem "Volatility" d3 = Ret (Floats (volatility close))).
  { unfold d3. rewrite getitem_setitem_ne by neq_str.
    by apply getitem_setitem_eq. }
  rewrite (bind_ret _ _ _ _ _ (read_series_run _ _ _ _ _ _ Hl3 Hv3 eq_refl)).
  rewrite (bind_ret _ _ _ _ _
             (read_series_run _ _ _ _ _ _ Hl3 (getitem_setitem_eq _ _ _ Hu2) eq_refl)).
  rewrite (bind_ret _ _ _ _ _ (write_series_run _ _ _ _ _ Hl3)).
  unfold ret. f_equal.
  unfold w3, w2, w1, with_heap. simpl. f_equal.
  rewrite !insert_insert_eq. f_equal.
  unfold augment, volatility_multiplier. fold d1 d2.
  replace (nrows d2) with (nrows d) by done. fold d3.
  by rewrite Hlen.
Qed.

Lemma augment_log_returns d close :
  unique_names d = true ->
  getitem "Log_Returns" (augment d close) = Ret (Floats (log_returns close)).
Proof.
  intros Hu. unfold augment.
  rewrite !getitem_setitem_ne by neq_str. by apply getitem_setitem_eq.
Qed.

Lemma augment_volatility d close :
  unique_names d = true ->
  getitem "Volatility" (augment d close) = Ret (Floats (volatility close)).
Proof.
  intros Hu. unfold augment.
  rewrite !getitem_setitem_ne by neq_str.
  by apply getitem_setitem_eq, unique_names_setitem.
Qed.

Lemma augment_average d close :
  unique_names d = true ->
  getitem "Average_Volatility" (augment d close)
  = Ret (Floats (replicate (nrows d) (average_volatility close))).
Proof.
  intros Hu. unfold augment.
  rewrite !getitem_setitem_ne by neq_str.
  by apply getitem_setitem_eq; repeat apply unique_names_setitem.
Qed.

Lemma augment_multiplier d close :
  unique_names d = true ->
  getitem "Volatility_Multiplier" (augment d close)
  = Ret (Floats (volatility_multiplier close)).
Proof.
  intros Hu. unfold augment.
  by apply getitem_setitem_eq; repeat apply unique_names_setitem.
Qed.

Lemma column_at_insert w l d' name s :
  getitem name d' = Ret (Floats s) ->
  column_at (with_heap w (<[l := d']> (heap w))) l name = Some s.
Proof.
  intros Hg. unfold column_at. simpl. by rewrite lookup_insert_eq, Hg.
Qed.

(** What a successful run leaves in the store. *)
Lemma calculate_volatility_columns w l d close :
  table_at w l d -> nrows d <> 0%nat -> closes d = Ret close ->
  exists w',
    calculate_volatility (Some l) w = (Ret (Some l), w') /\
    column_at w' l "Log_Returns" = Some (log_returns close) /\
    column_at w' l "Volatility" = Some (volatility close) /\
    column_at w' l "Average_Volatility"
    = Some (replicate (nrows d) (average_volatility close)) /\
    column_at w' l "Volatility_Multiplier"
    = Some (volatility_multiplier close).
Proof.
  intros (Hl & Hu & Ha) Hr Hc.
  eexists. split; [by apply calculate_volatility_run|].
  repeat split; apply column_at_insert.
  - by apply augment_log_returns.
  - by apply augment_volatility.
  - by apply augment_average.
  - by apply augment_multiplier.
Qed.

(** On a table that has none of the four names, the new columns come
    after the columns that were there. *)
Lemma augment_fresh d close :
  forallb (fun n => negb (has_column n d)) new_columns = true ->
  df_columns (augment d close)
  = df_columns d ++
    [ ("Log_Returns", Floats (log_returns close));
      ("Volatility", Floats (volatility close));
      ("Average_Volatility",
        Floats (replicate (nrows d) (average_volatility close)));
      ("Volatility_Multiplier", Floats (volatility_multiplier close)) ].
Proof.
  intros H. simpl in H. rewrite !andb_true_iff, !negb_true_iff in H.
  destruct H as (H1 & H2 & H3 & H4 & _). unfold augment.
  rewrite columns_setitem_fresh
    by (by rewrite !has_column_setitem_ne by neq_str).
  rewrite columns_setitem_fresh
    by (by rewrite !has_column_setitem_ne by neq_str).
  rewrite columns_setitem_fresh
    by (by rewrite !has_column_setitem_ne by neq_str).
  rewrite columns_setitem_fresh by done.
  by rewrite <- !app_assoc.
Qed.

Lemma table_at_holding d :
  unique_names d = true -> aligned d = true -> table_at (holding d) 0%nat d.
Proof. intros Hu Ha. split; [|done]. simpl. apply lookup_singleton_eq. Qed.

End Run.

(** ** Running the normalizers *)

Section VendorB.
Variable get_aggs :
  string -> Z -> string -> string -> string -> string -> res (list Agg).
Variables fx_pair interval start_date end_date api_key : string.

Lemma polygon_run_raise w e :
  get_aggs ("C:" +:+ fx_pair) 1%Z interval start_date end_date api_key
  = Raise e ->
  polygon_get_fx_data get_aggs fx_pair interval start_date end_date api_key w
  = (Ret None,
     printed
       (sent w (GetAggs ("C:" +:+ fx_pair) 1 interval start_date end_date
                  api_key))
       ("An error occurred: " +:+ str_exn e)).
Proof.
  unfold polygon_get_fx_data, try_except, bind, send.
  by intros ->.
Qed.

Lemma polygon_run_empty w :
  get_aggs ("C:" +:+ fx_pair) 1%Z interval start_date end_date api_key
  = Ret [] ->
  polygon_get_fx_data get_aggs fx_pair interval start_date end_date api_key w
  = (Ret None,
     printed
       (sent w (GetAggs ("C:" +:+ fx_pair) 1 interval start_date end_date
                  api_key))
       "No data found.").
Proof.
  unfold polygon_get_fx_data, try_except, bind, send.
  by intros ->.
Qed.

Lemma polygon_run_bars w a r :
  get_aggs ("C:" +:+ fx_pair) 1%Z interval start_date end_date api_key
  = Ret (a :: r) ->
  forallb in_datetime_range (map agg_timestamp (a :: r)) = true ->
  polygon_get_fx_data get_aggs fx_pair interval start_date end_date api_key w
  = (Ret (Some (polygon_frame fx_pair (a :: r))),
     sent w (GetAggs ("C:" +:+ fx_pair) 1 interval start_date end_date
               api_key)).
Proof.
  unfold polygon_get_fx_data, try_except, bind, send, lift.
  intros -> Hr.
  change (getitem "timestamp" (DataFrame_of_aggs (a :: r)))
    with (Ret (A := column) (Ints (map agg_timestamp (a :: r)))).
  cbv beta iota. unfold to_datetime_ms. by rewrite Hr.
Qed.

(** A timestamp that pandas cannot hold is an error like another. *)
Lemma polygon_run_out_of_range w a r :
  get_aggs ("C:" +:+ fx_pair) 1%Z interval start_date end_date api_key
  = Ret (a :: r) ->
  forallb in_datetime_range (map agg_timestamp (a :: r)) = false ->
  polygon_get_fx_data get_aggs fx_pair interval start_date end_date api_key w
  = (Ret None,
     printed
       (sent w (GetAggs ("C:" +:+ fx_pair) 1 interval start_date end_date
                  api_key))
       "An error occurred: cannot convert input with unit 'ms'").
Proof.
  unfold polygon_get_fx_data, try_except, bind, send, lift.
  intros -> Hr.
  change (getitem "timestamp" (DataFrame_of_aggs (a :: r)))
    with (Ret (A := column) (Ints (map agg_timestamp (a :: r)))).
  cbv beta iota. unfold to_datetime_ms. by rewrite Hr.
Qed.

End VendorB.

Section VendorA.
Variable yf_download : string -> string -> string -> string -> res YFrame.
Variables fx_pair interval start_date end_date : string.

Lemma yf_run_raise w e :
  yf_download fx_pair start_date end_date interval = Raise e ->
  yf_get_fx_data yf_download fx_pair interval start_date end_date w
  = (Ret None,
     printed (sent w (YfDownload fx_pair start_date end_date interval))
       ("An error occurred: " +:+ str_exn e)).
Proof.
  unfold yf_get_fx_data, try_except, bind, send.
  by intros ->.
Qed.

Lemma yf_run_flat w data cols :
  yf_download fx_pair start_date end_date interval = Ret data ->
  y_columns data = FlatColumns cols ->
  yf_get_fx_data yf_download fx_pair interval start_date end_date w
  = (Ret None,
     printed (sent w (YfDownload fx_pair start_date end_date interval))
       "An error occurred: Too many levels: Index has only 1 level, not 2").
Proof.
  unfold yf_get_fx_data, try_except, bind, send, lift.
  intros -> Hc. by rewrite Hc.
Qed.

Lemma yf_run_multi w data cols :
  yf_download fx_pair start_date end_date interval = Ret data ->
  y_columns data = MultiColumns cols ->
  yf_get_fx_data yf_download fx_pair interval start_date end_date w =
  match getitems yf_keys (yf_frame fx_pair data cols) with
  | Ret d => (Ret (Some d),
              sent w (YfDownload fx_pair start_date end_date interval))
  | Raise e =>
      (Ret None,
       printed (sent w (YfDownload fx_pair start_date end_date interval))
         ("An error occurred: " +:+ str_exn e))
  end.
Proof.
  unfold yf_get_fx_data, try_except, bind, send, lift.
  intros -> Hc. rewrite Hc. simpl.
  rewrite map_map.
  change (map (fun x => to_datetime_Ymd_HM (strftime_Ymd_HM x)) (y_index data))
    with (map floor_minute (y_index data)).
  fold (yf_frame fx_pair data cols). fold yf_keys.
  by destruct (getitems yf_keys (yf_frame fx_pair data cols)).
Qed.

End VendorA.

Section Macro.
Variable get_series : string -> string -> res FredSeries.
Variables (indicator : string) (start_date end_date : timestamp)
  (api_key : string).

Lemma select_window {A} (f : timestamp -> bool) (data : list (timestamp * A)) :
  select (map f (map fst data)) (map snd data)
  = map snd (List.filter (fun r => f (fst r)) data)
  /\ select (map f (map fst data)) (map fst data)
     = map fst (List.filter (fun r => f (fst r)) data).
Proof.
  induction data as [|[t x] data [IH1 IH2]]; [done|]. simpl.
  destruct (f t); simpl; by rewrite IH1, IH2.
Qed.

Lemma fred_run_raise w e :
  get_series indicator api_key = Raise e ->
  fetch_fred_data get_series indicator start_date end_date api_key w
  = (Ret None,
     printed (sent w (GetSeries indicator api_key))
       ("Error fetching data: " +:+ str_exn e)).
Proof.
  unfold fetch_fred_data, try_except, bind, send.
  by intros ->.
Qed.

(** Whenever the vendor answers, the macro fetch returns a table. *)
Lemma fred_run_series w data :
  get_series indicator api_key = Ret data ->
  fetch_fred_data get_series indicator start_date end_date api_key w
  = (Ret (Some (fred_frame indicator start_date end_date data)),
     sent w (GetSeries indicator api_key)).
Proof.
  unfold fetch_fred_data, try_except, bind, send, lift.
  intros ->. unfold loc_slice, DataFrame_of_series, set_index_name. simpl.
  destruct (select_window
              (fun t => (start_date <=? t)%Z && (t <=? end_date)%Z) data)
    as [-> ->].
  fold (window start_date end_date data).
  unfold getitem at 1. simpl. unfold has_name at 1. simpl.
  rewrite String.eqb_refl. simpl.
  fold (percentage_change (map snd (window start_date end_date data))).
  unfold fred_frame.
  destruct (String.eqb indicator "CPIAUCSL") eqn:Hi.
  - apply String.eqb_eq in Hi. subst indicator. done.
  - done.
Qed.

Lemma fred_frame_nrows (data : FredSeries) :
  nrows (fred_frame indicator start_date end_date data)
  = length (window start_date end_date data).
Proof.
  unfold fred_frame. destruct (String.eqb indicator "CPIAUCSL");
    unfold nrows; simpl; by rewrite length_map.
Qed.

Lemma fred_frame_percentage_change (data : FredSeries) :
  has_column "Percentage_Change"
    (fred_frame indicator start_date end_date data) = true.
Proof.
  unfold fred_frame. destruct (String.eqb indicator "CPIAUCSL").
  - rewrite has_column_setitem_ne by neq_str. apply has_column_setitem_eq.
  - apply has_column_setitem_eq.
Qed.

Lemma fred_frame_yoy (data : FredSeries) :
  has_column "YoY_Inflation" (fred_frame indicator start_date end_date data)
  = String.eqb indicator "CPIAUCSL" || String.eqb indicator "YoY_Inflation".
Proof.
  unfold fred_frame. destruct (String.eqb indicator "CPIAUCSL") eqn:Hi.
  - apply String.eqb_eq in Hi. by subst.
  - rewrite has_column_setitem_ne by neq_str.
    unfold has_column. simpl. by rewrite orb_false_r.
Qed.

End Macro.

Lemma fred_frame_cpi_values start_date end_date (data : FredSeries) :
  getitem "CPIAUCSL" (fred_frame "CPIAUCSL" start_date end_date data)
  = Ret (Floats (map snd (window start_date end_date data))).
Proof. done. Qed.

Lemma fred_frame_cpi_yoy start_date end_date (data : FredSeries) :
  getitem "YoY_Inflation" (fred_frame "CPIAUCSL" start_date end_date data)
  = Ret (Floats (yoy_inflation (map snd (window start_date end_date data)))).
Proof. done. Qed.

(** ** No exception leaves a normalizer *)

Section Guarded.




(** A table the vendor-B normalizer returns comes from a non-empty answer. *)
Lemma polygon_run_some
    get_aggs fx_pair interval start_date end_date api_key w d w' :
  polygon_get_fx_data get_aggs fx_pair interval start_date end_date api_key w
  = (Ret (Some d), w') ->
  exists a r,
    get_aggs ("C:" +:+ fx_pair) 1%Z interval start_date end_date api_key
    = Ret (a :: r) /\
    d = polygon_frame fx_pair (a :: r).
Proof.
  intros Hcall.
  destruct (get_aggs ("C:" +:+ fx_pair) 1%Z interval start_date end_date api_key)
    as [[|a r]|e] eqn:Hans.
  - rewrite (polygon_run_empty _ _ _ _ _ _ _ Hans) in Hcall. done.
  - destruct (forallb in_datetime_range (map agg_timestamp (a :: r)))
      eqn:Hr.
    + rewrite (polygon_run_bars _ _ _ _ _ _ _ _ _ Hans Hr) in Hcall.
      injection Hcall as <- _. eauto.
    + rewrite (polygon_run_out_of_range _ _ _ _ _ _ _ _ _ Hans Hr) in Hcall.
      done.
  - rewrite (polygon_run_raise _ _ _ _ _ _ _ _ Hans) in Hcall. done.
Qed.

End Guarded.

(** ** The runs recorded in the notebook *)

(** The recorded run of the vendor-A normalizer: the client's answer has
    no ['Adj Close'] column, the selection raises, and the two lines of the
    notebook's output are printed, the second one by the feature extractor
    on the [None] it is handed. *)
Example recorded_yf_run :
  let vendor := fun _ _ _ _ : string => Ret yframe_without_adj_close in
  let '(r, w) :=
    yf_get_fx_data vendor "GBPUSD=X" "1m" "2025-03-05" "2025-03-08" initial in
  r = Ret None /\
  stdout w
  = ["An error occurred: " +:+ dquote +:+ "['Adj Close'] not in index"
       +:+ dquote] /\
  calculate_volatility None w
  = (Ret None, printed w "Error: DataFrame is empty or invalid.").
Proof. repeat split. Qed.

(** Cutting timestamps to the minute can merge two of them. *)
Example minute_cut_merges_timestamps :
  strictly_increasing [1741132800000; 1741132830000]%Z = true /\
  strictly_increasing (map floor_minute [1741132800000; 1741132830000]%Z)
  = false.
Proof. split; reflexivity. Qed.

(** ** The three-row example *)

Section Example.

Lemma example_log_returns :
  log_returns example_closes
  = [NaN; Fin example_return_1; Fin example_return_2].
Proof.
  change (log_returns example_closes)
    with [flog (fdiv (Fin 100) NaN); flog (fdiv (Fin 101) (Fin 100));
          flog (fdiv (Fin 100.5) (Fin 101))].
  rewrite !fdiv_fin by lra. rewrite !flog_pos by lra. done.
Qed.

Lemma example_volatility :
  volatility example_closes
  = [NaN; Fin (Rabs example_return_1); Fin (Rabs example_return_2)].
Proof. unfold volatility. by rewrite example_log_returns. Qed.

Lemma example_abs :
  Rabs example_return_1 = example_return_1 /\
  Rabs example_return_2 = - example_return_2.
Proof.
  pose proof ln_101_100. pose proof ln_1005_1010. split.
  - apply Rabs_pos_eq. lra.
  - apply Rabs_left. lra.
Qed.

Lemma example_average : average_volatility example_closes = Fin example_mean.
Proof.
  unfold average_volatility. rewrite example_volatility.
  change (mean [NaN; Fin (Rabs example_return_1); Fin (Rabs example_return_2)])
    with (fdiv (Fin (0 + Rabs example_return_1 + Rabs example_return_2))
            (Fin (INR 2))).
  rewrite fdiv_fin by (simpl; lra). done.
Qed.

Lemma example_mean_value :
  example_mean = (example_return_1 - example_return_2) / 2.
Proof.
  destruct example_abs as [H1 H2]. unfold example_mean. rewrite H1, H2.
  simpl. lra.
Qed.

Lemma example_mean_pos : 0 < example_mean.
Proof.
  rewrite example_mean_value.
  pose proof ln_101_100. pose proof ln_1005_1010. lra.
Qed.

Lemma example_ratio_1 :
  133 - 1 / 2 < Rabs example_return_1 / example_mean * 100 < 133 + 1 / 2.
Proof.
  destruct example_abs as [H1 _]. rewrite H1.
  pose proof example_mean_pos as Ha. pose proof example_mean_value as Hv.
  pose proof ln_101_100 as B1. pose proof ln_1005_1010 as B2.
  split.
  - apply Rmult_lt_reg_r with example_mean; [done|].
    replace (example_return_1 / example_mean * 100 * example_mean)
      with (100 * example_return_1) by (field; lra).
    lra.
  - apply Rmult_lt_reg_r with example_mean; [done|].
    replace (example_return_1 / example_mean * 100 * example_mean)
      with (100 * example_return_1) by (field; lra).
    lra.
Qed.

Lemma example_ratio_2 :
  67 - 1 / 2 < Rabs example_return_2 / example_mean * 100 < 67 + 1 / 2.
Proof.
  destruct example_abs as [_ H2]. rewrite H2.
  pose proof example_mean_pos as Ha. pose proof example_mean_value as Hv.
  pose proof ln_101_100 as B1. pose proof ln_1005_1010 as B2.
  split.
  - apply Rmult_lt_reg_r with example_mean; [done|].
    replace (- example_return_2 / example_mean * 100 * example_mean)
      with (100 * - example_return_2) by (field; lra).
    lra.
  - apply Rmult_lt_reg_r with example_mean; [done|].
    replace (- example_return_2 / example_mean * 100 * example_mean)
      with (100 * - example_return_2) by (field; lra).
    lra.
Qed.

Lemma example_multiplier :
  volatility_multiplier example_closes = [NaN; Fin 1.33; Fin 0.67].
Proof.
  unfold volatility_multiplier.
  rewrite div_replicate by (rewrite volatility_length; lia).
  rewrite example_average, example_volatility.
  pose proof example_mean_pos as Ha.
  change (map (fround 2)
            (map (fun v => fdiv v (Fin example_mean))
               [NaN; Fin (Rabs example_return_1);
                Fin (Rabs example_return_2)]))
    with [NaN; fround 2 (fdiv (Fin (Rabs example_return_1)) (Fin example_mean));
          fround 2 (fdiv (Fin (Rabs example_return_2)) (Fin example_mean))].
  rewrite !fdiv_fin by lra.
  rewrite (fround2_near _ 133 example_ratio_1).
  rewrite (fround2_near _ 67 example_ratio_2).
  repeat f_equal; lra.
Qed.

Lemma example_figures :
  close_to example_return_1 0.00995 /\
  close_to example_return_2 (- 0.00497) /\
  close_to (Rabs example_return_1) 0.00995 /\
  close_to (Rabs example_return_2) 0.00497 /\
  close_to example_mean 0.00746.
Proof.
  destruct example_abs as [H1 H2]. rewrite example_mean_value, H1, H2.
  pose proof ln_101_100 as B1. pose proof ln_1005_1010 as B2.
  unfold close_to. repeat split; apply Rabs_def1; lra.
Qed.

End Example.

(** ** Sample runs of the normalizers *)

Lemma sample_yf_run :
  yf_get_fx_data sample_yf_download "GBPUSD=X" "1m" "2025-03-05" "2025-03-08"
    initial
  = (Ret (Some sample_yf_result),
     sent initial (YfDownload "GBPUSD=X" "2025-03-05" "2025-03-08" "1m")).
Proof. reflexivity. Qed.

Lemma sample_polygon_run :
  polygon_get_fx_data sample_get_aggs "USDGBP" "minute" "2024-01-15"
    "2025-01-15" "key" initial
  = (Ret (Some (polygon_frame "USDGBP" sample_aggs)),
     sent initial
       (GetAggs "C:USDGBP" 1 "minute" "2024-01-15" "2025-01-15" "key")).
Proof. reflexivity. Qed.

Lemma without_close_not_canonical d :
  ~ In "Close" (column_names d) -> ~ canonical_columns d.
Proof. intros Hn [Hs|Hs]; apply Hn, Hs; simpl; tauto. Qed.

(** * The claims *)

(** Claim C1 (amended).  A table returned by [yf_get_fx_data] comes from
    an answer with two-level column labels; its index is the vendor's
    timestamps, in the vendor's order, each cut to its minute, so it is
    strictly increasing exactly when those are; its columns bear no other
    name than Open, High, Low and Adj Close, and they are exactly these
    four, in this order, when the answer has one column per price field.
    A table returned by [polygon_get_fx_data] comes from a non-empty
    answer; its index is the vendor's timestamps in the vendor's order, so
    it is strictly increasing exactly when those are; its columns are
    exactly Open, High, Low, Adj Close, Volume and vwap, in this order. *)
Theorem normalizer_schema :
  (forall yf_download fx_pair interval start_date end_date w d w',
     yf_get_fx_data yf_download fx_pair interval start_date end_date w
     = (Ret (Some d), w') ->
     exists data cols,
       yf_download fx_pair start_date end_date interval = Ret data /\
       y_columns data = MultiColumns cols /\
       index_timestamps d = Some (map floor_minute (y_index data)) /\
       increasing_index d
       = strictly_increasing (map floor_minute (y_index data)) /\
       (forall n, In n (column_names d) -> In n yf_keys) /\
       (distinct (map (fun lc => fst (fst lc)) cols) = true ->
        column_names d = yf_keys)) /\
  (forall get_aggs fx_pair interval start_date end_date api_key w d w',
     polygon_get_fx_data get_aggs fx_pair interval start_date end_date api_key w
     = (Ret (Some d), w') ->
     exists aggs,
       get_aggs ("C:" +:+ fx_pair) 1%Z interval start_date end_date api_key
       = Ret aggs /\
       aggs <> [] /\
       index_timestamps d = Some (map agg_timestamp aggs) /\
       increasing_index d = strictly_increasing (map agg_timestamp aggs) /\
       column_names d = polygon_columns).
Proof.
  split.
  - intros yf_download fx_pair interval start_date end_date w d w' Hcall.
    destruct (yf_download fx_pair start_date end_date interval)
      as [data|e] eqn:Hans.
    + destruct (y_columns data) as [cols|cols] eqn:Hcols.
      * rewrite (yf_run_flat _ _ _ _ _ _ _ _ Hans Hcols) in Hcall. done.
      * rewrite (yf_run_multi _ _ _ _ _ _ _ _ Hans Hcols) in Hcall.
        destruct (getitems yf_keys (yf_frame fx_pair data cols))
          as [d0|e] eqn:Hsel; [|done].
        injection Hcall as -> <-.
        apply getitems_inv in Hsel as (Hi & Hc & Hall).
        exists data, cols. split; [done|]. split; [done|].
        split; [unfold index_timestamps; by rewrite Hi|].
        split; [unfold increasing_index, index_timestamps; by rewrite Hi|].
        unfold column_names. rewrite Hc. split.
        -- intros n. apply flat_map_names_subset.
        -- intros Hd. apply flat_map_names_unique; [|done].
           simpl. by rewrite map_map.
    + rewrite (yf_run_raise _ _ _ _ _ _ _ Hans) in Hcall. done.
  - intros get_aggs fx_pair interval start_date end_date api_key w d w' Hcall.
    destruct (polygon_run_some _ _ _ _ _ _ _ _ _ Hcall) as (a & r & Hans & ->).
    by exists (a :: r).
Qed.

Lemma normalizer_schema_witness :
  column_names sample_yf_result = yf_keys /\
  column_names (polygon_frame "USDGBP" sample_aggs) = polygon_columns.
Proof.
  destruct normalizer_schema as [Hyf Hpolygon]. split.
  - destruct (Hyf _ _ _ _ _ _ _ _ sample_yf_run)
      as (data & cols & Hans & Hcols & _ & _ & _ & Hnames).
    apply Hnames. injection Hans as <-. injection Hcols as <-. reflexivity.
  - destruct (Hpolygon _ _ _ _ _ _ _ _ _ sample_polygon_run)
      as (aggs & _ & _ & _ & _ & Hnames).
    exact Hnames.
Defined.

(** Claim C1 as stated fails: each normalizer succeeds on a sample answer
    and returns columns that are neither of the two canonical sets, for
    the close is named Adj Close, and vendor B's vwap is kept. *)
Lemma normalizer_columns_not_canonical :
  (yf_get_fx_data sample_yf_download "GBPUSD=X" "1m" "2025-03-05" "2025-03-08"
     initial
   = (Ret (Some sample_yf_result),
      sent initial (YfDownload "GBPUSD=X" "2025-03-05" "2025-03-08" "1m")) /\
   column_names sample_yf_result = ["Open"; "High"; "Low"; "Adj Close"] /\
   ~ canonical_columns sample_yf_result) /\
  (polygon_get_fx_data sample_get_aggs "USDGBP" "minute" "2024-01-15"
     "2025-01-15" "key" initial
   = (Ret (Some (polygon_frame "USDGBP" sample_aggs)),
      sent initial
        (GetAggs "C:USDGBP" 1 "minute" "2024-01-15" "2025-01-15" "key")) /\
   column_names (polygon_frame "USDGBP" sample_aggs)
   = ["Open"; "High"; "Low"; "Adj Close"; "Volume"; "vwap"] /\
   ~ canonical_columns (polygon_frame "USDGBP" sample_aggs)).
Proof.
  split.
  - split; [exact sample_yf_run|]. split; [reflexivity|].
    apply without_close_not_canonical. simpl.
    intros H; repeat (destruct H as [H|H]; [discriminate H|]); exact H.
  - split; [exact sample_polygon_run|]. split; [reflexivity|].
    apply without_close_not_canonical. simpl.
    intros H; repeat (destruct H as [H|H]; [discriminate H|]); exact H.
Qed.

(** Claim C2 (amended).  On a table with at least one row, the log
    return, the volatility and the volatility multiplier are null at index
    0; at every index t+1 at which the close and the previous close are
    both finite and positive, the log return and the volatility are not
    null (they are numbers, possibly infinite), and the multiplier is not
    null there provided the average volatility is finite and not zero. *)
Theorem volatility_null_at_start w l d close :
  table_at w l d -> nrows d <> 0%nat -> closes d = Ret close ->
  exists w' lr vol avg mult,
    calculate_volatility (Some l) w = (Ret (Some l), w') /\
    column_at w' l "Log_Returns" = Some lr /\
    column_at w' l "Volatility" = Some vol /\
    column_at w' l "Average_Volatility" = Some (replicate (nrows d) avg) /\
    column_at w' l "Volatility_Multiplier" = Some mult /\
    (lr !! 0%nat = Some NaN /\ vol !! 0%nat = Some NaN
     /\ mult !! 0%nat = Some NaN) /\
    forall (t : nat) p q,
      close !! t = Some p -> close !! S t = Some q ->
      positive p -> positive q ->
      (exists x, lr !! S t = Some x /\ notna x = true) /\
      (exists v, vol !! S t = Some v /\ notna v = true) /\
      (forall a, avg = Fin a -> a <> 0 ->
                 exists m, mult !! S t = Some m /\ notna m = true).
Proof.
  intros Ht Hr Hc.
  assert (Hne : close <> []).
  { destruct Ht as (_ & _ & Ha). apply closes_length in Hc; [|done].
    destruct close; [simpl in Hc; congruence|done]. }
  destruct (calculate_volatility_columns w l d close Ht Hr Hc)
    as (w' & Hrun & Hlr & Hvol & Havg & Hmult).
  exists w', (log_returns close), (volatility close),
    (average_volatility close), (volatility_multiplier close).
  split; [done|]. split; [done|]. split; [done|]. split; [done|].
  split; [done|]. split.
  { split; [by apply log_returns_0|]. split; [by apply volatility_0|].
    by rewrite (volatility_multiplier_lookup _ _ _ (volatility_0 _ Hne)). }
  intros t p q Hp Hq Hpp Hpq.
  destruct (positive_ratio _ _ Hpp Hpq) as (a & b & -> & -> & Hlog).
  pose proof (volatility_S _ _ _ _ Hp Hq) as Hv. rewrite Hlog in Hv.
  simpl in Hv.
  split; [rewrite (log_returns_S _ _ _ _ Hp Hq), Hlog; by eexists|].
  split; [by eexists|].
  intros c Havg0 Hc0. rewrite (volatility_multiplier_lookup _ _ _ Hv), Havg0.
  rewrite fdiv_fin by done. by eexists.
Qed.

Lemma volatility_null_at_start_witness :
  exists w' lr vol avg mult,
    calculate_volatility (Some 0%nat) (holding three_rows)
    = (Ret (Some 0%nat), w') /\
    column_at w' 0%nat "Log_Returns" = Some lr /\
    column_at w' 0%nat "Volatility" = Some vol /\
    column_at w' 0%nat "Average_Volatility" = Some [avg; avg; avg] /\
    column_at w' 0%nat "Volatility_Multiplier" = Some mult /\
    lr !! 0%nat = Some NaN /\ vol !! 0%nat = Some NaN /\
    mult !! 0%nat = Some NaN /\
    (exists x, lr !! 1%nat = Some x /\ notna x = true) /\
    (exists v, vol !! 1%nat = Some v /\ notna v = true).
Proof.
  destruct (volatility_null_at_start (holding three_rows) 0%nat three_rows
              example_closes)
    as (w' & lr & vol & avg & mult & Hrun & Hlr & Hvol & Havg & Hmult
        & (H0 & H1 & H2) & Hdef).
  - by apply table_at_holding.
  - done.
  - reflexivity.
  - exists w', lr, vol, avg, mult.
    destruct (Hdef 0%nat (Fin 100) (Fin 101) eq_refl eq_refl)
      as (Hx & Hv & _); [simpl; lra|simpl; lra|].
    repeat split; assumption.
Defined.

(** Claim C2 as stated fails: on the closes [100, 100] the previous close
    of index 1 is non-null and non-zero, and the multiplier is null there;
    on the closes [100, null] it is the log return and the volatility of
    index 1 that are null. *)
Lemma multiplier_null_on_equal_closes :
  (closes two_rows = Ret [Fin 100; Fin 100] /\
   exists w',
     calculate_volatility (Some 0%nat) (holding two_rows)
     = (Ret (Some 0%nat), w') /\
     column_at w' 0%nat "Volatility_Multiplier" = Some [NaN; NaN]) /\
  (closes null_second_row = Ret [Fin 100; NaN] /\
   exists w',
     calculate_volatility (Some 0%nat) (holding null_second_row)
     = (Ret (Some 0%nat), w') /\
     column_at w' 0%nat "Log_Returns" = Some [NaN; NaN] /\
     column_at w' 0%nat "Volatility" = Some [NaN; NaN]).
Proof.
  split; (split; [reflexivity|]).
  - destruct (calculate_volatility_columns (holding two_rows) 0%nat two_rows
                [Fin 100; Fin 100])
      as (w' & Hrun & _ & _ & _ & Hmult).
    + by apply table_at_holding.
    + done.
    + reflexivity.
    + exists w'. split; [done|]. rewrite Hmult.
      exact (f_equal Some (volatility_multiplier_constant 100 ltac:(lra) 0)).
  - destruct (calculate_volatility_columns (holding null_second_row) 0%nat
                null_second_row [Fin 100; NaN])
      as (w' & Hrun & Hlr & Hvol & _ & _).
    + by apply table_at_holding.
    + done.
    + reflexivity.
    + exists w'. by split.
Qed.

(** Claim C3.  On a table whose closes are [100.0, 101.0, 100.5] the log
    returns are [null, r1, r2] with r1 within 0.00001 of 0.00995 and r2
    within 0.00001 of -0.00497, the volatilities are [null, v1, v2] with
    v1 within 0.00001 of 0.00995 and v2 within 0.00001 of 0.00497, the
    average volatility is the mean (v1 + v2) / 2 of the two defined
    values, within 0.00001 of 0.00746, and the volatility multipliers are
    [null, 1.33, 0.67]. *)
Theorem end_to_end_example w l d :
  table_at w l d -> closes d = Ret example_closes ->
  exists w' r1 r2 v1 v2 a,
    calculate_volatility (Some l) w = (Ret (Some l), w') /\
    column_at w' l "Log_Returns" = Some [NaN; Fin r1; Fin r2] /\
    column_at w' l "Volatility" = Some [NaN; Fin v1; Fin v2] /\
    column_at w' l "Average_Volatility" = Some [Fin a; Fin a; Fin a] /\
    column_at w' l "Volatility_Multiplier" = Some [NaN; Fin 1.33; Fin 0.67] /\
    close_to r1 0.00995 /\ close_to r2 (- 0.00497) /\
    close_to v1 0.00995 /\ close_to v2 0.00497 /\
    a = (v1 + v2) / 2 /\ close_to a 0.00746.
Proof.
  intros Ht Hc.
  assert (Hn : nrows d = 3%nat).
  { destruct Ht as (_ & _ & Ha). by rewrite <- (closes_length _ _ Ha Hc). }
  destruct (calculate_volatility_columns w l d _ Ht ltac:(lia) Hc)
    as (w' & Hrun & Hlr & Hvol & Havg & Hmult).
  rewrite example_log_returns in Hlr. rewrite example_volatility in Hvol.
  rewrite example_average, Hn in Havg. rewrite example_multiplier in Hmult.
  destruct example_figures as (F1 & F2 & F3 & F4 & F5).
  exists w', example_return_1, example_return_2,
    (Rabs example_return_1), (Rabs example_return_2), example_mean.
  repeat split; try assumption.
  unfold example_mean. simpl. lra.
Qed.

Lemma end_to_end_example_witness :
  exists w' r1 r2 v1 v2 a,
    calculate_volatility (Some 0%nat) (holding three_rows)
    = (Ret (Some 0%nat), w') /\
    column_at w' 0%nat "Log_Returns" = Some [NaN; Fin r1; Fin r2] /\
    column_at w' 0%nat "Volatility" = Some [NaN; Fin v1; Fin v2] /\
    column_at w' 0%nat "Average_Volatility" = Some [Fin a; Fin a; Fin a] /\
    column_at w' 0%nat "Volatility_Multiplier"
    = Some [NaN; Fin 1.33; Fin 0.67] /\
    close_to r1 0.00995 /\ close_to r2 (- 0.00497) /\
    close_to v1 0.00995 /\ close_to v2 0.00497 /\
    a = (v1 + v2) / 2 /\ close_to a 0.00746.
Proof.
  apply (end_to_end_example (holding three_rows) 0%nat three_rows).
  - by apply table_at_holding.
  - reflexivity.
Defined.




(** Claim C5 (amended).  [calculate_volatility] works in place: it
    returns the reference it was given, and the table behind it has been
    modified.  That table keeps its index, hence its rows, and, when it
    had none of the four new names, its columns are the former ones, in
    their order, followed by Log_Returns, Volatility, Average_Volatility
    and Volatility_Multiplier.  No other table is touched and nothing is
    printed. *)
Theorem calculate_volatility_in_place w l d close :
  table_at w l d -> nrows d <> 0%nat -> closes d = Ret close ->
  forallb (fun n => negb (has_column n d)) new_columns = true ->
  exists d' w',
    calculate_volatility (Some l) w = (Ret (Some l), w') /\
    heap w' !! l = Some d' /\
    (forall l', l' <> l -> heap w' !! l' = heap w !! l') /\
    stdout w' = stdout w /\
    df_index d' = df_index d /\
    df_columns d'
    = df_columns d ++
      [ ("Log_Returns", Floats (log_returns close));
        ("Volatility", Floats (volatility close));
        ("Average_Volatility",
          Floats (replicate (nrows d) (average_volatility close)));
        ("Volatility_Multiplier", Floats (volatility_multiplier close)) ].
Proof.
  intros (Hl & Hu & Ha) Hr Hc Hfresh.
  exists (augment d close), (with_heap w (<[l := augment d close]> (heap w))).
  split; [by apply calculate_volatility_run|].
  split; [apply lookup_insert_eq|].
  split; [intros l' Hne; by apply lookup_insert_ne|].
  split; [done|]. split; [done|]. by apply augment_fresh.
Qed.

Lemma calculate_volatility_in_place_witness :
  exists d' w',
    calculate_volatility (Some 0%nat) (holding two_rows)
    = (Ret (Some 0%nat), w') /\
    heap w' !! 0%nat = Some d' /\
    df_index d' = df_index two_rows /\
    column_names d' = "Adj Close" :: new_columns.
Proof.
  destruct (calculate_volatility_in_place (holding two_rows) 0%nat two_rows
              [Fin 100; Fin 100])
    as (d' & w' & Hrun & Hl & _ & _ & Hi & Hc).
  - by apply table_at_holding.
  - done.
  - reflexivity.
  - reflexivity.
  - exists d', w'. repeat split; try done.
    unfold column_names. by rewrite Hc.
Defined.

(** Claim C5 as stated fails: after the call, the table object that was
    passed in is no longer the table it was. *)
Lemma input_table_is_modified :
  heap (holding two_rows) !! 0%nat = Some two_rows /\
  exists w',
    calculate_volatility (Some 0%nat) (holding two_rows)
    = (Ret (Some 0%nat), w') /\
    heap w' !! 0%nat <> Some two_rows.
Proof.
  split; [apply lookup_singleton_eq|].
  destruct (table_at_holding two_rows eq_refl eq_refl) as (Hl & Hu & Ha).
  eexists. split.
  - by apply (calculate_volatility_run _ _ two_rows [Fin 100; Fin 100]).
  - simpl. rewrite lookup_insert_eq. intros H.
    assert (Hcols : df_columns (augment two_rows [Fin 100; Fin 100])
                    = df_columns two_rows) by congruence.
    rewrite augment_fresh in Hcols by reflexivity. discriminate Hcols.
Qed.

(** Claim C6 (amended).  For the inflation series served in date order,
    the year-over-year change at row t+12 of the post-filter window is
    (F[t+12] / F[t] - 1) * 100 rounded to 2 decimals as float64
    arithmetic does it, where F is the window's values with every null
    replaced by the last value above it: for finite F[t+12] and F[t],
    F[t] not zero and the quotient at most 1000 in size, the change is a
    multiple of 0.01 at most 0.005 away from (F[t+12] / F[t] - 1) * 100,
    each up to the rounding error of the operations; it is null when
    F[t+12] or F[t] is.  Wherever value[t+12] and value[t] are both
    non-null, F is the value.  The change is null on the first 12 rows
    of the window, whatever history precedes its start. *)
Theorem yoy_inflation_window get_series start_date end_date api_key w data :
  get_series "CPIAUCSL" api_key = Ret data ->
  strictly_increasing (map fst data) = true ->
  exists d v yoy,
    fetch_fred_data get_series "CPIAUCSL" start_date end_date api_key w
    = (Ret (Some d), sent w (GetSeries "CPIAUCSL" api_key)) /\
    v = map snd (window start_date end_date data) /\
    getitem "CPIAUCSL" d = Ret (Floats v) /\
    getitem "YoY_Inflation" d = Ret (Floats yoy) /\
    length yoy = length v /\
    (forall t : nat, (t < 12)%nat -> (t < length v)%nat ->
                     yoy !! t = Some NaN) /\
    (forall (t : nat) a b,
        ffill v !! (t + 12)%nat = Some (Fin a) ->
        ffill v !! t = Some (Fin b) ->
        b <> 0 -> Rabs (a / b) <= 1000 ->
        exists m, yoy !! (t + 12)%nat = Some (Fin m) /\
                  rounded_to 2 ((a / b - 1) * 100) m) /\
    (forall (t : nat) x y,
        ffill v !! (t + 12)%nat = Some x -> ffill v !! t = Some y ->
        x = NaN \/ y = NaN ->
        yoy !! (t + 12)%nat = Some NaN) /\
    (forall (t : nat) a b,
        v !! (t + 12)%nat = Some (Fin a) -> v !! t = Some (Fin b) ->
        b <> 0 -> Rabs (a / b) <= 1000 ->
        exists m, yoy !! (t + 12)%nat = Some (Fin m) /\
                  rounded_to 2 ((a / b - 1) * 100) m).
Proof.
  intros Hans Hsorted.
  exists (fred_frame "CPIAUCSL" start_date end_date data),
    (map snd (window start_date end_date data)),
    (yoy_inflation (map snd (window start_date end_date data))).
  split; [by apply fred_run_series|]. split; [done|].
  split; [apply fred_frame_cpi_values|]. split; [apply fred_frame_cpi_yoy|].
  split; [apply yoy_inflation_length|]. split; [apply yoy_inflation_lt|].
  split; [intros t a b Ha Hb Hb0 _; by apply yoy_inflation_rounded|].
  split; [apply yoy_inflation_null|].
  intros t a b Ha Hb Hb0 _.
  apply yoy_inflation_rounded; [by apply ffill_notna| by apply ffill_notna|done].
Qed.

Lemma yoy_inflation_window_witness :
  exists d yoy,
    fetch_fred_data (sample_get_series cpi_history) "CPIAUCSL"
      jan_2015 jan_2016 "key" initial
    = (Ret (Some d), sent initial (GetSeries "CPIAUCSL" "key")) /\
    getitem "YoY_Inflation" d = Ret (Floats yoy) /\
    length yoy = 13%nat /\
    yoy !! 0%nat = Some NaN /\ yoy !! 11%nat = Some NaN /\
    exists m, yoy !! 12%nat = Some (Fin m) /\
              rounded_to 2 ((102 / 100 - 1) * 100) m.
Proof.
  destruct (yoy_inflation_window (sample_get_series cpi_history)
              jan_2015 jan_2016 "key" initial cpi_history eq_refl eq_refl)
    as (d & v & yoy & Hrun & -> & _ & Hyoy & Hlen & Hnull & Hround & _).
  exists d, yoy. split; [done|]. split; [done|]. split; [done|].
  split; [apply Hnull; simpl; lia|]. split; [apply Hnull; simpl; lia|].
  apply (Hround 0%nat 102 100); [reflexivity|reflexivity|lra|].
  apply Rabs_le. lra.
Defined.

(** Claim C6 as stated fails: the observation of January 2016 is null,
    so (value[12] / value[0] - 1) * 100 is null, yet the change of that
    row is 2.0, computed from the value 102 of December 2015. *)
Lemma yoy_inflation_fills_null_observation :
  exists d v yoy,
    fetch_fred_data (sample_get_series cpi_history) "CPIAUCSL"
      jan_2015 jan_2016 "key" initial
    = (Ret (Some d), sent initial (GetSeries "CPIAUCSL" "key")) /\
    getitem "CPIAUCSL" d = Ret (Floats v) /\
    getitem "YoY_Inflation" d = Ret (Floats yoy) /\
    v !! 12%nat = Some NaN /\ v !! 0%nat = Some (Fin 100) /\
    fround 2 (fmul (fsub (fdiv NaN (Fin 100)) (Fin 1)) (Fin 100)) = NaN /\
    yoy !! 12%nat = Some (Fin 2).
Proof.
  exists (fred_frame "CPIAUCSL" jan_2015 jan_2016 cpi_history),
    (map snd (window jan_2015 jan_2016 cpi_history)),
    (yoy_inflation (map snd (window jan_2015 jan_2016 cpi_history))).
  split; [by apply fred_run_series|].
  split; [apply fred_frame_cpi_values|]. split; [apply fred_frame_cpi_yoy|].
  split; [reflexivity|]. split; [reflexivity|]. split; [reflexivity|].
  change 12%nat with (0 + 12)%nat.
  rewrite (yoy_inflation_ge (map snd (window jan_2015 jan_2016 cpi_history))
             0%nat (Fin 102) (Fin 100) eq_refl eq_refl).
  rewrite fdiv_fin by lra.
  change (fmul (fsub (Fin (102 / 100)) (Fin 1)) (Fin 100))
    with (Fin ((102 / 100 + - 1) * 100)).
  rewrite (fround2_near _ 200) by lra. f_equal. f_equal. lra.
Qed.

(** Claim C7.  The macro vendor serves no series under the name of the
    derived column.  Then a table returned by [fetch_fred_data] has a
    YoY_Inflation column if and only if the indicator is "CPIAUCSL"; in
    particular it has one for "CPIAUCSL" and none for "UNRATE".  It has a
    Percentage_Change column in every case. *)
Theorem yoy_inflation_gating
    get_series indicator start_date end_date api_key w d w' :
  (forall key, exists e, get_series "YoY_Inflation" key = Raise e) ->
  fetch_fred_data get_series indicator start_date end_date api_key w
  = (Ret (Some d), w') ->
  (has_column "YoY_Inflation" d = true <-> indicator = "CPIAUCSL") /\
  (indicator = "CPIAUCSL" -> has_column "YoY_Inflation" d = true) /\
  (indicator = "UNRATE" -> has_column "YoY_Inflation" d = false) /\
  has_column "Percentage_Change" d = true.
Proof.
  intros Hvendor Hcall.
  destruct (get_series indicator api_key) as [data|e] eqn:Hans.
  - rewrite (fred_run_series _ _ _ _ _ _ _ Hans) in Hcall.
    injection Hcall as <- _.
    split; [|split; [|split]].
    + rewrite fred_frame_yoy, orb_true_iff, !String.eqb_eq.
      split; [|by left]. intros [Hi|Hi]; [done|]. subst indicator.
      destruct (Hvendor api_key) as [e He]. congruence.
    + intros ->. by rewrite fred_frame_yoy.
    + intros ->. by rewrite fred_frame_yoy.
    + apply fred_frame_percentage_change.
  - rewrite (fred_run_raise _ _ _ _ _ _ _ Hans) in Hcall. done.
Qed.

Lemma yoy_inflation_gating_witness :
  has_column "YoY_Inflation"
    (fred_frame "CPIAUCSL" jan_2015 jan_2016 cpi_history) = true /\
  has_column "YoY_Inflation"
    (fred_frame "UNRATE" jan_2015 jan_2016 cpi_history) = false /\
  has_column "Percentage_Change"
    (fred_frame "CPIAUCSL" jan_2015 jan_2016 cpi_history) = true /\
  has_column "Percentage_Change"
    (fred_frame "UNRATE" jan_2015 jan_2016 cpi_history) = true.
Proof.
  assert (Hvendor : forall key, exists e,
             sample_get_series cpi_history "YoY_Inflation" key = Raise e)
    by (intros key; eexists; reflexivity).
  destruct (yoy_inflation_gating (sample_get_series cpi_history) "CPIAUCSL"
              jan_2015 jan_2016 "key" initial _ _ Hvendor
              (fred_run_series (sample_get_series cpi_history) "CPIAUCSL"
                 jan_2015 jan_2016 "key" initial cpi_history eq_refl))
    as (_ & Hc1 & _ & Hc2).
  destruct (yoy_inflation_gating (sample_get_series cpi_history) "UNRATE"
              jan_2015 jan_2016 "key" initial _ _ Hvendor
              (fred_run_series (sample_get_series cpi_history) "UNRATE"
                 jan_2015 jan_2016 "key" initial cpi_history eq_refl))
    as (_ & _ & Hu1 & Hu2).
  split; [by apply Hc1|]. split; [by apply Hu1|]. done.
Defined.

(** Claim C8.  Whatever the vendor answers, [polygon_get_fx_data] sends
    it one request, for the symbol "C:" followed by the instrument code;
    for the code "USDGBP" the request is for "C:USDGBP". *)
Theorem polygon_request_symbol :
  (forall get_aggs fx_pair interval start_date end_date api_key w,
     requests (snd (polygon_get_fx_data get_aggs fx_pair interval
                      start_date end_date api_key w))
     = requests w ++
       [GetAggs ("C:" +:+ fx_pair) 1 interval start_date end_date api_key]) /\
  (forall get_aggs interval start_date end_date api_key w,
     requests (snd (polygon_get_fx_data get_aggs "USDGBP" interval
                      start_date end_date api_key w))
     = requests w ++
       [GetAggs "C:USDGBP" 1 interval start_date end_date api_key]).
Proof.
  assert (forall get_aggs fx_pair interval start_date end_date api_key w,
     requests (snd (polygon_get_fx_data get_aggs fx_pair interval
                      start_date end_date api_key w))
     = requests w ++
       [GetAggs ("C:" +:+ fx_pair) 1 interval start_date end_date api_key])
    as Hgen.
  { intros get_aggs fx_pair interval start_date end_date api_key w.
    destruct (get_aggs ("C:" +:+ fx_pair) 1%Z interval start_date end_date api_key)
      as [[|a r]|e] eqn:Hans.
    - by rewrite (polygon_run_empty _ _ _ _ _ _ _ Hans).
    - destruct (forallb in_datetime_range (map agg_timestamp (a :: r)))
        eqn:Hr.
      + by rewrite (polygon_run_bars _ _ _ _ _ _ _ _ _ Hans Hr).
      + by rewrite (polygon_run_out_of_range _ _ _ _ _ _ _ _ _ Hans Hr).
    - by rewrite (polygon_run_raise _ _ _ _ _ _ _ _ Hans). }
  split; [exact Hgen|]. intros. apply Hgen.
Qed.

(** Claim C9.  Called with None, or with a table that has no row or no
    column, [calculate_volatility] raises nothing: it prints
    "Error: DataFrame is empty or invalid." and returns None. *)
Theorem calculate_volatility_no_data w df :
  df = None \/
  (exists l d, df = Some l /\ heap w !! l = Some d /\ empty d = true) ->
  calculate_volatility df w = (Ret None, printed w error_line).
Proof.
  intros [->|(l & d & -> & Hl & He)]; [done|].
  unfold calculate_volatility.
  rewrite (bind_ret _ _ _ _ _ (deref_run _ _ _ Hl)). by rewrite He.
Qed.

Lemma calculate_volatility_no_data_witness :
  calculate_volatility None initial = (Ret None, printed initial error_line) /\
  calculate_volatility (Some 0%nat) (holding no_rows)
  = (Ret None, printed (holding no_rows) error_line).
Proof.
  split.
  - apply (calculate_volatility_no_data initial None). by left.
  - apply (calculate_volatility_no_data (holding no_rows) (Some 0%nat)).
    right. exists 0%nat, no_rows.
    split; [done|]. split; [apply lookup_singleton_eq|done].
Defined.

(** Claim C10 (amended).  On a table of at least two rows whose closes
    all equal one finite non-zero value, [calculate_volatility] returns
    the table: the volatility is null at index 0 and 0 at every later
    index, the average volatility is 0, and the volatility multiplier is
    null at every row. *)
Theorem constant_closes w l d c :
  table_at w l d -> (2 <= nrows d)%nat -> c <> 0 ->
  closes d = Ret (replicate (nrows d) (Fin c)) ->
  exists w',
    calculate_volatility (Some l) w = (Ret (Some l), w') /\
    column_at w' l "Volatility"
    = Some (NaN :: replicate (nrows d - 1) (Fin 0)) /\
    column_at w' l "Average_Volatility" = Some (replicate (nrows d) (Fin 0)) /\
    column_at w' l "Volatility_Multiplier" = Some (replicate (nrows d) NaN).
Proof.
  intros Ht Hn Hc Hcl.
  destruct (calculate_volatility_columns w l d _ Ht ltac:(lia) Hcl)
    as (w' & Hrun & _ & Hvol & Havg & Hmult).
  exists w'. split; [done|].
  destruct (nrows d) as [|[|n]]; [lia|lia|].
  rewrite volatility_constant in Hvol by done.
  rewrite average_volatility_constant in Havg by done.
  rewrite volatility_multiplier_constant in Hmult by done.
  replace (S (S n) - 1)%nat with (S n) by lia. done.
Qed.

Lemma constant_closes_witness :
  exists w',
    calculate_volatility (Some 0%nat) (holding two_rows)
    = (Ret (Some 0%nat), w') /\
    column_at w' 0%nat "Volatility" = Some [NaN; Fin 0] /\
    column_at w' 0%nat "Average_Volatility" = Some [Fin 0; Fin 0] /\
    column_at w' 0%nat "Volatility_Multiplier" = Some [NaN; NaN].
Proof.
  apply (constant_closes (holding two_rows) 0%nat two_rows 100).
  - by apply table_at_holding.
  - unfold two_rows, frame_of_closes, nrows. simpl. lia.
  - lra.
  - reflexivity.
Defined.

(** Claim C10 as stated fails: a table of one row is a non-empty series
    of equal closes, and its average volatility is null, not 0. *)
Lemma single_row_average_is_null :
  closes one_row = Ret [Fin 100] /\
  exists w',
    calculate_volatility (Some 0%nat) (holding one_row)
    = (Ret (Some 0%nat), w') /\
    column_at w' 0%nat "Average_Volatility" = Some [NaN] /\
    column_at w' 0%nat "Average_Volatility" <> Some [Fin 0].
Proof.
  split; [reflexivity|].
  destruct (calculate_volatility_columns (holding one_row) 0%nat one_row
              [Fin 100])
    as (w' & Hrun & _ & _ & Havg & _).
  - by apply table_at_holding.
  - done.
  - reflexivity.
  - exists w'. split; [done|]. rewrite Havg. split; [reflexivity|].
    intros H. discriminate H.
Qed.

(** * Further properties of the code *)

(** X1.  [calculate_volatility]: on every row whose volatility is finite,
    when the average volatility is a positive real [a], the multiplier is
    the ratio volatility / average up to the rounding to two decimals:
    multiplier * a differs from the volatility by at most 0.005 * a. *)
Theorem multiplier_within_rounding w l d close :
  table_at w l d -> nrows d <> 0%nat -> closes d = Ret close ->
  exists w' vol avg mult,
    calculate_volatility (Some l) w = (Ret (Some l), w') /\
    column_at w' l "Volatility" = Some vol /\
    column_at w' l "Average_Volatility" = Some (replicate (nrows d) avg) /\
    column_at w' l "Volatility_Multiplier" = Some mult /\
    forall (t : nat) v a,
      vol !! t = Some (Fin v) -> avg = Fin a -> 0 < a ->
      exists m, mult !! t = Some (Fin m) /\ Rabs (m * a - v) <= 0.005 * a.
Proof.
  intros Ht Hr Hc.
  destruct (calculate_volatility_columns w l d close Ht Hr Hc)
    as (w' & Hrun & _ & Hvol & Havg & Hmult).
  exists w', (volatility close), (average_volatility close),
    (volatility_multiplier close).
  repeat (split; [done|]).
  intros t v a Hv Ha Hpos.
  rewrite (volatility_multiplier_lookup _ _ _ Hv), Ha.
  rewrite fdiv_fin by lra.
  destruct (fround2_error (v / a)) as (m & -> & Hm).
  exists m. split; [done|].
  replace (m * a - v) with ((m - v / a) * a) by (field; lra).
  rewrite Rabs_mult, (Rabs_pos_eq a) by lra.
  apply Rmult_le_compat_r; lra.
Qed.

Section InPlace.
Implicit Types (cols : list (string * column)) (d : DataFrame)
  (n m : string) (c : column) (close : Series).

Lemma overwrite_same n c cols :
  (forall nc, In nc cols -> has_name n nc = true -> snd nc = c) ->
  overwrite n c cols = cols.
Proof.
  induction cols as [|a cols IH]; intros H; [done|]. simpl.
  rewrite IH by (intros nc Hin; apply H; by right).
  destruct (has_name n a) eqn:Ha; [|done].
  rewrite <- (H a (or_introl eq_refl) Ha). by destruct a.
Qed.

(** Writing back the column that is there changes nothing. *)
Lemma setitem_same d n c : getitem n d = Ret c -> setitem n c d = d.
Proof.
  unfold getitem, setitem. intros Hg.
  destruct (List.filter (has_name n) (df_columns d)) as [|a [|b r]] eqn:Hf;
    try done.
  injection Hg as <-.
  assert (has_column n d = true) as ->.
  { unfold has_column. apply existsb_exists. exists a.
    apply List.filter_In. rewrite Hf. by left. }
  rewrite overwrite_same; [by destruct d|].
  intros nc Hin Hn.
  assert (In nc (List.filter (has_name n) (df_columns d))) as Hin'
    by (by apply List.filter_In).
  rewrite Hf in Hin'. destruct Hin' as [->|[]]. done.
Qed.

Lemma aligned_setitem d n c :
  aligned d = true -> column_length c = nrows d ->
  aligned (setitem n c d) = true.
Proof.
  unfold aligned, setitem, nrows. simpl. intros Ha Hc.
  destruct (has_column n d).
  - unfold overwrite. rewrite forallb_forall in *. intros nc Hin.
    apply in_map_iff in Hin as (nc0 & <- & Hin0).
    destruct (has_name n nc0); simpl; [by apply Nat.eqb_eq|by apply Ha].
  - rewrite forallb_app, Ha. simpl. rewrite Hc, Nat.eqb_refl. done.
Qed.

Lemma volatility_multiplier_length close :
  length (volatility_multiplier close) = length close.
Proof.
  unfold volatility_multiplier.
  rewrite div_replicate by (rewrite volatility_length; lia).
  by rewrite !length_map, volatility_length.
Qed.

Lemma augment_nrows d close : nrows (augment d close) = nrows d.
Proof. done. Qed.

Lemma augment_unique d close :
  unique_names d = true -> unique_names (augment d close) = true.
Proof. intros Hu. unfold augment. by repeat apply unique_names_setitem. Qed.

Lemma augment_aligned d close :
  aligned d = true -> length close = nrows d ->
  aligned (augment d close) = true.
Proof.
  intros Ha Hlen. unfold augment.
  apply aligned_setitem; [apply aligned_setitem; [apply aligned_setitem;
    [apply aligned_setitem|]|]|]; try done; simpl.
  - by rewrite log_returns_length.
  - by rewrite volatility_length.
  - by rewrite length_replicate.
  - by rewrite volatility_multiplier_length.
Qed.

Lemma augment_other d close m :
  ~ In m new_columns -> getitem m (augment d close) = getitem m d.
Proof.
  intros Hm. unfold augment.
  rewrite !getitem_setitem_ne; [done|..]; intros <-; apply Hm; simpl; tauto.
Qed.

Lemma augment_closes d close : closes (augment d close) = closes d.
Proof.
  unfold closes. rewrite augment_other; [done|].
  simpl. intros H. repeat (destruct H as [H|H]; [discriminate H|]). done.
Qed.

Lemma augment_again d close :
  unique_names d = true -> augment (augment d close) close = augment d close.
Proof.
  intros Hu. unfold augment at 1. rewrite augment_nrows.
  rewrite (setitem_same _ _ _ (augment_log_returns d close Hu)).
  rewrite (setitem_same _ _ _ (augment_volatility d close Hu)).
  rewrite (setitem_same _ _ _ (augment_average d close Hu)).
  by rewrite (setitem_same _ _ _ (augment_multiplier d close Hu)).
Qed.

End InPlace.

(** X2.  [calculate_volatility] run a second time on the table it has
    filled recomputes the same four columns: the second run returns the
    same reference and leaves the world as the first run left it. *)
Theorem calculate_volatility_twice w l d close :
  table_at w l d -> nrows d <> 0%nat -> closes d = Ret close ->
  exists w',
    calculate_volatility (Some l) w = (Ret (Some l), w') /\
    calculate_volatility (Some l) w' = (Ret (Some l), w').
Proof.
  intros (Hl & Hu & Ha) Hr Hc.
  pose proof (closes_length _ _ Ha Hc) as Hlen.
  exists (with_heap w (<[l := augment d close]> (heap w))).
  split; [by apply calculate_volatility_run|].
  rewrite (calculate_volatility_run _ l (augment d close) close).
  - rewrite augment_again by done. unfold with_heap. simpl.
    by rewrite insert_insert_eq.
  - apply lookup_insert_eq.
  - by apply augment_unique.
  - by apply augment_aligned.
  - done.
  - by rewrite augment_closes.
Qed.

(** X3.  [calculate_volatility] on a non-empty table that has no column
    named Adj Close raises KeyError 'Adj Close' (the function has no
    handler), prints nothing and leaves the table as it was. *)
Theorem calculate_volatility_without_closes w l d :
  heap w !! l = Some d -> empty d = false ->
  has_column "Adj Close" d = false ->
  calculate_volatility (Some l) w = (Raise (KeyError ["Adj Close"]), w).
Proof.
  intros Hl He Hc. unfold calculate_volatility.
  rewrite (bind_ret _ _ _ _ _ (deref_run _ _ _ Hl)), He.
  assert (read_series l "Adj Close" w = (Raise (KeyError ["Adj Close"]), w))
    as Hread.
  { unfold read_series.
    rewrite (bind_ret _ _ _ _ _ (deref_run _ _ _ Hl)).
    unfold bind, lift, getitem. unfold has_column in Hc.
    by rewrite (has_column_false_filter _ _ Hc). }
  unfold bind at 1. by rewrite Hread.
Qed.

(** X4.  [calculate_volatility] keeps the table well formed: after the
    call the object still has distinct column names and one cell per row
    in every column, the same number of rows, the four derived columns,
    and every column of another name reads as before. *)
Theorem calculate_volatility_keeps_table w l d close :
  table_at w l d -> nrows d <> 0%nat -> closes d = Ret close ->
  exists d' w',
    calculate_volatility (Some l) w = (Ret (Some l), w') /\
    table_at w' l d' /\
    nrows d' = nrows d /\
    (forall name, In name new_columns -> has_column name d' = true) /\
    (forall name, ~ In name new_columns -> getitem name d' = getitem name d).
Proof.
  intros (Hl & Hu & Ha) Hr Hc.
  pose proof (closes_length _ _ Ha Hc) as Hlen.
  exists (augment d close), (with_heap w (<[l := augment d close]> (heap w))).
  split; [by apply calculate_volatility_run|].
  split.
  { split; [apply lookup_insert_eq|].
    split; [by apply augment_unique|by apply augment_aligned]. }
  split; [done|]. split; [|intros name; apply augment_other].
  intros name Hin. unfold augment. simpl in Hin.
  destruct Hin as [<-|[<-|[<-|[<-|[]]]]].
  - rewrite !has_column_setitem_ne by neq_str. apply has_column_setitem_eq.
  - rewrite !has_column_setitem_ne by neq_str. apply has_column_setitem_eq.
  - rewrite !has_column_setitem_ne by neq_str. apply has_column_setitem_eq.
  - apply has_column_setitem_eq.
Qed.

Section Scale.
Variable k : R.
Hypothesis k_pos : 0 < k.

Lemma fdiv_scaled p q : fdiv (fmul q (Fin k)) (fmul p (Fin k)) = fdiv q p.
Proof using k_pos.
  destruct p as [| | |a], q as [| | |b]; simpl; unfold inf_of_sign;
    split_R; simpl; unfold inf_of_sign; split_R;
    try reflexivity; try (exfalso; nra); try (f_equal; field; lra).
Qed.

Lemma shift1_scaled (s : Series) : shift 1 (scaled k s) = scaled k (shift 1 s).
Proof.
  unfold shift, scaled. rewrite length_map.
  exact (firstn_map (fun x => fmul x (Fin k)) (length s) (NaN :: s)).
Qed.

Lemma div_scaled (s t : Series) :
  div (scaled k s) (scaled k t) = div s t.
Proof using k_pos.
  unfold div, scaled. revert t.
  induction s as [|x s IH]; intros [|y t]; try done.
  simpl. by rewrite fdiv_scaled, IH.
Qed.

Lemma log_returns_scaled (s : Series) :
  log_returns (scaled k s) = log_returns s.
Proof using k_pos.
  unfold log_returns. by rewrite shift1_scaled, div_scaled.
Qed.

Lemma derived_scaled (s : Series) :
  volatility (scaled k s) = volatility s /\
  average_volatility (scaled k s) = average_volatility s /\
  volatility_multiplier (scaled k s) = volatility_multiplier s.
Proof using k_pos.
  assert (volatility (scaled k s) = volatility s) as Hv
    by (unfold volatility; by rewrite log_returns_scaled).
  assert (average_volatility (scaled k s) = average_volatility s) as Ha
    by (unfold average_volatility; by rewrite Hv).
  repeat split; try done.
  unfold volatility_multiplier. rewrite Hv, Ha. unfold scaled.
  by rewrite length_map.
Qed.

End Scale.

(** X5.  The four derived columns do not depend on the unit of the
    price: two tables of the same length whose closes differ by a factor
    k > 0 get the same Log_Returns, Volatility, Average_Volatility and
    Volatility_Multiplier (floats read as exact reals). *)
Theorem volatility_is_scale_free k w l d w2 l2 d2 close :
  0 < k ->
  table_at w l d -> nrows d <> 0%nat -> closes d = Ret close ->
  table_at w2 l2 d2 -> nrows d2 = nrows d ->
  closes d2 = Ret (scaled k close) ->
  exists w' w2',
    calculate_volatility (Some l) w = (Ret (Some l), w') /\
    calculate_volatility (Some l2) w2 = (Ret (Some l2), w2') /\
    forall name, In name new_columns ->
                 column_at w2' l2 name = column_at w' l name.
Proof.
  intros Hk Ht Hr Hc Ht2 Hr2 Hc2.
  destruct (calculate_volatility_columns w l d close Ht Hr Hc)
    as (w' & Hrun & Hlr & Hvol & Havg & Hmult).
  destruct (calculate_volatility_columns w2 l2 d2 _ Ht2 ltac:(lia) Hc2)
    as (w2' & Hrun2 & Hlr2 & Hvol2 & Havg2 & Hmult2).
  destruct (derived_scaled k Hk close) as (Ev & Ea & Em).
  rewrite log_returns_scaled in Hlr2 by done.
  rewrite Ev in Hvol2. rewrite Ea, Hr2 in Havg2. rewrite Em in Hmult2.
  exists w', w2'. split; [done|]. split; [done|].
  intros name Hin. simpl in Hin.
  destruct Hin as [<-|[<-|[<-|[<-|[]]]]]; congruence.
Qed.

(** X6.  After [calculate_volatility] every cell of Volatility is null
    or not negative; the average is not negative as soon as one cell is
    not null, and null when every cell is. *)
Theorem volatility_is_not_negative w l d close :
  table_at w l d -> nrows d <> 0%nat -> closes d = Ret close ->
  exists w' vol avg,
    calculate_volatility (Some l) w = (Ret (Some l), w') /\
    column_at w' l "Volatility" = Some vol /\
    column_at w' l "Average_Volatility" = Some (replicate (nrows d) avg) /\
    (forall (t : nat) x, vol !! t = Some x -> x = NaN \/ nonneg x) /\
    ((exists (t : nat) x, vol !! t = Some x /\ x <> NaN) -> nonneg avg) /\
    ((forall (t : nat) x, vol !! t = Some x -> x = NaN) -> avg = NaN).
Proof.
  intros Ht Hr Hc.
  destruct (calculate_volatility_columns w l d close Ht Hr Hc)
    as (w' & Hrun & _ & Hvol & Havg & _).
  exists w', (volatility close), (average_volatility close).
  repeat (split; [done|]). split; [|split].
  - intros t x Hx. unfold volatility in Hx.
    rewrite list_lookup_fmap in Hx.
    destruct (log_returns close !! t) as [y|]; [|done].
    injection Hx as <-. destruct (notna (fabs y)) eqn:Hn.
    + right. by apply fabs_nonneg.
    + left. by destruct y.
  - intros (t & x & Hx & Hn).
    apply (average_volatility_nonneg _ _ _ Hx). by destruct x.
  - intros Hall. unfold average_volatility, mean.
    assert (dropna (volatility close) = []) as ->; [|done].
    unfold dropna.
    destruct (List.filter notna (volatility close)) as [|x r] eqn:Hf; [done|].
    assert (In x (List.filter notna (volatility close))) as Hin
      by (rewrite Hf; by left).
    apply List.filter_In in Hin as [Hin Hn].
    apply list_elem_of_In, list_elem_of_lookup in Hin as [t Hx].
    rewrite (Hall _ _ Hx) in Hn. done.
Qed.

Section Selection.
Implicit Types (cols : list (string * column)) (d : DataFrame).

Lemma filter_single n cols :
  distinct (map fst cols) = true ->
  existsb (has_name n) cols = true ->
  exists c, List.filter (has_name n) cols = [(n, c)].
Proof.
  induction cols as [|a cols IH]; simpl; [done|].
  intros Hd Hex. apply andb_true_iff in Hd as [Hna Hd].
  destruct (has_name n a) eqn:Ha; simpl.
  - apply has_name_eq in Ha. subst n.
    apply negb_true_iff in Hna. rewrite <- existsb_names in Hna.
    rewrite (has_column_false_filter _ _ Hna). exists (snd a). by destruct a.
  - auto.
Qed.

(** On a table with distinct names that has every key, the selection
    succeeds and returns, key by key, the column of that name. *)
Lemma getitems_unique keys d :
  unique_names d = true ->
  forallb (fun k => has_column k d) keys = true ->
  exists cs,
    getitems keys d
    = Ret (mkDataFrame (df_index d) (df_index_name d) cs (df_columns_name d)) /\
    map fst cs = keys /\
    Forall (fun nc => getitem (fst nc) d = Ret (snd nc)) cs.
Proof.
  intros Hu Hall. unfold getitems.
  assert (List.filter (fun k => negb (has_column k d)) keys = []) as ->.
  { clear Hu. induction keys as [|k keys IH]; simpl in *; [done|].
    apply andb_true_iff in Hall as [-> Hr]. simpl. auto. }
  eexists. split; [done|]. clear -Hu Hall.
  induction keys as [|k keys IH]; simpl in *; [by split|].
  apply andb_true_iff in Hall as [Hk Hr].
  destruct (IH Hr) as [IHn IHf].
  destruct (filter_single k (df_columns d) Hu Hk) as [c Hc].
  rewrite Hc. simpl. split; [by rewrite IHn|].
  constructor; [|done]. simpl. unfold getitem. by rewrite Hc.
Qed.

Lemma getitems_missing keys d m r :
  List.filter (fun k => negb (has_column k d)) keys = m :: r ->
  getitems keys d
  = if (length (m :: r) =? length keys)%nat
    then Raise (KeyErrorText
                  ("None of [" +:+ repr_index keys (df_columns_name d)
                     +:+ "] are in the [columns]"))
    else Raise (KeyError (m :: r)).
Proof. unfold getitems. by intros ->. Qed.

End Selection.

Section Pipelines.
Implicit Types (w : World) (d : DataFrame).

Lemma alloc_run d w :
  alloc d w
  = (Ret (fresh (dom (heap w))),
     with_heap w (<[fresh (dom (heap w)) := d]> (heap w))) /\
  heap w !! fresh (dom (heap w)) = None.
Proof. split; [done|]. apply not_elem_of_dom, is_fresh. Qed.


Lemma extract_none w :
  (df <- new_table None ;; calculate_volatility df) w
  = (Ret None, printed w error_line).
Proof. done. Qed.

Lemma calculate_volatility_empty w (l : loc) d :
  heap w !! l = Some d -> empty d = true ->
  calculate_volatility (Some l) w = (Ret None, printed w error_line).
Proof.
  intros Hl He. unfold calculate_volatility.
  rewrite (bind_ret _ _ _ _ _ (deref_run _ _ _ Hl)). by rewrite He.
Qed.

End Pipelines.



(** X8.  When a normalizer returns None, the composition with
    [calculate_volatility] returns None as well, after two printed lines:
    the normalizer's own message, then 'Error: DataFrame is empty or
    invalid.'; no table object is created. *)
Theorem volatility_of_no_data :
  (forall yf_download fx_pair interval start_date end_date w w1,
     yf_get_fx_data yf_download fx_pair interval start_date end_date w
     = (Ret None, w1) ->
     exists line,
       yf_volatility yf_download fx_pair interval start_date end_date w
       = (Ret None, printed w1 error_line) /\
       stdout (printed w1 error_line) = stdout w ++ [line; error_line] /\
       heap (printed w1 error_line) = heap w) /\
  (forall get_aggs fx_pair interval start_date end_date api_key w w1,
     polygon_get_fx_data get_aggs fx_pair interval start_date end_date api_key w
     = (Ret None, w1) ->
     exists line,
       polygon_volatility get_aggs fx_pair interval start_date end_date
         api_key w
       = (Ret None, printed w1 error_line) /\
       stdout (printed w1 error_line) = stdout w ++ [line; error_line] /\
       heap (printed w1 error_line) = heap w).
Proof.
  split.
  - intros yf_download fx_pair interval start_date end_date w w1 Hcall.
    unfold yf_volatility. rewrite (bind_ret _ _ _ _ _ Hcall), extract_none.
    destruct (yf_download fx_pair start_date end_date interval)
      as [data|e] eqn:Hans.
    + destruct (y_columns data) as [cols|cols] eqn:Hcols.
      * rewrite (yf_run_flat _ _ _ _ _ _ _ _ Hans Hcols) in Hcall.
        injection Hcall as <-. eexists. split; [done|]. simpl.
        by rewrite <- app_assoc.
      * rewrite (yf_run_multi _ _ _ _ _ _ _ _ Hans Hcols) in Hcall.
        destruct (getitems yf_keys (yf_frame fx_pair data cols)); [done|].
        injection Hcall as <-. eexists. split; [done|]. simpl.
        by rewrite <- app_assoc.
    + rewrite (yf_run_raise _ _ _ _ _ _ _ Hans) in Hcall.
      injection Hcall as <-. eexists. split; [done|]. simpl.
      by rewrite <- app_assoc.
  - intros get_aggs fx_pair interval start_date end_date api_key w w1 Hcall.
    unfold polygon_volatility.
    rewrite (bind_ret _ _ _ _ _ Hcall), extract_none.
    destruct (get_aggs ("C:" +:+ fx_pair) 1%Z interval start_date end_date api_key)
      as [[|a r]|e] eqn:Hans.
    + rewrite (polygon_run_empty _ _ _ _ _ _ _ Hans) in Hcall.
      injection Hcall as <-. eexists. split; [done|]. simpl.
      by rewrite <- app_assoc.
    + destruct (forallb in_datetime_range (map agg_timestamp (a :: r)))
        eqn:Hr.
      * rewrite (polygon_run_bars _ _ _ _ _ _ _ _ _ Hans Hr) in Hcall. done.
      * rewrite (polygon_run_out_of_range _ _ _ _ _ _ _ _ _ Hans Hr)
          in Hcall.
        injection Hcall as <-. eexists. split; [done|]. simpl.
        by rewrite <- app_assoc.
    + rewrite (polygon_run_raise _ _ _ _ _ _ _ _ Hans) in Hcall.
      injection Hcall as <-. eexists. split; [done|]. simpl.
      by rewrite <- app_assoc.
Qed.

Section Minutes.

Lemma floor_minute_bounds (t : timestamp) :
  (floor_minute t <= t < floor_minute t + ms_per_minute)%Z /\
  on_the_minute (floor_minute t) = true.
Proof.
  unfold floor_minute, to_datetime_Ymd_HM, strftime_Ymd_HM, on_the_minute,
    ms_per_minute.
  pose proof (Z.div_mod t 60000 ltac:(lia)) as Hdm.
  pose proof (Z.mod_pos_bound t 60000 ltac:(lia)) as Hb.
  split; [lia|]. apply Z.eqb_eq. apply Z.mod_mul. lia.
Qed.

(** Formatting a timestamp that lies on a minute and reading the text
    back gives the timestamp. *)
Lemma floor_minute_on_the_minute (t : timestamp) :
  on_the_minute t = true -> floor_minute t = t.
Proof.
  unfold floor_minute, to_datetime_Ymd_HM, strftime_Ymd_HM, on_the_minute,
    ms_per_minute.
  intros H. apply Z.eqb_eq in H.
  pose proof (Z.div_mod t 60000 ltac:(lia)) as Hdm. lia.
Qed.

Lemma floor_minute_monotone (t u : timestamp) :
  (t <= u)%Z -> (floor_minute t <= floor_minute u)%Z.
Proof.
  unfold floor_minute, to_datetime_Ymd_HM, strftime_Ymd_HM, ms_per_minute.
  intros H. apply Z.mul_le_mono_nonneg_r; [lia|].
  apply Z.div_le_mono; lia.
Qed.

Lemma map_floor_minute_id (ts : list timestamp) :
  forallb on_the_minute ts = true -> map floor_minute ts = ts.
Proof.
  induction ts as [|t ts IH]; simpl; [done|].
  intros H. apply andb_true_iff in H as [Ht Hr].
  by rewrite floor_minute_on_the_minute, IH.
Qed.

End Minutes.

Section VendorATable.
Variable yf_download : string -> string -> string -> string -> res YFrame.
Variables fx_pair interval start_date end_date : string.

(** On an answer with one column per price field that has the four
    fields, the normalizer returns the four columns. *)
Lemma yf_run_selected w data cols :
  yf_download fx_pair start_date end_date interval = Ret data ->
  y_columns data = MultiColumns cols ->
  unique_names (yf_frame fx_pair data cols) = true ->
  forallb (fun k => has_column k (yf_frame fx_pair data cols)) yf_keys = true ->
  exists o h lo c,
    getitem "Open" (yf_frame fx_pair data cols) = Ret o /\
    getitem "High" (yf_frame fx_pair data cols) = Ret h /\
    getitem "Low" (yf_frame fx_pair data cols) = Ret lo /\
    getitem "Adj Close" (yf_frame fx_pair data cols) = Ret c /\
    yf_get_fx_data yf_download fx_pair interval start_date end_date w
    = (Ret (Some (mkDataFrame
                    (DatetimeIndex (map floor_minute (y_index data)))
                    (y_index_name data)
                    [("Open", o); ("High", h); ("Low", lo); ("Adj Close", c)]
                    (Some fx_pair))),
       sent w (YfDownload fx_pair start_date end_date interval)).
Proof.
  intros Hans Hcols Hu Hall.
  rewrite (yf_run_multi _ _ _ _ _ _ _ _ Hans Hcols).
  destruct (getitems_unique yf_keys _ Hu Hall) as (cs & -> & Hn & Hf).
  destruct cs as [|[n1 o] [|[n2 h] [|[n3 lo] [|[n4 c] [|]]]]]; try done.
  injection Hn as -> -> -> ->.
  apply Forall_cons in Hf as [H1 Hf]. apply Forall_cons in Hf as [H2 Hf].
  apply Forall_cons in Hf as [H3 Hf]. apply Forall_cons in Hf as [H4 _].
  by exists o, h, lo, c.
Qed.

End VendorATable.

(** X9.  [yf_get_fx_data] on an answer of the vendor: with one level of
    column labels the call prints the 'Too many levels' message and
    returns None; with two levels it returns a table exactly when each of
    Open, High, Low and Adj Close is a field of the answer.  When some of
    the four, not all, are missing it prints the KeyError message that
    lists exactly the missing fields, in the order of the selection, and
    returns None; when all four are missing it prints one line, another
    message after the same prefix, and returns None. *)
Theorem yf_missing_fields
    yf_download fx_pair interval start_date end_date w data :
  yf_download fx_pair start_date end_date interval = Ret data ->
  match y_columns data with
  | FlatColumns _ =>
      yf_get_fx_data yf_download fx_pair interval start_date end_date w
      = (Ret None,
         printed (sent w (YfDownload fx_pair start_date end_date interval))
           "An error occurred: Too many levels: Index has only 1 level, not 2")
  | MultiColumns cols =>
      match List.filter
              (fun k => negb (has_column k (yf_frame fx_pair data cols)))
              yf_keys with
      | [] =>
          exists d,
            yf_get_fx_data yf_download fx_pair interval start_date end_date w
            = (Ret (Some d),
               sent w (YfDownload fx_pair start_date end_date interval))
      | missing =>
          if (length missing =? length yf_keys)%nat
          then
            exists text,
              yf_get_fx_data yf_download fx_pair interval start_date end_date w
              = (Ret None,
                 printed
                   (sent w (YfDownload fx_pair start_date end_date interval))
                   ("An error occurred: " +:+ text))
          else
            yf_get_fx_data yf_download fx_pair interval start_date end_date w
            = (Ret None,
               printed
                 (sent w (YfDownload fx_pair start_date end_date interval))
                 ("An error occurred: " +:+ dquote +:+ repr_list missing
                    +:+ " not in index" +:+ dquote))
      end
  end.
Proof.
  intros Hans. destruct (y_columns data) as [cols|cols] eqn:Hcols.
  - exact (yf_run_flat _ _ _ _ _ _ _ _ Hans Hcols).
  - rewrite (yf_run_multi _ _ _ _ _ _ _ _ Hans Hcols). unfold getitems.
    destruct (List.filter _ yf_keys) as [|m r]; [eauto|].
    destruct (length (m :: r) =? length yf_keys)%nat; [eauto|done].
Qed.

(** X10.  [yf_get_fx_data] cuts each timestamp of the vendor to its
    minute: row by row the new timestamp lies on a minute boundary, at
    most one minute before the vendor's; timestamps already on a minute
    boundary are unchanged, and the order of two rows is never
    reversed. *)
Theorem yf_index_minutes
    yf_download fx_pair interval start_date end_date w d w' :
  yf_get_fx_data yf_download fx_pair interval start_date end_date w
  = (Ret (Some d), w') ->
  exists data ts,
    yf_download fx_pair start_date end_date interval = Ret data /\
    index_timestamps d = Some ts /\
    Forall2 (fun t t' => (t' <= t < t' + ms_per_minute)%Z
                         /\ on_the_minute t' = true)
      (y_index data) ts /\
    (forallb on_the_minute (y_index data) = true -> ts = y_index data) /\
    (forall (i j : nat) a b a' b',
        y_index data !! i = Some a -> y_index data !! j = Some b ->
        ts !! i = Some a' -> ts !! j = Some b' ->
        (a <= b)%Z -> (a' <= b')%Z).
Proof.
  intros Hcall.
  destruct (yf_download fx_pair start_date end_date interval)
    as [data|e] eqn:Hans.
  - destruct (y_columns data) as [cols|cols] eqn:Hcols.
    + rewrite (yf_run_flat _ _ _ _ _ _ _ _ Hans Hcols) in Hcall. done.
    + rewrite (yf_run_multi _ _ _ _ _ _ _ _ Hans Hcols) in Hcall.
      destruct (getitems yf_keys (yf_frame fx_pair data cols))
        as [d0|e] eqn:Hsel; [|done].
      injection Hcall as -> _.
      apply getitems_inv in Hsel as (Hi & _ & _).
      exists data, (map floor_minute (y_index data)).
      split; [done|]. split; [unfold index_timestamps; by rewrite Hi|].
      split; [|split].
      * induction (y_index data) as [|t ts IH]; simpl; constructor; [|done].
        apply floor_minute_bounds.
      * apply map_floor_minute_id.
      * intros i j a b a' b' Ha Hb Ha' Hb' Hle.
        rewrite list_lookup_fmap, Ha in Ha'. rewrite list_lookup_fmap, Hb in Hb'.
        injection Ha' as <-. injection Hb' as <-.
        by apply floor_minute_monotone.
  - rewrite (yf_run_raise _ _ _ _ _ _ _ Hans) in Hcall. done.
Qed.

(** X11.  [yf_get_fx_data], when the answer has one column per field
    and the four selected fields: the result has the columns Open, High,
    Low, Adj Close in this order, its column axis bears the name of the
    pair, its index keeps the name and the length of the vendor's, and
    every column is a column of the vendor's answer under that field. *)
Theorem yf_columns_are_the_vendors
    yf_download fx_pair interval start_date end_date w data cols :
  yf_download fx_pair start_date end_date interval = Ret data ->
  y_columns data = MultiColumns cols ->
  distinct (map (fun lc => fst (fst lc)) cols) = true ->
  forallb (fun k => has_column k (yf_frame fx_pair data cols)) yf_keys = true ->
  exists d,
    yf_get_fx_data yf_download fx_pair interval start_date end_date w
    = (Ret (Some d), sent w (YfDownload fx_pair start_date end_date interval)) /\
    column_names d = yf_keys /\
    df_columns_name d = Some fx_pair /\
    df_index_name d = y_index_name data /\
    nrows d = length (y_index data) /\
    forall name c, In (name, c) (df_columns d) ->
                   exists ticker, In ((name, ticker), c) cols.
Proof.
  intros Hans Hcols Hd Hall.
  assert (Hu : unique_names (yf_frame fx_pair data cols) = true).
  { unfold unique_names, column_names. simpl. by rewrite map_map. }
  destruct (yf_run_selected yf_download fx_pair interval start_date end_date
              w data cols Hans Hcols Hu Hall)
    as (o & h & lo & c & Ho & Hh & Hlo & Hc & ->).
  eexists. split; [done|]. split; [done|]. split; [done|]. split; [done|].
  split; [unfold nrows; simpl; by rewrite length_map|].
  assert (forall k x, getitem k (yf_frame fx_pair data cols) = Ret x ->
                      exists ticker, In ((k, ticker), x) cols) as Hfrom.
  { intros k x Hg. unfold getitem in Hg.
    destruct (List.filter (has_name k) (df_columns (yf_frame fx_pair data cols)))
      as [|a [|b r]] eqn:Hf; try done.
    injection Hg as <-.
    assert (In a (List.filter (has_name k)
                    (df_columns (yf_frame fx_pair data cols)))) as Hin
      by (rewrite Hf; by left).
    apply List.filter_In in Hin as [Hin Hk]. apply has_name_eq in Hk.
    simpl in Hin. apply in_map_iff in Hin as ([[n t] x] & <- & Hin).
    simpl in Hk. subst n. by exists t. }
  intros name x Hin. simpl in Hin.
  destruct Hin as [H|[H|[H|[H|[]]]]]; injection H as <- <-; by apply Hfrom.
Qed.

Section MacroTable.
Variables (indicator : string) (start_date end_date : timestamp)
  (data : FredSeries).

Lemma fred_frame_period_change :
  getitem "Percentage_Change" (fred_frame indicator start_date end_date data)
  = Ret (Floats (percentage_change
                   (map snd (window start_date end_date data)))).
Proof.
  unfold fred_frame. destruct (String.eqb indicator "CPIAUCSL").
  - rewrite getitem_setitem_ne by neq_str. by apply getitem_setitem_eq.
  - by apply getitem_setitem_eq.
Qed.

Lemma fred_frame_values :
  indicator <> "Percentage_Change" ->
  getitem indicator (fred_frame indicator start_date end_date data)
  = Ret (Floats (map snd (window start_date end_date data))).
Proof.
  intros Hne. unfold fred_frame.
  assert (getitem indicator
            (setitem "Percentage_Change"
               (Floats (percentage_change
                          (map snd (window start_date end_date data))))
               (mkDataFrame
                  (DatetimeIndex (map fst (window start_date end_date data)))
                  (Some "Date")
                  [(indicator,
                    Floats (map snd (window start_date end_date data)))] None))
          = Ret (Floats (map snd (window start_date end_date data)))) as Hg.
  { rewrite getitem_setitem_ne by congruence.
    unfold getitem. simpl. unfold has_name. simpl.
    by rewrite String.eqb_refl. }
  destruct (String.eqb indicator "CPIAUCSL") eqn:Hi; [|done].
  rewrite getitem_setitem_ne; [done|].
  apply String.eqb_eq in Hi. subst. done.
Qed.

Lemma fred_frame_index :
  index_timestamps (fred_frame indicator start_date end_date data)
  = Some (map fst (window start_date end_date data)) /\
  df_index_name (fred_frame indicator start_date end_date data) = Some "Date".
Proof. unfold fred_frame. by destruct (String.eqb indicator "CPIAUCSL"). Qed.

Lemma fred_frame_names :
  indicator <> "Percentage_Change" ->
  column_names (fred_frame indicator start_date end_date data)
  = if String.eqb indicator "CPIAUCSL"
    then ["CPIAUCSL"; "Percentage_Change"; "YoY_Inflation"]
    else [indicator; "Percentage_Change"].
Proof.
  intros Hne. unfold fred_frame.
  destruct (String.eqb indicator "CPIAUCSL") eqn:Hi.
  - apply String.eqb_eq in Hi. by subst.
  - unfold column_names, setitem, has_column. simpl. unfold has_name. simpl.
    apply String.eqb_neq in Hne. by rewrite Hne.
Qed.

Lemma fred_frame_aligned :
  aligned (fred_frame indicator start_date end_date data) = true.
Proof.
  assert (aligned
            (setitem "Percentage_Change"
               (Floats (percentage_change
                          (map snd (window start_date end_date data))))
               (mkDataFrame
                  (DatetimeIndex (map fst (window start_date end_date data)))
                  (Some "Date")
                  [(indicator,
                    Floats (map snd (window start_date end_date data)))] None))
          = true) as Ha.
  { apply aligned_setitem.
    - unfold aligned, nrows. simpl. by rewrite !length_map, Nat.eqb_refl.
    - unfold nrows, percentage_change. simpl.
      by rewrite length_map, pct_change_length, !length_map. }
  unfold fred_frame. destruct (String.eqb indicator "CPIAUCSL"); [|done].
  apply aligned_setitem; [done|].
  unfold nrows. simpl. by rewrite yoy_inflation_length, !length_map.
Qed.

End MacroTable.

Section Window.
Variables (start_date end_date : timestamp) (data : FredSeries).

Lemma window_in (t : timestamp) :
  In t (map fst (window start_date end_date data)) <->
  (exists x, In (t, x) data) /\ (start_date <= t <= end_date)%Z.
Proof.
  unfold window. rewrite in_map_iff. split.
  - intros ([t' x] & <- & Hin). apply List.filter_In in Hin as [Hin Hb].
    simpl in *. apply andb_true_iff in Hb as [H1 H2].
    split; [by exists x|lia].
  - intros ([x Hin] & Hb). exists (t, x). split; [done|].
    apply List.filter_In. split; [done|]. simpl.
    apply andb_true_iff. split; lia.
Qed.

Lemma window_reversed :
  (end_date < start_date)%Z -> window start_date end_date data = [].
Proof.
  intros H. unfold window. induction data as [|[t x] r IH]; [done|].
  simpl. rewrite IH.
  destruct (start_date <=? t)%Z eqn:H1, (t <=? end_date)%Z eqn:H2; try done.
  lia.
Qed.

Lemma window_all :
  (forall t x, In (t, x) data -> (start_date <= t <= end_date)%Z) ->
  window start_date end_date data = data.
Proof.
  unfold window. induction data as [|[t x] r IH]; [done|]. intros Hall.
  simpl. pose proof (Hall t x (or_introl eq_refl)) as Hb.
  assert ((start_date <=? t)%Z && (t <=? end_date)%Z = true) as ->
    by (apply andb_true_iff; split; lia).
  f_equal. apply IH. intros t' x' Hin. apply (Hall t' x'). by right.
Qed.

End Window.

Section PeriodChange.
Implicit Types (s : Series).

Lemma percentage_change_length s : length (percentage_change s) = length s.
Proof. unfold percentage_change. by rewrite length_map, pct_change_length. Qed.

Lemma percentage_change_0 s :
  s <> [] -> percentage_change s !! 0%nat = Some NaN.
Proof.
  intros Hs. unfold percentage_change.
  rewrite list_lookup_fmap, pct_change_lt; [done|lia|].
  destruct s; [done|simpl; lia].
Qed.

Lemma percentage_change_S s (t : nat) x y :
  ffill s !! S t = Some x -> ffill s !! t = Some y ->
  percentage_change s !! S t = Some (fround 4 (fsub (fdiv x y) (Fin 1))).
Proof.
  intros Hx Hy. unfold percentage_change.
  replace (S t) with (t + 1)%nat in * by lia.
  by rewrite list_lookup_fmap, (pct_change_ge _ _ _ _ _ Hx Hy).
Qed.

End PeriodChange.

Lemma percentage_change_null s (t : nat) x y :
  ffill s !! S t = Some x -> ffill s !! t = Some y ->
  x = NaN \/ y = NaN ->
  percentage_change s !! S t = Some NaN.
Proof.
  intros Hx Hy Hn. rewrite (percentage_change_S _ _ _ _ Hx Hy).
  destruct Hn as [-> | ->]; [done|]. by destruct x.
Qed.

Lemma percentage_change_rounded s (t : nat) a b :
  ffill s !! S t = Some (Fin a) -> ffill s !! t = Some (Fin b) -> b <> 0 ->
  exists m, percentage_change s !! S t = Some (Fin m) /\
            rounded_to 4 (a / b - 1) m.
Proof.
  intros Hx Hy Hb. rewrite (percentage_change_S _ _ _ _ Hx Hy).
  rewrite fdiv_fin by done.
  change (fsub (Fin (a / b)) (Fin 1)) with (Fin (a / b + - 1)).
  destruct (fround_rounded_to 4 (a / b + - 1)) as (m & -> & Hm).
  exists m. split; [done|].
  by replace (a / b - 1) with (a / b + - 1) by lra.
Qed.

(** The rows of a series in date order that a window keeps are in date
    order. *)
Lemma strictly_increasing_cons (t : Z) (r : list Z) :
  strictly_increasing (t :: r) = true <->
  Forall (fun u => (t < u)%Z) r /\ strictly_increasing r = true.
Proof.
  revert t. induction r as [|u r IH]; intros t.
  - split; [by split|done].
  - change (strictly_increasing (t :: u :: r))
      with ((t <? u)%Z && strictly_increasing (u :: r)).
    rewrite andb_true_iff, Z.ltb_lt. split.
    + intros [Htu Hr]. split; [|done]. constructor; [done|].
      apply IH in Hr as [Hall _].
      eapply Forall_impl; [exact Hall|]. simpl. intros x Hx. lia.
    + intros [Hall Hr]. split; [|done]. by apply Forall_cons in Hall as [? _].
Qed.

Lemma window_increasing start_date end_date (data : list (Z * float64)) :
  strictly_increasing (map fst data) = true ->
  strictly_increasing (map fst (window start_date end_date data)) = true.
Proof.
  unfold window. induction data as [|[t x] r IH]; [done|].
  simpl. intros H. apply strictly_increasing_cons in H as [Hall Hr].
  specialize (IH Hr).
  destruct ((start_date <=? t)%Z && (t <=? end_date)%Z); [|done].
  simpl. apply strictly_increasing_cons. split; [|done].
  rewrite List.Forall_forall in Hall |- *. intros u Hu. apply Hall.
  apply in_map_iff in Hu as (p & <- & Hp). apply List.filter_In in Hp as [Hp _].
  apply in_map_iff. by exists p.
Qed.

(** X13.  [fetch_fred_data], for every indicator the vendor serves in
    date order: the column Percentage_Change has one cell per row of the
    window; its first cell is null; a later cell is F[t+1] / F[t] - 1
    rounded to four decimals as float64 arithmetic does it, where F is
    the window's values with every null replaced by the last value above
    it: for finite F[t+1] and F[t], F[t] not zero and the quotient at
    most 1000 in size, the cell is a multiple of 0.0001 at most 0.00005
    away from F[t+1] / F[t] - 1, each up to the rounding error of the
    operations; it is null when F[t+1] or F[t] is. *)
Theorem percentage_change_column
    get_series indicator start_date end_date api_key w data :
  get_series indicator api_key = Ret data ->
  strictly_increasing (map fst data) = true ->
  exists d v pc,
    fetch_fred_data get_series indicator start_date end_date api_key w
    = (Ret (Some d), sent w (GetSeries indicator api_key)) /\
    v = map snd (window start_date end_date data) /\
    getitem "Percentage_Change" d = Ret (Floats pc) /\
    length pc = length v /\
    (v <> [] -> pc !! 0%nat = Some NaN) /\
    (forall (t : nat) a b,
        ffill v !! S t = Some (Fin a) -> ffill v !! t = Some (Fin b) ->
        b <> 0 -> Rabs (a / b) <= 1000 ->
        exists m, pc !! S t = Some (Fin m) /\ rounded_to 4 (a / b - 1) m) /\
    (forall (t : nat) x y,
        ffill v !! S t = Some x -> ffill v !! t = Some y ->
        x = NaN \/ y = NaN ->
        pc !! S t = Some NaN) /\
    (forall (t : nat) a b,
        v !! S t = Some (Fin a) -> v !! t = Some (Fin b) ->
        b <> 0 -> Rabs (a / b) <= 1000 ->
        exists m, pc !! S t = Some (Fin m) /\ rounded_to 4 (a / b - 1) m).
Proof.
  intros Hans Hsorted.
  exists (fred_frame indicator start_date end_date data),
    (map snd (window start_date end_date data)),
    (percentage_change (map snd (window start_date end_date data))).
  split; [by apply fred_run_series|]. split; [done|].
  split; [apply fred_frame_period_change|].
  split; [apply percentage_change_length|].
  split; [apply percentage_change_0|].
  split; [intros t a b Ha Hb Hb0 _; by apply percentage_change_rounded|].
  split; [apply percentage_change_null|].
  intros t a b Ha Hb Hb0 _.
  apply percentage_change_rounded;
    [by apply ffill_notna|by apply ffill_notna|done].
Qed.

(** X14.  [fetch_fred_data], when the vendor's series is in date order,
    keeps the rows whose date lies between start_date and end_date, both
    included: the index, named Date, holds exactly those dates, in date
    order; a start after the end gives a table without rows; a window
    that covers the series keeps every row; the column named after the
    indicator holds the vendor's values. *)
Theorem fetch_fred_data_window
    get_series indicator start_date end_date api_key w data :
  get_series indicator api_key = Ret data ->
  strictly_increasing (map fst data) = true ->
  exists d dates,
    fetch_fred_data get_series indicator start_date end_date api_key w
    = (Ret (Some d), sent w (GetSeries indicator api_key)) /\
    index_timestamps d = Some dates /\
    df_index_name d = Some "Date" /\
    nrows d = length dates /\
    strictly_increasing dates = true /\
    (forall t, In t dates <->
               (exists x, In (t, x) data) /\ (start_date <= t <= end_date)%Z) /\
    ((end_date < start_date)%Z -> dates = []) /\
    ((forall t x, In (t, x) data -> (start_date <= t <= end_date)%Z) ->
     dates = map fst data) /\
    (indicator <> "Percentage_Change" ->
     getitem indicator d
     = Ret (Floats (map snd (window start_date end_date data)))).
Proof.
  intros Hans Hsorted.
  exists (fred_frame indicator start_date end_date data),
    (map fst (window start_date end_date data)).
  split; [by apply fred_run_series|].
  destruct (fred_frame_index indicator start_date end_date data) as [Hi Hn].
  split; [done|]. split; [done|].
  split; [by rewrite fred_frame_nrows, length_map|].
  split; [by apply window_increasing|].
  split; [apply window_in|].
  split; [intros H; by rewrite window_reversed|].
  split; [|apply fred_frame_values].
  intros Hall. by rewrite window_all.
Qed.

(** X15.  Every table [fetch_fred_data] returns has the columns
    [indicator; Percentage_Change], and [CPIAUCSL; Percentage_Change;
    YoY_Inflation] for the indicator CPIAUCSL, each with one cell per
    row, when the indicator is not itself named Percentage_Change. *)
Theorem fetch_fred_data_schema
    get_series indicator start_date end_date api_key w d w' :
  indicator <> "Percentage_Change" ->
  fetch_fred_data get_series indicator start_date end_date api_key w
  = (Ret (Some d), w') ->
  column_names d
  = (if String.eqb indicator "CPIAUCSL"
     then ["CPIAUCSL"; "Percentage_Change"; "YoY_Inflation"]
     else [indicator; "Percentage_Change"]) /\
  aligned d = true /\
  (indicator <> "YoY_Inflation" -> unique_names d = true).
Proof.
  intros Hne Hcall.
  destruct (get_series indicator api_key) as [data|e] eqn:Hans.
  - rewrite (fred_run_series _ _ _ _ _ _ _ Hans) in Hcall.
    injection Hcall as <- _.
    split; [by apply fred_frame_names|]. split; [apply fred_frame_aligned|].
    intros Hny. unfold unique_names. rewrite fred_frame_names by done.
    destruct (String.eqb indicator "CPIAUCSL"); [done|].
    simpl. apply String.eqb_neq in Hne. by rewrite Hne.
  - rewrite (fred_run_raise _ _ _ _ _ _ _ Hans) in Hcall. done.
Qed.

(** X16.  [yf_get_fx_data] and [fetch_fred_data] send exactly one
    request per call, whatever the vendor answers: the download with the
    pair, the two dates and the interval; the series with the indicator
    and the key, the two dates of the window not being sent.  Neither
    touches a table object. *)
Theorem one_request_per_call :
  (forall yf_download fx_pair interval start_date end_date w,
     let w' := snd (yf_get_fx_data yf_download fx_pair interval
                      start_date end_date w) in
     requests w'
     = requests w ++ [YfDownload fx_pair start_date end_date interval] /\
     heap w' = heap w) /\
  (forall get_series indicator start_date end_date api_key w,
     let w' := snd (fetch_fred_data get_series indicator start_date end_date
                      api_key w) in
     requests w' = requests w ++ [GetSeries indicator api_key] /\
     heap w' = heap w).
Proof.
  split.
  - intros yf_download fx_pair interval start_date end_date w.
    destruct (yf_download fx_pair start_date end_date interval)
      as [data|e] eqn:Hans.
    + destruct (y_columns data) as [cols|cols] eqn:Hcols.
      * by rewrite (yf_run_flat _ _ _ _ _ _ _ _ Hans Hcols).
      * rewrite (yf_run_multi _ _ _ _ _ _ _ _ Hans Hcols).
        by destruct (getitems yf_keys (yf_frame fx_pair data cols)).
    + by rewrite (yf_run_raise _ _ _ _ _ _ _ Hans).
  - intros get_series indicator start_date end_date api_key w.
    destruct (get_series indicator api_key) as [data|e] eqn:Hans.
    + by rewrite (fred_run_series _ _ _ _ _ _ _ Hans).
    + by rewrite (fred_run_raise _ _ _ _ _ _ _ Hans).
Qed.

Section PlotRun.
Variable backend : command -> res unit.

Lemma plot_run_missing df column s :
  has_column column df = false ->
  plot_time_series backend df column s
  = (Ret tt,
     mkScreen
       (printed (screen_world s)
          ("Error: Column '" +:+ column +:+ "' not found in DataFrame."))
       (drawn s)).
Proof. intros H. unfold plot_time_series. by rewrite H. Qed.

Lemma plot_run df column s :
  has_column column df = true ->
  exists l,
    snd (plot_time_series backend df column s)
    = mkScreen (screen_world s) (drawn s ++ l) /\
    Forall (fun c => backend c = Ret tt) (removelast l) /\
    ~ In Show (removelast l) /\
    (has_column "vwap" df = true -> forallb (fun c => negb (sets_x_axis c)) l = true) /\
    match fst (plot_time_series backend df column s) with
    | Ret _ =>
        last l = Some Show /\ backend Show = Ret tt /\
        In (PlotColumns (df_index df)
              (List.filter (has_name column) (df_columns df))) l /\
        In (SetYlabel column 12) l /\
        In (title_of (axis_label df) column) l /\
        (has_column "vwap" df = false ->
         In (SetXlim (index_min (df_index df)) (index_max (df_index df))) l)
    | Raise e => exists c, last l = Some c /\ backend c = Raise e
    end.
Proof.
  intros Hcol. unfold plot_time_series, title_of. rewrite Hcol. simpl.
  destruct (has_column "vwap" df) eqn:Hv; simpl;
    unfold pbind, draw, pret; simpl; run_backend backend;
    rewrite <- ?app_assoc; simpl;
    (eexists; split; [reflexivity|]); simpl;
    (split; [repeat constructor; assumption|]);
    (split; [intuition discriminate|]);
    (split; [try done; by intros _|]);
    try (eexists; split; [reflexivity|assumption]);
    (split; [reflexivity|]); (split; [done|]);
    (split; [simpl; tauto|]); (split; [simpl; tauto|]);
    (split; [simpl; tauto|]); try done; intros _; simpl; tauto.
Qed.

End PlotRun.

(** A call of the vendor-B normalizer that returns a table has sent its
    request and printed nothing. *)
Lemma polygon_run_world
    get_aggs fx_pair interval start_date end_date api_key w d w' :
  polygon_get_fx_data get_aggs fx_pair interval start_date end_date api_key w
  = (Ret (Some d), w') ->
  w' = sent w (GetAggs ("C:" +:+ fx_pair) 1 interval start_date end_date
                 api_key).
Proof.
  intros Hcall.
  destruct (get_aggs ("C:" +:+ fx_pair) 1%Z interval start_date end_date api_key)
    as [[|a r]|e] eqn:Hans.
  - rewrite (polygon_run_empty _ _ _ _ _ _ _ Hans) in Hcall. done.
  - destruct (forallb in_datetime_range (map agg_timestamp (a :: r)))
      eqn:Hr.
    + rewrite (polygon_run_bars _ _ _ _ _ _ _ _ _ Hans Hr) in Hcall.
      by injection Hcall as _ <-.
    + rewrite (polygon_run_out_of_range _ _ _ _ _ _ _ _ _ Hans Hr) in Hcall.
      done.
  - rewrite (polygon_run_raise _ _ _ _ _ _ _ _ Hans) in Hcall. done.
Qed.

Section Extent.

Lemma fold_min_spec (r : list Z) (t : Z) :
  let m := fold_left Z.min r t in
  In m (t :: r) /\ Forall (fun x => (m <= x)%Z) (t :: r).
Proof.
  revert t. induction r as [|u r IH]; intros t; simpl.
  - split; [by left|]. repeat constructor. lia.
  - destruct (IH (Z.min t u)) as [Hin Hall]. simpl in Hin.
    apply Forall_cons in Hall as [Hm Hall]. split.
    + destruct Hin as [Hin|Hin]; [|by right; right].
      rewrite <- Hin. destruct (Z.min_spec t u) as [[_ ->]|[_ ->]];
        [by left|by right; left].
    + repeat constructor; [lia|lia|done].
Qed.

Lemma fold_max_spec (r : list Z) (t : Z) :
  let m := fold_left Z.max r t in
  In m (t :: r) /\ Forall (fun x => (x <= m)%Z) (t :: r).
Proof.
  revert t. induction r as [|u r IH]; intros t; simpl.
  - split; [by left|]. repeat constructor. lia.
  - destruct (IH (Z.max t u)) as [Hin Hall]. simpl in Hin.
    apply Forall_cons in Hall as [Hm Hall]. split.
    + destruct Hin as [Hin|Hin]; [|by right; right].
      rewrite <- Hin. destruct (Z.max_spec t u) as [[_ ->]|[_ ->]];
        [by right; left|by left].
    + repeat constructor; [lia|lia|done].
Qed.

Lemma increasing_bounds (t : Z) (r : list Z) :
  strictly_increasing (t :: r) = true ->
  Forall (fun x => (t <= x)%Z) (t :: r) /\
  (forall z, last (t :: r) = Some z -> Forall (fun x => (x <= z)%Z) (t :: r)).
Proof.
  revert t. induction r as [|u r IH]; intros t H.
  - split; [repeat constructor; lia|]. intros z [= <-].
    repeat constructor. lia.
  - change (strictly_increasing (t :: u :: r))
      with ((t <? u)%Z && strictly_increasing (u :: r)) in H.
    apply andb_true_iff in H as [Htu Hr].
    destruct (IH u Hr) as [Hlo Hhi]. split.
    + constructor; [lia|].
      eapply Forall_impl; [exact Hlo|]. simpl. intros x Hx. lia.
    + intros z Hz. change (last (t :: u :: r)) with (last (u :: r)) in Hz.
      pose proof (Hhi z Hz) as Hall. constructor; [|done].
      apply Forall_cons in Hall as [Hu _]. lia.
Qed.

Lemma index_min_increasing (ts : list Z) :
  strictly_increasing ts = true ->
  index_min (DatetimeIndex ts) = first_of ts.
Proof.
  destruct ts as [|t r]; [done|]. intros H. simpl. f_equal.
  destruct (fold_min_spec r t) as [Hin Hall].
  destruct (increasing_bounds t r H) as [Hlo _].
  apply Forall_cons in Hall as [Hm _].
  rewrite List.Forall_forall in Hlo. specialize (Hlo _ Hin). simpl in Hlo.
  lia.
Qed.

Lemma last_in (z : Z) (l : list Z) : last l = Some z -> In z l.
Proof.
  induction l as [|a [|b l] IH]; [done| |].
  - intros [= ->]. by left.
  - intros H. right. by apply IH.
Qed.

Lemma index_max_increasing (ts : list Z) :
  strictly_increasing ts = true ->
  index_max (DatetimeIndex ts) = last_of ts.
Proof.
  destruct ts as [|t r]; [done|]. intros H. unfold last_of.
  destruct (last (t :: r)) as [z|] eqn:Hz.
  - simpl. f_equal.
    destruct (fold_max_spec r t) as [Hin Hall].
    destruct (increasing_bounds t r H) as [_ Hhi].
    specialize (Hhi z Hz).
    rewrite List.Forall_forall in Hhi, Hall.
    specialize (Hhi _ Hin). specialize (Hall _ (last_in _ _ Hz)).
    simpl in *. lia.
  - exfalso. clear -Hz. revert t Hz.
    induction r as [|u r IH]; intros t Hz; [done|].
    change (last (t :: u :: r)) with (last (u :: r)) in Hz. by eapply IH.
Qed.

End Extent.

(** X17.  [index.min()] and [index.max()], the limits
    [plot_time_series] sets: on an index that is not empty they are
    timestamps of the index, the least and the greatest; they are the
    first and the last one when the index is strictly increasing. *)
Theorem index_extent (ts : list timestamp) :
  ts <> [] ->
  exists lo hi,
    index_min (DatetimeIndex ts) = Some lo /\
    index_max (DatetimeIndex ts) = Some hi /\
    In lo ts /\ In hi ts /\
    (forall t, In t ts -> (lo <= t <= hi)%Z) /\
    (strictly_increasing ts = true ->
     first_of ts = Some lo /\ last_of ts = Some hi).
Proof.
  destruct ts as [|t r]; [done|]. intros _.
  destruct (fold_min_spec r t) as [Hlo Hall_lo].
  destruct (fold_max_spec r t) as [Hhi Hall_hi].
  exists (fold_left Z.min r t), (fold_left Z.max r t).
  split; [done|]. split; [done|]. split; [done|]. split; [done|]. split.
  - intros x Hx. rewrite List.Forall_forall in Hall_lo, Hall_hi.
    specialize (Hall_lo _ Hx). specialize (Hall_hi _ Hx). simpl in *. lia.
  - intros H. split.
    + by rewrite <- (index_min_increasing _ H).
    + by rewrite <- (index_max_increasing _ H).
Qed.

Section VendorTables.

Lemma has_column_names n d :
  has_column n d = true <-> In n (column_names d).
Proof.
  unfold has_column, column_names. rewrite existsb_names, existsb_exists.
  split.
  - intros (x & Hx & He). apply String.eqb_eq in He. by subst.
  - intros H. exists n. split; [done|]. apply String.eqb_refl.
Qed.

Lemma getitems_names keys d d' n :
  getitems keys d = Ret d' ->
  In n (column_names d') -> In n keys.
Proof.
  intros H. apply getitems_inv in H as (_ & Hc & _).
  unfold column_names. rewrite Hc. apply flat_map_names_subset.
Qed.

Lemma getitems_columns_name keys d d' :
  getitems keys d = Ret d' -> df_columns_name d' = df_columns_name d.
Proof.
  unfold getitems.
  destruct (List.filter _ keys); [|by destruct (_ =? _)%nat].
  by intros [= <-].
Qed.

Lemma yf_run_some yf_download fx_pair interval start_date end_date w d w' :
  yf_get_fx_data yf_download fx_pair interval start_date end_date w
  = (Ret (Some d), w') ->
  exists data cols,
    yf_download fx_pair start_date end_date interval = Ret data /\
    y_columns data = MultiColumns cols /\
    getitems yf_keys (yf_frame fx_pair data cols) = Ret d.
Proof.
  intros Hcall.
  destruct (yf_download fx_pair start_date end_date interval)
    as [data|e] eqn:Hans.
  - destruct (y_columns data) as [cols|cols] eqn:Hcols.
    + rewrite (yf_run_flat _ _ _ _ _ _ _ _ Hans Hcols) in Hcall. done.
    + rewrite (yf_run_multi _ _ _ _ _ _ _ _ Hans Hcols) in Hcall.
      destruct (getitems yf_keys (yf_frame fx_pair data cols))
        as [d0|e] eqn:Hsel; [|done].
      injection Hcall as -> <-. by exists data, cols.
  - rewrite (yf_run_raise _ _ _ _ _ _ _ Hans) in Hcall. done.
Qed.

Lemma yf_table_no_vwap yf_download fx_pair interval start_date end_date w d w' :
  yf_get_fx_data yf_download fx_pair interval start_date end_date w
  = (Ret (Some d), w') ->
  has_column "vwap" d = false /\ df_columns_name d = Some fx_pair.
Proof.
  intros Hcall.
  destruct (yf_run_some _ _ _ _ _ _ _ _ Hcall) as (data & cols & _ & _ & Hsel).
  split.
  - destruct (has_column "vwap" d) eqn:Hv; [|done].
    apply has_column_names in Hv.
    apply (getitems_names _ _ _ _ Hsel) in Hv.
    simpl in Hv. intuition discriminate.
  - by rewrite (getitems_columns_name _ _ _ Hsel).
Qed.

Lemma fred_run_some get_series indicator start_date end_date api_key w d w' :
  fetch_fred_data get_series indicator start_date end_date api_key w
  = (Ret (Some d), w') ->
  exists data,
    get_series indicator api_key = Ret data /\
    d = fred_frame indicator start_date end_date data.
Proof.
  intros Hcall.
  destruct (get_series indicator api_key) as [data|e] eqn:Hans.
  - rewrite (fred_run_series _ _ _ _ _ _ _ Hans) in Hcall.
    injection Hcall as <- _. by exists data.
  - rewrite (fred_run_raise _ _ _ _ _ _ _ Hans) in Hcall. done.
Qed.

Lemma fred_frame_columns_name indicator start_date end_date data :
  df_columns_name (fred_frame indicator start_date end_date data) = None.
Proof.
  unfold fred_frame. destruct (String.eqb indicator "CPIAUCSL");
    unfold setitem; simpl;
    repeat match goal with |- context [if ?b then _ else _] => destruct b end;
    done.
Qed.

End VendorTables.

Section CheckpointRun.
Variable yf_download : string -> string -> string -> string -> res YFrame.
Variables fx_pair interval start_date end_date : string.

(** The outcomes of the checkpoint's normalizer. *)
Lemma checkpoint_run w :
  Checkpoint.yf_get_fx_data yf_download fx_pair interval start_date end_date w
  = match yf_download fx_pair start_date end_date interval with
    | Raise e =>
        (Ret None,
         printed (sent w (YfDownload fx_pair start_date end_date interval))
           ("An error occurred: " +:+ str_exn e))
    | Ret data =>
        match y_columns data with
        | FlatColumns _ =>
            (Ret None,
             printed (sent w (YfDownload fx_pair start_date end_date interval))
               "An error occurred: Too many levels: Index has only 1 level, not 2")
        | MultiColumns cols =>
            match getitems Checkpoint.yf_keys (yf_frame fx_pair data cols) with
            | Ret d =>
                (Ret (Some d),
                 sent w (YfDownload fx_pair start_date end_date interval))
            | Raise e =>
                (Ret None,
                 printed
                   (sent w (YfDownload fx_pair start_date end_date interval))
                   ("An error occurred: " +:+ str_exn e))
            end
        end
    end.
Proof.
  unfold Checkpoint.yf_get_fx_data, try_except, bind, send, lift.
  destruct (yf_download fx_pair start_date end_date interval) as [data|e];
    [|done].
  destruct (y_columns data) as [cols|cols] eqn:Hc; [done|]. simpl.
  rewrite map_map.
  change (map (fun x => to_datetime_Ymd_HM (strftime_Ymd_HM x)) (y_index data))
    with (map floor_minute (y_index data)).
  fold (yf_frame fx_pair data cols). fold Checkpoint.yf_keys.
  by destruct (getitems Checkpoint.yf_keys (yf_frame fx_pair data cols)).
Qed.

(** What the checkpoint's normalizer returns: None after one printed
    line, or a table whose columns are among the four selected. *)
Lemma checkpoint_run_cases w :
  (exists line,
      Checkpoint.yf_get_fx_data yf_download fx_pair interval start_date
        end_date w
      = (Ret None,
         printed (sent w (YfDownload fx_pair start_date end_date interval))
           line)) \/
  (exists d,
      Checkpoint.yf_get_fx_data yf_download fx_pair interval start_date
        end_date w
      = (Ret (Some d),
         sent w (YfDownload fx_pair start_date end_date interval)) /\
      forall name, has_column name d = true -> In name Checkpoint.yf_keys).
Proof.
  rewrite checkpoint_run.
  destruct (yf_download fx_pair start_date end_date interval) as [data|e];
    [|left; by eexists].
  destruct (y_columns data) as [cols|cols]; [left; by eexists|].
  destruct (getitems Checkpoint.yf_keys (yf_frame fx_pair data cols))
    as [d|e] eqn:Hsel; [|left; by eexists].
  right. exists d. split; [done|]. intros name Hn.
  apply has_column_names in Hn. exact (getitems_names _ _ _ _ Hsel Hn).
Qed.

End CheckpointRun.

(** A new table without Adj Close handed to [calculate_volatility]. *)
Lemma calculate_volatility_key_error w (l : loc) d :
  heap w !! l = Some d -> empty d = false ->
  has_column "Adj Close" d = false ->
  calculate_volatility (Some l) w = (Raise (KeyError ["Adj Close"]), w).
Proof.
  intros Hl He Hc. unfold calculate_volatility.
  rewrite (bind_ret _ _ _ _ _ (deref_run _ _ _ Hl)), He.
  assert (read_series l "Adj Close" w = (Raise (KeyError ["Adj Close"]), w))
    as Hread.
  { unfold read_series.
    rewrite (bind_ret _ _ _ _ _ (deref_run _ _ _ Hl)).
    unfold bind, lift, getitem. unfold has_column in Hc.
    by rewrite (has_column_false_filter _ _ Hc). }
  unfold bind at 1. by rewrite Hread.
Qed.

Lemma extract_key_error d w :
  empty d = false -> has_column "Adj Close" d = false ->
  (df <- new_table (Some d) ;; calculate_volatility df) w
  = (Raise (KeyError ["Adj Close"]),
     with_heap w (<[fresh (dom (heap w)) := d]> (heap w))).
Proof.
  intros He Hc. unfold new_table, bind at 1, bind at 1, alloc, ret.
  rewrite (calculate_volatility_key_error _ _ d); [done| |done|done].
  apply lookup_insert_eq.
Qed.

Lemma extract_empty d w :
  empty d = true ->
  (df <- new_table (Some d) ;; calculate_volatility df) w
  = (Ret None,
     printed (with_heap w (<[fresh (dom (heap w)) := d]> (heap w))) error_line).
Proof.
  intros He. unfold new_table, bind at 1, bind at 1, alloc, ret.
  rewrite (calculate_volatility_empty _ _ d); [done| |done].
  apply lookup_insert_eq.
Qed.

(** X12.  The first composed cell of the checkpoint copy,
    [calculate_volatility(yf_get_fx_data(...))] with the checkpoint's
    normalizer, which selects Close: it never yields a table.  When the
    normalizer returns None the cell returns None after two printed
    lines; when it returns a table, the table has no column but Open,
    High, Low and Close, it becomes a new object, and the cell prints
    'Error: DataFrame is empty or invalid.' and returns None if the table
    is empty, and otherwise raises KeyError 'Adj Close' with nothing
    printed. *)
Theorem checkpoint_fx_data_yields_no_table
    yf_download fx_pair interval start_date end_date w :
  match Checkpoint.yf_get_fx_data yf_download fx_pair interval start_date
          end_date w with
  | (Ret None, w1) =>
      exists line,
        Checkpoint.yf_volatility yf_download fx_pair interval start_date
          end_date w
        = (Ret None, printed w1 error_line) /\
        stdout (printed w1 error_line) = stdout w ++ [line; error_line] /\
        heap w1 = heap w
  | (Ret (Some d), w1) =>
      (forall name, has_column name d = true ->
                    In name ["Open"; "High"; "Low"; "Close"]) /\
      stdout w1 = stdout w /\ heap w1 = heap w /\
      exists l,
        heap w !! l = None /\
        Checkpoint.yf_volatility yf_download fx_pair interval start_date
          end_date w
        = if empty d
          then (Ret None,
                printed (with_heap w1 (<[l := d]> (heap w))) error_line)
          else (Raise (KeyError ["Adj Close"]),
                with_heap w1 (<[l := d]> (heap w)))
  | (Raise _, _) => False
  end /\
  forall l,
    fst (Checkpoint.yf_volatility yf_download fx_pair interval start_date
           end_date w)
    <> Ret (Some l).
Proof.
  unfold Checkpoint.yf_volatility.
  destruct (checkpoint_run_cases yf_download fx_pair interval start_date
              end_date w) as [[line Hrun]|(d & Hrun & Hnames)].
  - rewrite Hrun, (bind_ret _ _ _ _ _ Hrun), extract_none. split; [|done].
    exists line. split; [done|]. simpl. by rewrite <- app_assoc.
  - rewrite Hrun, (bind_ret _ _ _ _ _ Hrun).
    assert (has_column "Adj Close" d = false) as Hno.
    { destruct (has_column "Adj Close" d) eqn:Hc; [|done].
      apply Hnames in Hc. simpl in Hc. intuition discriminate. }
    destruct (alloc_run d
                (sent w (YfDownload fx_pair start_date end_date interval)))
      as [_ Hfresh]. simpl in Hfresh.
    destruct (empty d) eqn:He.
    + rewrite (extract_empty _ _ He). split; [|done].
      split; [exact Hnames|]. split; [done|]. split; [done|].
      eexists. split; [exact Hfresh|]. done.
    + rewrite (extract_key_error _ _ He Hno). split; [|done].
      split; [exact Hnames|]. split; [done|]. split; [done|].
      eexists. split; [exact Hfresh|]. done.
Qed.

(** X18.  [plot_time_series] on a table that lacks the column prints
    'Error: Column '<column>' not found in DataFrame.' and returns,
    without a single call to the plotting library and without touching
    the tables or the requests.  Every table [yf_get_fx_data] returns
    lacks every column but Open, High, Low and Adj Close, and every table
    [polygon_get_fx_data] returns lacks every column but these, Volume
    and vwap: the vendors' own Close is among the columns refused. *)
Theorem plot_time_series_guard backend column s :
  (forall df,
     has_column column df = false ->
     exists s',
       plot_time_series backend df column s = (Ret tt, s') /\
       stdout (screen_world s')
       = stdout (screen_world s)
         ++ ["Error: Column '" +:+ column +:+ "' not found in DataFrame."] /\
       heap (screen_world s') = heap (screen_world s) /\
       requests (screen_world s') = requests (screen_world s) /\
       drawn s' = drawn s) /\
  (forall yf_download fx_pair interval start_date end_date w d w',
     yf_get_fx_data yf_download fx_pair interval start_date end_date w
     = (Ret (Some d), w') ->
     ~ In column yf_keys -> has_column column d = false) /\
  (forall get_aggs fx_pair interval start_date end_date api_key w d w',
     polygon_get_fx_data get_aggs fx_pair interval start_date end_date
       api_key w = (Ret (Some d), w') ->
     ~ In column polygon_columns -> has_column column d = false).
Proof.
  split; [|split].
  - intros df H. eexists. split; [by apply plot_run_missing|]. done.
  - intros yf_download fx_pair interval start_date end_date w d w' Hcall Hout.
    destruct (yf_run_some _ _ _ _ _ _ _ _ Hcall)
      as (data & cols & _ & _ & Hsel).
    destruct (has_column column d) eqn:Hc; [|done].
    apply has_column_names in Hc.
    destruct (Hout (getitems_names _ _ _ _ Hsel Hc)).
  - intros get_aggs fx_pair interval start_date end_date api_key w d w' Hcall
      Hout.
    destruct (polygon_run_some _ _ _ _ _ _ _ _ _ Hcall) as (a & r & _ & ->).
    destruct (has_column column (polygon_frame fx_pair (a :: r))) eqn:Hc;
      [|done].
    apply has_column_names in Hc. destruct (Hout Hc).
Qed.

(** X19.  [plot_time_series] on a table that has the column has no
    handler: the calls it makes to the plotting library are all accepted
    but possibly the last; when it returns, the last call is
    [plt.show()], which comes nowhere before, and the column and its
    label were drawn; when it raises, the exception is the answer of the
    last call made.  Nothing is printed. *)
Theorem plot_time_series_stops_at_refusal backend df column s :
  has_column column df = true ->
  exists l,
    snd (plot_time_series backend df column s)
    = mkScreen (screen_world s) (drawn s ++ l) /\
    Forall (fun c => backend c = Ret tt) (removelast l) /\
    ~ In Show (removelast l) /\
    match fst (plot_time_series backend df column s) with
    | Ret _ =>
        last l = Some Show /\ backend Show = Ret tt /\
        In (PlotColumns (df_index df)
              (List.filter (has_name column) (df_columns df))) l /\
        In (SetYlabel column 12) l
    | Raise e => exists c, last l = Some c /\ backend c = Raise e
    end.
Proof.
  intros Hcol.
  destruct (plot_run backend df column s Hcol) as (l & Hs & Ha & Hn & _ & Hr).
  exists l. split; [done|]. split; [done|]. split; [done|].
  destruct (fst (plot_time_series backend df column s)); [|done].
  tauto.
Qed.

(** X20.  The x axis by vendor: plotting a table returned by
    [polygon_get_fx_data] never sets the x limits, the date formatter or
    the locator (the table has the column vwap); plotting a column of a
    table returned by [yf_get_fx_data], when the call returns, sets the
    x limits to the least and greatest timestamp of the index. *)
Theorem x_limits_by_vendor backend column s :
  (forall get_aggs fx_pair interval start_date end_date api_key w d w',
     polygon_get_fx_data get_aggs fx_pair interval start_date end_date
       api_key w = (Ret (Some d), w') ->
     forall c,
       In c (drawn (snd (plot_time_series backend d column s))) ->
       sets_x_axis c = true -> In c (drawn s)) /\
  (forall yf_download fx_pair interval start_date end_date w d w',
     yf_get_fx_data yf_download fx_pair interval start_date end_date w
     = (Ret (Some d), w') ->
     has_column column d = true ->
     fst (plot_time_series backend d column s) = Ret tt ->
     In (SetXlim (index_min (df_index d)) (index_max (df_index d)))
        (drawn (snd (plot_time_series backend d column s)))).
Proof.
  split.
  - intros get_aggs fx_pair interval start_date end_date api_key w d w' Hcall
      c Hin Hc.
    destruct (polygon_run_some _ _ _ _ _ _ _ _ _ Hcall) as (a & r & _ & ->).
    destruct (has_column column (polygon_frame fx_pair (a :: r))) eqn:Hcol.
    + destruct (plot_run backend _ column s Hcol) as (l & Hs & _ & _ & Hv & _).
      rewrite Hs in Hin. simpl in Hin. apply in_app_or in Hin as [Hin|Hin];
        [done|].
      specialize (Hv eq_refl). rewrite forallb_forall in Hv.
      specialize (Hv _ Hin). by rewrite Hc in Hv.
    + by rewrite (plot_run_missing backend _ _ s Hcol) in Hin.
  - intros yf_download fx_pair interval start_date end_date w d w' Hcall
      Hcol Hret.
    destruct (yf_table_no_vwap _ _ _ _ _ _ _ _ Hcall) as [Hv _].
    destruct (plot_run backend _ column s Hcol) as (l & Hs & _ & _ & _ & Hr).
    rewrite Hret in Hr. destruct Hr as (_ & _ & _ & _ & _ & Hx).
    rewrite Hs. simpl. apply in_or_app. right. by apply Hx.
Qed.

(** X21.  The title [plot_time_series] sets, when it returns, is the
    quoted name, the column and the words Over Time, where the name is
    the name of the column axis, or FX Pair
    when that name is absent or empty: FX Pair for every table of
    [fetch_fred_data], the pair for the tables of the two normalizers
    unless the pair is the empty string. *)
Theorem plot_title_by_vendor backend column s :
  (forall d,
     has_column column d = true ->
     fst (plot_time_series backend d column s) = Ret tt ->
     In (title_of (axis_label d) column)
        (drawn (snd (plot_time_series backend d column s)))) /\
  (forall get_series indicator start_date end_date api_key w d w',
     fetch_fred_data get_series indicator start_date end_date api_key w
     = (Ret (Some d), w') ->
     axis_label d = "FX Pair") /\
  (forall get_aggs fx_pair interval start_date end_date api_key w d w',
     polygon_get_fx_data get_aggs fx_pair interval start_date end_date
       api_key w = (Ret (Some d), w') ->
     axis_label d = if String.eqb fx_pair "" then "FX Pair" else fx_pair) /\
  (forall yf_download fx_pair interval start_date end_date w d w',
     yf_get_fx_data yf_download fx_pair interval start_date end_date w
     = (Ret (Some d), w') ->
     axis_label d = if String.eqb fx_pair "" then "FX Pair" else fx_pair).
Proof.
  split; [|split; [|split]].
  - intros d Hcol Hret.
    destruct (plot_run backend _ column s Hcol) as (l & Hs & _ & _ & _ & Hr).
    rewrite Hret in Hr. destruct Hr as (_ & _ & _ & _ & Ht & _).
    rewrite Hs. simpl. apply in_or_app. by right.
  - intros get_series indicator start_date end_date api_key w d w' Hcall.
    destruct (fred_run_some _ _ _ _ _ _ _ _ Hcall) as (data & _ & ->).
    unfold axis_label. by rewrite fred_frame_columns_name.
  - intros get_aggs fx_pair interval start_date end_date api_key w d w' Hcall.
    destruct (polygon_run_some _ _ _ _ _ _ _ _ _ Hcall) as (a & r & _ & ->).
    unfold axis_label. simpl. by destruct fx_pair.
  - intros yf_download fx_pair interval start_date end_date w d w' Hcall.
    destruct (yf_table_no_vwap _ _ _ _ _ _ _ _ Hcall) as [_ Hn].
    unfold axis_label. rewrite Hn. by destruct fx_pair.
Qed.

(** X22.  Every table [polygon_get_fx_data] returns carries the vendor's
    bars field by field: one row per bar, the index named Datetime, the
    column axis named after the pair, Open, High, Low, Volume and vwap
    the vendor's fields of these names and Adj Close the vendor's close;
    the fields otc, transactions and timestamp are no columns, nor is
    Datetime; nothing is printed. *)
Theorem polygon_columns_are_the_vendors
    get_aggs fx_pair interval start_date end_date api_key w d w' :
  polygon_get_fx_data get_aggs fx_pair interval start_date end_date api_key w
  = (Ret (Some d), w') ->
  exists aggs,
    get_aggs ("C:" +:+ fx_pair) 1%Z interval start_date end_date api_key
    = Ret aggs /\
    nrows d = length aggs /\
    df_index_name d = Some "Datetime" /\
    df_columns_name d = Some fx_pair /\
    getitem "Open" d = Ret (Floats (map agg_open aggs)) /\
    getitem "High" d = Ret (Floats (map agg_high aggs)) /\
    getitem "Low" d = Ret (Floats (map agg_low aggs)) /\
    getitem "Adj Close" d = Ret (Floats (map agg_close aggs)) /\
    getitem "Volume" d = Ret (Floats (map agg_volume aggs)) /\
    getitem "vwap" d = Ret (Floats (map agg_vwap aggs)) /\
    (forall name,
        In name ["otc"; "transactions"; "timestamp"; "Datetime"; "close"] ->
        has_column name d = false) /\
    stdout w' = stdout w.
Proof.
  intros Hcall.
  pose proof (polygon_run_world _ _ _ _ _ _ _ _ _ Hcall) as ->.
  destruct (polygon_run_some _ _ _ _ _ _ _ _ _ Hcall) as (a & r & Hans & ->).
  exists (a :: r). split; [done|].
  split; [unfold nrows; simpl; by rewrite length_map|].
  repeat (split; [reflexivity|]).
  split; [|done].
  intros name Hin. simpl in Hin.
  destruct Hin as [<-|[<-|[<-|[<-|[<-|[]]]]]]; reflexivity.
Qed.

Lemma multiplier_within_rounding_witness :
  exists w' vol avg mult,
    calculate_volatility (Some 0%nat) (holding three_rows)
    = (Ret (Some 0%nat), w') /\
    column_at w' 0%nat "Volatility" = Some vol /\
    column_at w' 0%nat "Average_Volatility"
    = Some (replicate (nrows three_rows) avg) /\
    column_at w' 0%nat "Volatility_Multiplier" = Some mult /\
    forall (t : nat) v a,
      vol !! t = Some (Fin v) -> avg = Fin a -> 0 < a ->
      exists m, mult !! t = Some (Fin m) /\ Rabs (m * a - v) <= 0.005 * a.
Proof.
  apply (multiplier_within_rounding (holding three_rows) 0%nat three_rows
           example_closes);
    [by apply table_at_holding|done|reflexivity].
Defined.

Lemma calculate_volatility_twice_witness :
  exists w',
    calculate_volatility (Some 0%nat) (holding three_rows)
    = (Ret (Some 0%nat), w') /\
    calculate_volatility (Some 0%nat) w' = (Ret (Some 0%nat), w').
Proof.
  apply (calculate_volatility_twice (holding three_rows) 0%nat three_rows
           example_closes);
    [by apply table_at_holding|done|reflexivity].
Defined.

Lemma calculate_volatility_without_closes_witness :
  calculate_volatility (Some 0%nat) (holding without_closes)
  = (Raise (KeyError ["Adj Close"]), holding without_closes).
Proof.
  apply (calculate_volatility_without_closes (holding without_closes) 0%nat
           without_closes); reflexivity.
Defined.

Lemma calculate_volatility_keeps_table_witness :
  exists d' w',
    calculate_volatility (Some 0%nat) (holding three_rows)
    = (Ret (Some 0%nat), w') /\
    table_at w' 0%nat d' /\
    nrows d' = 3%nat /\
    getitem "Adj Close" d' = Ret (Floats example_closes).
Proof.
  destruct (calculate_volatility_keeps_table (holding three_rows) 0%nat
              three_rows example_closes)
    as (d' & w' & Hrun & Ht & Hn & _ & Hsame);
    [by apply table_at_holding|done|reflexivity|].
  exists d', w'. split; [done|]. split; [done|]. split; [done|].
  rewrite Hsame; [reflexivity|]. simpl. intuition discriminate.
Defined.

Lemma volatility_is_scale_free_witness :
  exists w' w2',
    calculate_volatility (Some 0%nat) (holding three_rows)
    = (Ret (Some 0%nat), w') /\
    calculate_volatility (Some 0%nat) (holding doubled_rows)
    = (Ret (Some 0%nat), w2') /\
    forall name, In name new_columns ->
                 column_at w2' 0%nat name = column_at w' 0%nat name.
Proof.
  apply (volatility_is_scale_free 2 (holding three_rows) 0%nat three_rows
           (holding doubled_rows) 0%nat doubled_rows example_closes);
    [lra|by apply table_at_holding|done|reflexivity
    |by apply table_at_holding|reflexivity|reflexivity].
Defined.

Lemma volatility_is_not_negative_witness :
  exists w' vol avg,
    calculate_volatility (Some 0%nat) (holding three_rows)
    = (Ret (Some 0%nat), w') /\
    column_at w' 0%nat "Volatility" = Some vol /\
    column_at w' 0%nat "Average_Volatility" = Some [avg; avg; avg] /\
    (forall (t : nat) x, vol !! t = Some x -> x = NaN \/ nonneg x).
Proof.
  destruct (volatility_is_not_negative (holding three_rows) 0%nat three_rows
              example_closes)
    as (w' & vol & avg & Hrun & Hvol & Havg & Hsign & _);
    [by apply table_at_holding|done|reflexivity|].
  by exists w', vol, avg.
Defined.


Lemma volatility_of_no_data_witness :
  exists line,
    polygon_volatility no_aggs "USDGBP" "minute" "2024-01-15" "2025-01-15"
      "key" initial
    = (Ret None,
       printed
         (printed
            (sent initial
               (GetAggs "C:USDGBP" 1 "minute" "2024-01-15" "2025-01-15" "key"))
            "No data found.")
         error_line) /\
    stdout
      (printed
         (printed
            (sent initial
               (GetAggs "C:USDGBP" 1 "minute" "2024-01-15" "2025-01-15" "key"))
            "No data found.")
         error_line)
    = [line; error_line].
Proof.
  destruct volatility_of_no_data as [_ H].
  destruct (H no_aggs "USDGBP" "minute" "2024-01-15" "2025-01-15" "key"
              initial _ eq_refl) as (line & Hrun & Hout & _).
  by exists line.
Defined.

Lemma yf_missing_fields_witness :
  yf_get_fx_data old_yf_download "GBPUSD=X" "1m" "2025-03-05" "2025-03-08"
    initial
  = (Ret None,
     printed (sent initial (YfDownload "GBPUSD=X" "2025-03-05" "2025-03-08" "1m"))
       ("An error occurred: " +:+ dquote +:+ repr_list ["Adj Close"]
          +:+ " not in index" +:+ dquote)) /\
  exists text,
    yf_get_fx_data volume_yf_download "GBPUSD=X" "1m" "2025-03-05"
      "2025-03-08" initial
    = (Ret None,
       printed
         (sent initial (YfDownload "GBPUSD=X" "2025-03-05" "2025-03-08" "1m"))
         ("An error occurred: " +:+ text)).
Proof.
  split.
  - exact (yf_missing_fields old_yf_download "GBPUSD=X" "1m" "2025-03-05"
             "2025-03-08" initial yframe_without_adj_close eq_refl).
  - exact (yf_missing_fields volume_yf_download "GBPUSD=X" "1m" "2025-03-05"
             "2025-03-08" initial yframe_without_prices eq_refl).
Defined.

Lemma yf_index_minutes_witness :
  exists data ts,
    sample_yf_download "GBPUSD=X" "2025-03-05" "2025-03-08" "1m" = Ret data /\
    index_timestamps sample_yf_result = Some ts /\
    ts = y_index data.
Proof.
  destruct (yf_index_minutes sample_yf_download "GBPUSD=X" "1m" "2025-03-05"
              "2025-03-08" initial sample_yf_result _ sample_yf_run)
    as (data & ts & Hans & Hi & _ & Hsame & _).
  exists data, ts. split; [done|]. split; [done|].
  apply Hsame. injection Hans as <-. reflexivity.
Defined.

Lemma yf_columns_are_the_vendors_witness :
  exists d,
    yf_get_fx_data sample_yf_download "GBPUSD=X" "1m" "2025-03-05"
      "2025-03-08" initial
    = (Ret (Some d),
       sent initial (YfDownload "GBPUSD=X" "2025-03-05" "2025-03-08" "1m")) /\
    column_names d = yf_keys /\
    df_columns_name d = Some "GBPUSD=X" /\
    nrows d = 2%nat.
Proof.
  destruct (yf_columns_are_the_vendors sample_yf_download "GBPUSD=X" "1m"
              "2025-03-05" "2025-03-08" initial sample_yframe _
              eq_refl eq_refl eq_refl eq_refl)
    as (d & Hrun & Hn & Hc & _ & Hr & _).
  by exists d.
Defined.

Lemma checkpoint_sample_run :
  Checkpoint.yf_get_fx_data sample_yf_download "GBPUSD=X" "1m" "2025-03-05"
    "2025-03-08" initial
  = (Ret (Some sample_checkpoint_result),
     sent initial (YfDownload "GBPUSD=X" "2025-03-05" "2025-03-08" "1m")).
Proof. reflexivity. Qed.

(** On the sample answer the checkpoint's cell raises. *)
Lemma checkpoint_fx_data_yields_no_table_witness :
  exists l w',
    Checkpoint.fx_data sample_yf_download initial
    = (Raise (KeyError ["Adj Close"]), w') /\
    stdout w' = [] /\
    heap w' !! l = Some sample_checkpoint_result.
Proof.
  destruct (checkpoint_fx_data_yields_no_table sample_yf_download "GBPUSD=X"
              "1m" "2025-03-05" "2025-03-08" initial) as [H _].
  rewrite checkpoint_sample_run in H.
  destruct H as (_ & _ & _ & l & _ & Hcell).
  exists l. eexists. split; [exact Hcell|]. split; [done|].
  exact (lookup_insert_eq _ _ _).
Defined.

Lemma percentage_change_column_witness :
  exists d pc,
    fetch_fred_data (sample_get_series cpi_history) "CPIAUCSL"
      jan_2015 jan_2016 "key" initial
    = (Ret (Some d), sent initial (GetSeries "CPIAUCSL" "key")) /\
    getitem "Percentage_Change" d = Ret (Floats pc) /\
    length pc = 13%nat /\
    pc !! 0%nat = Some NaN /\
    exists m, pc !! 11%nat = Some (Fin m) /\
              rounded_to 4 (102 / 100 - 1) m.
Proof.
  destruct (percentage_change_column (sample_get_series cpi_history)
              "CPIAUCSL" jan_2015 jan_2016 "key" initial cpi_history
              eq_refl eq_refl)
    as (d & v & pc & Hrun & -> & Hpc & Hlen & Hnull & _ & _ & Hnear).
  exists d, pc. split; [done|]. split; [done|]. split; [done|].
  split; [by apply Hnull|].
  apply (Hnear 10%nat 102 100); [reflexivity|reflexivity|lra|].
  apply Rabs_le. lra.
Defined.

Lemma fetch_fred_data_window_witness :
  exists d,
    fetch_fred_data (sample_get_series cpi_history) "UNRATE"
      jan_2016 jan_2015 "key" initial
    = (Ret (Some d), sent initial (GetSeries "UNRATE" "key")) /\
    index_timestamps d = Some [] /\
    nrows d = 0%nat.
Proof.
  destruct (fetch_fred_data_window (sample_get_series cpi_history) "UNRATE"
              jan_2016 jan_2015 "key" initial cpi_history eq_refl eq_refl)
    as (d & dates & Hrun & Hi & _ & Hn & _ & _ & Hrev & _).
  assert (dates = []) as -> by (apply Hrev; reflexivity).
  by exists d.
Defined.

Lemma fetch_fred_data_schema_witness :
  column_names (fred_frame "UNRATE" jan_2015 jan_2016 cpi_history)
  = ["UNRATE"; "Percentage_Change"] /\
  aligned (fred_frame "UNRATE" jan_2015 jan_2016 cpi_history) = true.
Proof.
  destruct (fetch_fred_data_schema (sample_get_series cpi_history) "UNRATE"
              jan_2015 jan_2016 "key" initial
              (fred_frame "UNRATE" jan_2015 jan_2016 cpi_history)
              (sent initial (GetSeries "UNRATE" "key")))
    as (Hn & Ha & _); [neq_str|reflexivity|].
  by split.
Defined.

Lemma plot_time_series_guard_witness :
  exists s',
    plot_time_series accepting sample_yf_result "Close" (blank initial)
    = (Ret tt, s') /\
    stdout (screen_world s')
    = ["Error: Column 'Close' not found in DataFrame."] /\
    drawn s' = [].
Proof.
  destruct (plot_time_series_guard accepting "Close" (blank initial))
    as (Hguard & Hyf & _).
  destruct (Hguard sample_yf_result) as (s' & Hrun & Hout & _ & _ & Hd).
  - apply (Hyf _ _ _ _ _ _ _ _ sample_yf_run). simpl. intuition discriminate.
  - by exists s'.
Defined.

Lemma plot_time_series_stops_at_refusal_witness :
  exists l,
    snd (plot_time_series accepting three_rows "Adj Close" (blank initial))
    = mkScreen initial l /\
    last l = Some Show /\ ~ In Show (removelast l).
Proof.
  destruct (plot_time_series_stops_at_refusal accepting three_rows
              "Adj Close" (blank initial) eq_refl)
    as (l & Hs & _ & Hn & Hr).
  exists l. split; [done|]. split; [|done]. apply Hr.
Defined.

Lemma index_extent_witness :
  exists lo hi,
    index_min (DatetimeIndex [0; 60000; 120000]%Z) = Some lo /\
    index_max (DatetimeIndex [0; 60000; 120000]%Z) = Some hi /\
    first_of [0; 60000; 120000]%Z = Some lo /\
    last_of [0; 60000; 120000]%Z = Some hi.
Proof.
  destruct (index_extent [0; 60000; 120000]%Z)
    as (lo & hi & Hlo & Hhi & _ & _ & _ & Hends); [done|].
  destruct (Hends eq_refl) as [Hfirst Hlast].
  by exists lo, hi.
Defined.

Lemma x_limits_by_vendor_witness :
  In (SetXlim (Some 1741132800000%Z) (Some 1741132860000%Z))
     (drawn (snd (plot_time_series accepting sample_yf_result "Adj Close"
                    (blank initial)))) /\
  forall c,
    In c (drawn (snd (plot_time_series accepting
                        (polygon_frame "USDGBP" sample_aggs) "Adj Close"
                        (blank initial)))) ->
    sets_x_axis c = false.
Proof.
  destruct (x_limits_by_vendor accepting "Adj Close" (blank initial))
    as [Hb Ha].
  split.
  - exact (Ha _ _ _ _ _ _ _ _ sample_yf_run eq_refl eq_refl).
  - intros c Hin. destruct (sets_x_axis c) eqn:Hc; [|done].
    destruct (Hb _ _ _ _ _ _ _ _ _ sample_polygon_run c Hin Hc).
Defined.

Lemma plot_title_by_vendor_witness :
  In (title_of "USDGBP" "vwap")
     (drawn (snd (plot_time_series accepting
                    (polygon_frame "USDGBP" sample_aggs) "vwap"
                    (blank initial)))) /\
  axis_label (fred_frame "UNRATE" jan_2015 jan_2016 cpi_history) = "FX Pair".
Proof.
  destruct (plot_title_by_vendor accepting "vwap" (blank initial))
    as (Ht & Hfred & _ & _).
  split.
  - exact (Ht (polygon_frame "USDGBP" sample_aggs) eq_refl eq_refl).
  - apply (Hfred (sample_get_series cpi_history) "UNRATE" jan_2015 jan_2016
             "key" initial _ (sent initial (GetSeries "UNRATE" "key"))).
    reflexivity.
Defined.

Lemma polygon_columns_are_the_vendors_witness :
  getitem "Adj Close" (polygon_frame "USDGBP" sample_aggs)
  = Ret (Floats [Fin 0.78513; Fin 0.78528]) /\
  has_column "timestamp" (polygon_frame "USDGBP" sample_aggs) = false.
Proof.
  destruct (polygon_columns_are_the_vendors _ _ _ _ _ _ _ _ _
              sample_polygon_run)
    as (aggs & Hans & _ & _ & _ & _ & _ & _ & Hclose & _ & _ & Hgone & _).
  injection Hans as <-. split; [exact Hclose|].
  apply Hgone. simpl. tauto.
Defined.
